(** * The LLM Bridge client ([bridgeclient]) of the Mattermost AI plugin

    A shallow embedding of [public/bridgeclient] (client.go, transport.go and
    the discovery calls) together with the parts of the Go standard library
    the package drives: [strings], [encoding/json], [net/url], [net/http],
    [io] and [bufio].

    Go strings are byte sequences: they are [string] here, one [ascii] per
    byte.  Go's [int] is [Z].  A Go function returning [(T, error)] returns a
    pair whose second component is an [option error] ([None] is [nil]). *)

From Stdlib Require Import Bool Arith NArith ZArith Lia List String Ascii DecimalString.
Import ListNotations.
Open Scope string_scope.
Set Warnings "-register-all".

(** ** Bytes *)

Definition byte_lt (c : ascii) (n : N) : bool := (N_of_ascii c <? n)%N.

Definition byte_in (c : ascii) (lo hi : N) : bool :=
  ((lo <=? N_of_ascii c) && (N_of_ascii c <=? hi))%N.

Definition DQ : ascii := ascii_of_N 34.

(** Sample texts are written with a single quote where they have a double
    quote. *)
Fixpoint quoted (s : string) : string :=
  match s with
  | EmptyString => EmptyString
  | String c s' => String (if Ascii.eqb c "'" then DQ else c) (quoted s')
  end.

Definition LF : ascii := ascii_of_N 10.
Definition CR : ascii := ascii_of_N 13.
Definition TAB : ascii := ascii_of_N 9.

(** ** Package [strings] *)

Module strings.

Fixpoint HasPrefix (s prefix : string) {struct prefix} : bool :=
  match prefix, s with
  | EmptyString, _ => true
  | String p prefix', String c s' => Ascii.eqb c p && HasPrefix s' prefix'
  | String _ _, EmptyString => false
  end.
Arguments HasPrefix : simpl never.

(** [s[n:]] for [0 <= n <= len(s)]; [None] is the run-time panic
    "slice bounds out of range". *)
Fixpoint drop (n : nat) (s : string) : option string :=
  match n, s with
  | O, _ => Some s
  | S n', String _ s' => drop n' s'
  | S _, EmptyString => None
  end.

Definition sliceFrom (s : string) (i : Z) : option string :=
  if (i <? 0)%Z then None else drop (Z.to_nat i) s.

Definition TrimPrefix (s prefix : string) : string :=
  if HasPrefix s prefix
  then match drop (String.length prefix) s with Some r => r | None => s end
  else s.

(** [Index(s, substr)]: the index of the first instance of [substr] in [s],
    or [-1]. *)
Fixpoint IndexFrom (i : Z) (s substr : string) : Z :=
  if HasPrefix s substr then i
  else match s with
       | EmptyString => (-1)%Z
       | String _ s' => IndexFrom (i + 1)%Z s' substr
       end.

Definition Index (s substr : string) : Z := IndexFrom 0%Z s substr.

(** [Cut(s, sep)] for a one-byte separator: the text before and after the
    first [sep], and whether [sep] was found. *)
Fixpoint CutByte (s : string) (sep : ascii) : string * string * bool :=
  match s with
  | EmptyString => (EmptyString, EmptyString, false)
  | String c s' =>
      if Ascii.eqb c sep then (EmptyString, s', true)
      else let '(before, after, found) := CutByte s' sep in
           (String c before, after, found)
  end.

Fixpoint CountByte (s : string) (sep : ascii) : nat :=
  match s with
  | EmptyString => O
  | String c s' => (if Ascii.eqb c sep then 1 else 0) + CountByte s' sep
  end.

Fixpoint last (s : string) : option ascii :=
  match s with
  | EmptyString => None
  | String c EmptyString => Some c
  | String _ s' => last s'
  end.

Fixpoint dropLast (s : string) : string :=
  match s with
  | EmptyString => EmptyString
  | String _ EmptyString => EmptyString
  | String c s' => String c (dropLast s')
  end.

End strings.

(** ** Package [fmt]: the verbs the client uses *)

Module fmt.

(** [%d] of an [int]. *)
Definition d (n : Z) : string := NilZero.string_of_int (Z.to_int n).

End fmt.

(** ** Errors

    An [error] value is kept as the Go value that was built, not as its
    text: [fmt.Errorf] and [errors.New] without [%w] give an [errorString]
    holding the formatted message, [fmt.Errorf] ending in [%w] a
    [wrapError] holding the formatted prefix and the wrapped error.  The
    errors of the standard library are constructors of their own; their
    message texts are not modelled. *)

Inductive error : Type :=
| errorString (msg : string)
| wrapError (msg : string) (err : error)
| urlError (Op URL : string) (Err : error)      (* *url.Error *)
| EOF                                           (* io.EOF *)
| ErrTooLong                                    (* bufio.ErrTooLong *)
| SyntaxError                                   (* *json.SyntaxError *)
| UnmarshalTypeError                            (* *json.UnmarshalTypeError *)
| EscapeError (s : string).                     (* url.EscapeError *)

(** [fmt.Errorf(msg + "%w", err)]. *)
Definition Errorf_w (msg : string) (err : error) : option error :=
  Some (wrapError msg err).

(** ** Package [unicode/utf8] *)

Module utf8.

Definition b (n : N) : ascii := ascii_of_N n.

(** U+FFFD, [utf8.RuneError], as encoded: EF BF BD. *)
Definition RuneErrorBytes : string :=
  String (b 239) (String (b 191) (String (b 189) EmptyString)).

Definition cont (c : ascii) : bool := byte_in c 128 191.

(** The length of the well-formed encoding that starts with byte [c1]
    followed by [rest]; [0] when [DecodeRune] answers [(RuneError, 1)]. *)
Definition runeLen (c1 : ascii) (rest : string) : nat :=
  if byte_lt c1 128 then 1
  else if byte_in c1 194 223 then
    match rest with
    | String c2 _ => if cont c2 then 2 else 0
    | _ => 0
    end
  else if byte_in c1 224 239 then
    match rest with
    | String c2 (String c3 _) =>
        let lo := if (N_of_ascii c1 =? 224)%N then 160%N else 128%N in
        let hi := if (N_of_ascii c1 =? 237)%N then 159%N else 191%N in
        if byte_in c2 lo hi && cont c3 then 3 else 0
    | _ => 0
    end
  else if byte_in c1 240 244 then
    match rest with
    | String c2 (String c3 (String c4 _)) =>
        let lo := if (N_of_ascii c1 =? 240)%N then 144%N else 128%N in
        let hi := if (N_of_ascii c1 =? 244)%N then 143%N else 191%N in
        if byte_in c2 lo hi && cont c3 && cont c4 then 4 else 0
    | _ => 0
    end
  else 0.

Definition EncodeRune (r : N) : string :=
  (if r <? 128 then String (b r) EmptyString
   else if r <? 2048 then
     String (b (192 + r / 64)) (String (b (128 + r mod 64)) EmptyString)
   else if ((55296 <=? r) && (r <? 57344)) || (1114111 <? r) then RuneErrorBytes
   else if r <? 65536 then
     String (b (224 + r / 4096))
       (String (b (128 + (r / 64) mod 64))
          (String (b (128 + r mod 64)) EmptyString))
   else
     String (b (240 + r / 262144))
       (String (b (128 + (r / 4096) mod 64))
          (String (b (128 + (r / 64) mod 64))
             (String (b (128 + r mod 64)) EmptyString))))%N.

End utf8.

(** ** Package [encoding/json]

    [Valid]/[Unmarshal] first run the scanner of scanner.go over the whole
    input, a state machine stepping one byte at a time with a stack of open
    containers; [run] below is that machine, building the value as it goes.
    String literals are unquoted as [unquoteBytes] does (escapes, surrogate
    pairs, U+FFFD for malformed UTF-8). *)

Module json.

Inductive value : Type :=
| Null
| Bool (b : bool)
| Number (lit : string)
| Str (s : string)
| Array (elems : list value)
| Object (members : list (string * value)).

Definition maxNestingDepth : N := 10000.

Definition isSpace (c : ascii) : bool :=
  Ascii.eqb c " " || Ascii.eqb c TAB || Ascii.eqb c CR || Ascii.eqb c LF.

Definition hexval (c : ascii) : option N :=
  (if byte_in c 48 57 then Some (N_of_ascii c - 48)
   else if byte_in c 97 102 then Some (N_of_ascii c - 87)
   else if byte_in c 65 70 then Some (N_of_ascii c - 55)
   else None)%N.

Fixpoint revApp (s acc : string) : string :=
  match s with
  | EmptyString => acc
  | String c s' => revApp s' (String c acc)
  end.

Definition rev (s : string) : string := revApp s EmptyString.

(** *** Unquoting a string literal *)

Inductive ustate : Type :=
| UPlain                      (* between characters *)
| UCopy (n : nat)             (* [n] continuation bytes still to copy *)
| UEsc                        (* after a backslash *)
| UHex (n : nat) (acc : N).   (* inside \uXXXX, [n] digits to go *)

Definition isHigh (r : N) : bool := ((55296 <=? r) && (r <? 56320))%N.
Definition isLow (r : N) : bool := ((56320 <=? r) && (r <? 57344))%N.

Definition flush (pending : option N) : string :=
  match pending with
  | Some _ => utf8.RuneErrorBytes
  | None => EmptyString
  end.

Definition escByte (c : ascii) : ascii :=
  if Ascii.eqb c "b" then ascii_of_N 8
  else if Ascii.eqb c "f" then ascii_of_N 12
  else if Ascii.eqb c "n" then LF
  else if Ascii.eqb c "r" then CR
  else if Ascii.eqb c "t" then TAB
  else c.

(** [pending] is a high surrogate read from a [\u] escape and waiting for
    its low half. *)
Fixpoint unq (st : ustate) (pending : option N) (s : string) : string :=
  match s with
  | EmptyString => flush pending
  | String c rest =>
      match st with
      | UCopy n => String c (unq (match n with S (S m) => UCopy (S m) | _ => UPlain end) None rest)
      | UPlain =>
          if Ascii.eqb c "\" then unq UEsc pending rest
          else
            flush pending ++
            match utf8.runeLen c rest with
            | O => utf8.RuneErrorBytes ++ unq UPlain None rest
            | S O => String c (unq UPlain None rest)
            | S (S m) => String c (unq (UCopy (S m)) None rest)
            end
      | UEsc =>
          if Ascii.eqb c "u" then unq (UHex 4 0%N) pending rest
          else flush pending ++ String (escByte c) (unq UPlain None rest)
      | UHex n acc =>
          let r := (16 * acc + match hexval c with Some h => h | None => 0 end)%N in
          match n with
          | S (S m) => unq (UHex (S m) r) pending rest
          | _ =>
              match pending with
              | Some hi =>
                  if isLow r
                  then utf8.EncodeRune ((hi - 55296) * 1024 + (r - 56320) + 65536)%N
                         ++ unq UPlain None rest
                  else if isHigh r then utf8.RuneErrorBytes ++ unq UPlain (Some r) rest
                  else utf8.RuneErrorBytes ++ utf8.EncodeRune r ++ unq UPlain None rest
              | None =>
                  if isHigh r then unq UPlain (Some r) rest
                  else utf8.EncodeRune r ++ unq UPlain None rest
              end
          end
      end
  end.

Definition unquote (raw : string) : string := unq UPlain None raw.

(** *** The scanner *)

Inductive frame : Type :=
| FArray (acc : list value)
| FObject (acc : list (string * value)) (key : option string).

Inductive state : Type :=
| BeginValue
| BeginValueOrEmpty
| BeginStringOrEmpty
| BeginString
| InString (iskey : bool) (raw : string)
| InStringEsc (iskey : bool) (raw : string)
| InStringEscU (n : nat) (iskey : bool) (raw : string)
| Neg (lit : string)
| Zero (lit : string)
| Digits (lit : string)
| Dot (lit : string)
| Dot0 (lit : string)
| Exp (lit : string)
| ESign (lit : string)
| E0 (lit : string)
| Lit (rest : string) (v : value)
| AfterKey
| EndValue
| EndTop (v : value).

Definition config : Type := state * list frame.

Definition push (f : frame) (stack : list frame) (ok : state) : option config :=
  if (N.of_nat (List.length (f :: stack)) <=? maxNestingDepth)%N
  then Some (ok, f :: stack) else None.

(** A value is complete: hand it to the enclosing container. *)
Definition finish (v : value) (stack : list frame) : option config :=
  match stack with
  | [] => Some (EndTop v, [])
  | FArray acc :: st => Some (EndValue, FArray (v :: acc) :: st)
  | FObject acc (Some k) :: st => Some (EndValue, FObject ((k, v) :: acc) None :: st)
  | FObject _ None :: _ => None
  end.

Definition isDigit (c : ascii) : bool := byte_in c 48 57.

Definition stateBeginValue (c : ascii) (stack : list frame) : option config :=
  if isSpace c then Some (BeginValue, stack)
  else if Ascii.eqb c "{" then push (FObject [] None) stack BeginStringOrEmpty
  else if Ascii.eqb c "[" then push (FArray []) stack BeginValueOrEmpty
  else if Ascii.eqb c DQ then Some (InString false EmptyString, stack)
  else if Ascii.eqb c "-" then Some (Neg (String c EmptyString), stack)
  else if Ascii.eqb c "0" then Some (Zero (String c EmptyString), stack)
  else if Ascii.eqb c "t" then Some (Lit "rue" (Bool true), stack)
  else if Ascii.eqb c "f" then Some (Lit "alse" (Bool false), stack)
  else if Ascii.eqb c "n" then Some (Lit "ull" Null, stack)
  else if isDigit c then Some (Digits (String c EmptyString), stack)
  else None.

Definition stateEndTop (v : value) (c : ascii) : option config :=
  if isSpace c then Some (EndTop v, []) else None.

Definition stateEndValue (c : ascii) (stack : list frame) : option config :=
  if isSpace c then Some (EndValue, stack)
  else
    match stack with
    | FArray acc :: st =>
        if Ascii.eqb c "," then Some (BeginValue, stack)
        else if Ascii.eqb c "]" then finish (Array (List.rev acc)) st
        else None
    | FObject acc None :: st =>
        if Ascii.eqb c "," then Some (BeginString, stack)
        else if Ascii.eqb c "}" then finish (Object (List.rev acc)) st
        else None
    | _ => None
    end.

(** The byte [c] ends the value [v] without belonging to it (a number):
    complete [v], then look at [c] again. *)
Definition endWith (v : value) (c : ascii) (stack : list frame) : option config :=
  match finish v stack with
  | Some (EndTop v', _) => stateEndTop v' c
  | Some (_, stack') => stateEndValue c stack'
  | None => None
  end.

Definition stateBeginString (c : ascii) (stack : list frame) : option config :=
  if isSpace c then Some (BeginString, stack)
  else if Ascii.eqb c DQ then Some (InString true EmptyString, stack)
  else None.

Definition endString (iskey : bool) (raw : string) (stack : list frame) : option config :=
  let s := unquote (rev raw) in
  if iskey then
    match stack with
    | FObject acc None :: st => Some (AfterKey, FObject acc (Some s) :: st)
    | _ => None
    end
  else finish (Str s) stack.

Definition stateE0 (lit : string) (c : ascii) (stack : list frame) : option config :=
  if isDigit c then Some (E0 (String c lit), stack)
  else endWith (Number (rev lit)) c stack.

Definition stateESign (lit : string) (c : ascii) (stack : list frame) : option config :=
  if isDigit c then Some (E0 (String c lit), stack) else None.

Definition state0 (lit : string) (c : ascii) (stack : list frame) : option config :=
  if Ascii.eqb c "." then Some (Dot (String c lit), stack)
  else if Ascii.eqb c "e" || Ascii.eqb c "E" then Some (Exp (String c lit), stack)
  else endWith (Number (rev lit)) c stack.

Definition step (cfg : config) (c : ascii) : option config :=
  let '(st, stack) := cfg in
  match st with
  | BeginValue => stateBeginValue c stack
  | BeginValueOrEmpty =>
      if isSpace c then Some (BeginValueOrEmpty, stack)
      else if Ascii.eqb c "]" then
        match stack with
        | FArray acc :: st' => finish (Array (List.rev acc)) st'
        | _ => None
        end
      else stateBeginValue c stack
  | BeginStringOrEmpty =>
      if isSpace c then Some (BeginStringOrEmpty, stack)
      else if Ascii.eqb c "}" then
        match stack with
        | FObject acc None :: st' => finish (Object (List.rev acc)) st'
        | _ => None
        end
      else stateBeginString c stack
  | BeginString => stateBeginString c stack
  | InString iskey raw =>
      if Ascii.eqb c DQ then endString iskey raw stack
      else if Ascii.eqb c "\" then Some (InStringEsc iskey (String c raw), stack)
      else if byte_lt c 32 then None
      else Some (InString iskey (String c raw), stack)
  | InStringEsc iskey raw =>
      if Ascii.eqb c "b" || Ascii.eqb c "f" || Ascii.eqb c "n" || Ascii.eqb c "r"
         || Ascii.eqb c "t" || Ascii.eqb c "\" || Ascii.eqb c "/" || Ascii.eqb c DQ
      then Some (InString iskey (String c raw), stack)
      else if Ascii.eqb c "u" then Some (InStringEscU 4 iskey (String c raw), stack)
      else None
  | InStringEscU n iskey raw =>
      match hexval c with
      | Some _ =>
          match n with
          | S (S m) => Some (InStringEscU (S m) iskey (String c raw), stack)
          | _ => Some (InString iskey (String c raw), stack)
          end
      | None => None
      end
  | Neg lit =>
      if Ascii.eqb c "0" then Some (Zero (String c lit), stack)
      else if isDigit c then Some (Digits (String c lit), stack)
      else None
  | Zero lit => state0 lit c stack
  | Digits lit =>
      if isDigit c then Some (Digits (String c lit), stack) else state0 lit c stack
  | Dot lit => if isDigit c then Some (Dot0 (String c lit), stack) else None
  | Dot0 lit =>
      if isDigit c then Some (Dot0 (String c lit), stack)
      else if Ascii.eqb c "e" || Ascii.eqb c "E" then Some (Exp (String c lit), stack)
      else endWith (Number (rev lit)) c stack
  | Exp lit =>
      if Ascii.eqb c "+" || Ascii.eqb c "-" then Some (ESign (String c lit), stack)
      else stateESign lit c stack
  | ESign lit => stateESign lit c stack
  | E0 lit => stateE0 lit c stack
  | Lit expect v =>
      match expect with
      | String x more =>
          if Ascii.eqb c x then
            match more with
            | EmptyString => finish v stack
            | _ => Some (Lit more v, stack)
            end
          else None
      | EmptyString => None
      end
  | AfterKey =>
      if isSpace c then Some (AfterKey, stack)
      else if Ascii.eqb c ":" then Some (BeginValue, stack)
      else None
  | EndValue => stateEndValue c stack
  | EndTop v => stateEndTop v c
  end.

Fixpoint run (cfg : config) (data : string) : option config :=
  match data with
  | EmptyString => Some cfg
  | String c rest =>
      match step cfg c with
      | Some cfg' => run cfg' rest
      | None => None
      end
  end.

(** [scanner.eof]: the input is complete when one more space leaves the
    machine at the end of the top-level value. *)
Definition parse (data : string) : option value :=
  match run (BeginValue, []) data with
  | Some cfg =>
      match step cfg " " with
      | Some (EndTop v, _) => Some v
      | _ => None
      end
  | None => None
  end.

(** *** Decoding into struct fields *)

(** [foldName]: the case-insensitive key match of the decoder.  Only
    U+017F and U+212A fold to ASCII letters. *)
Fixpoint foldName (s : string) : string :=
  match s with
  | EmptyString => EmptyString
  | String c rest =>
      if byte_in c 97 122
      then String (ascii_of_N (N_of_ascii c - 32)) (foldName rest)
      else
        match rest with
        | String c2 rest2 =>
            if (N_of_ascii c =? 197)%N && (N_of_ascii c2 =? 191)%N
            then String "S" (foldName rest2)
            else
              match rest2 with
              | String c3 rest3 =>
                  if (N_of_ascii c =? 226)%N && (N_of_ascii c2 =? 132)%N
                     && (N_of_ascii c3 =? 170)%N
                  then String "K" (foldName rest3)
                  else String c (foldName rest)
              | EmptyString => String c (foldName rest)
              end
        | EmptyString => String c (foldName rest)
        end
  end.

Definition fieldMatches (name key : string) : bool :=
  String.eqb key name || String.eqb (foldName key) (foldName name).

(** The first error is kept ([d.saveError]); decoding goes on. *)
Definition saveError (saved err : option error) : option error :=
  match saved with
  | Some _ => saved
  | None => err
  end.

(** A JSON value stored into a Go [string]. *)
Definition intoString (v : value) (old : string) : string * option error :=
  match v with
  | Str s => (s, None)
  | Null => (old, None)
  | _ => (old, Some UnmarshalTypeError)
  end.

(** An object decoded into a struct: [set key v t] stores [v] in the field
    of [t] that [key] names, if any. *)
Fixpoint intoFields {T : Type} (set : string -> value -> T -> T * option error)
    (members : list (string * value)) (t : T) : T * option error :=
  match members with
  | [] => (t, None)
  | (key, v) :: more =>
      let '(t1, e1) := set key v t in
      let '(t2, e2) := intoFields set more t1 in
      (t2, saveError e1 e2)
  end.

Definition intoStruct {T : Type} (set : string -> value -> T -> T * option error)
    (v : value) (t : T) : T * option error :=
  match v with
  | Object members => intoFields set members t
  | Null => (t, None)
  | _ => (t, Some UnmarshalTypeError)
  end.

(** An array decoded into a slice of structs ([d.array]).  The decoder
    does not start from an empty slice: element [i] of the array is decoded
    into element [i] of the slice as it stands, growing the slice by one
    when [i] reaches its length, and the slice is cut to the length of the
    array at the end.  [pool] is what the backing array holds from index
    [i] on: first the elements the slice still has, then what earlier,
    longer contents have left behind its length; where the backing array
    has never been written, or has to be allocated anew, the element is
    [zero].  The result is the elements decoded, what is left of the pool
    (the backing array behind the new length) and the first error. *)
Fixpoint intoElems {T : Type} (set : string -> value -> T -> T * option error)
    (zero : T) (elems : list value) (pool : list T) : list T * list T * option error :=
  match elems with
  | [] => ([], pool, None)
  | v :: more =>
      let '(target, pool') :=
        match pool with
        | p :: rest => (p, rest)
        | [] => (zero, [])
        end in
      let '(t, e1) := intoStruct set v target in
      let '(ts, spare, e2) := intoElems set zero more pool' in
      (t :: ts, spare, saveError e1 e2)
  end.

(** A JSON value stored into a slice field holding [old], whose backing
    array holds [spare] behind them.  The empty array makes a new empty
    slice, [null] the nil slice; anything but an array leaves the slice as
    it is and is a type error. *)
Definition intoSlice {T : Type} (set : string -> value -> T -> T * option error)
    (zero : T) (v : value) (old spare : list T) : list T * list T * option error :=
  match v with
  | Array [] => ([], [], None)
  | Array elems => intoElems set zero elems (old ++ spare)%list
  | Null => ([], [], None)
  | _ => (old, spare, Some UnmarshalTypeError)
  end.

(** [Unmarshal(data, &t)] for a struct [t]. *)
Definition Unmarshal {T : Type} (set : string -> value -> T -> T * option error)
    (data : string) (t : T) : T * option error :=
  match parse data with
  | Some v => intoStruct set v t
  | None => (t, Some SyntaxError)
  end.

End json.

(** ** Package [io] *)

Module io.

(** An [io.ReadCloser] over a finite input: [data] is what [Read] delivers,
    [fin] the error it returns once [data] is exhausted ([EOF] at a regular
    end, anything else is a read fault).  Data and error come from separate
    [Read] calls, as with [bytes.Reader]. *)
Record ReadCloser : Type := { data : string; fin : error }.

(** [ReadAll] reads until an error; [EOF] is not reported as one. *)
Definition ReadAll (r : ReadCloser) : string * option error :=
  match fin r with
  | EOF => (data r, None)
  | err => (data r, Some err)
  end.

End io.

Module url.

(** The fields of [url.URL] that a relative request target fills.  The
    scheme, the opaque part, the user and the host are empty in every URL
    of the model. *)
Record URL : Type :=
  { Path : string; RawPath : string; ForceQuery : bool; RawQuery : string;
    Fragment : string; RawFragment : string }.

Definition stringContainsCTLByte (s : string) : bool :=
  existsb (fun c => byte_lt c 32 || (N_of_ascii c =? 127)%N) (list_ascii_of_string s).

Fixpoint take (n : nat) (s : string) : string :=
  match n, s with
  | S n', String c s' => String c (take n' s')
  | _, _ => EmptyString
  end.

(** [unescape] in the path and fragment modes: every [%] must start [%XX].
    The second component is the first malformed escape, if any. *)
Fixpoint unescapeFrom (s : string) : string * option error :=
  match s with
  | EmptyString => (EmptyString, None)
  | String c rest =>
      if Ascii.eqb c "%" then
        match rest with
        | String h1 (String h2 rest2) =>
            match json.hexval h1, json.hexval h2 with
            | Some a, Some b =>
                let '(r, e) := unescapeFrom rest2 in
                (String (ascii_of_N (16 * a + b)) r, e)
            | _, _ => (EmptyString, Some (EscapeError (take 3 s)))
            end
        | _ => (EmptyString, Some (EscapeError (take 3 s)))
        end
      else
        let '(r, e) := unescapeFrom rest in (String c r, e)
  end.

Definition unescape (s : string) : string * option error :=
  match unescapeFrom s with
  | (_, Some e) => (EmptyString, Some e)
  | (r, None) => (r, None)
  end.

(** The two modes of escaping the client meets. *)
Inductive encoding : Type := encodePath | encodeFragment.

Definition oneOf (c : ascii) (set : string) : bool :=
  existsb (Ascii.eqb c) (list_ascii_of_string set).

Definition shouldEscape (c : ascii) (mode : encoding) : bool :=
  if byte_in c 97 122 || byte_in c 65 90 || byte_in c 48 57 then false
  else if oneOf c "-_.~" then false
  else if oneOf c "$&+,/:;=?@" then
    match mode with
    | encodePath => Ascii.eqb c "?"
    | encodeFragment => false
    end
  else
    match mode with
    | encodeFragment => negb (oneOf c "!()*")
    | encodePath => true
    end.

Definition upperhex (n : N) : ascii :=
  ascii_of_N (if (n <? 10)%N then 48 + n else 55 + n).

Fixpoint escape (s : string) (mode : encoding) : string :=
  match s with
  | EmptyString => EmptyString
  | String c rest =>
      if shouldEscape c mode
      then String "%" (String (upperhex (N_of_ascii c / 16))
                         (String (upperhex (N_of_ascii c mod 16)) (escape rest mode)))
      else String c (escape rest mode)
  end.

Definition validEncoded (s : string) (mode : encoding) : bool :=
  forallb (fun c => oneOf c "!$&'()*+,;=:@[]%" || negb (shouldEscape c mode))
    (list_ascii_of_string s).

(** What [setPath] and [setFragment] keep of the text they were given: the
    hint is empty when the text is the default encoding of its decoded
    form. *)
Definition rawHint (text decoded : string) (mode : encoding) : string :=
  if String.eqb (escape decoded mode) text then EmptyString else text.

Definition EscapedPath (u : URL) : string :=
  if negb (String.eqb (RawPath u) "") && validEncoded (RawPath u) encodePath
     && match unescape (RawPath u) with
        | (p, None) => String.eqb p (Path u)
        | (_, Some _) => false
        end
  then RawPath u
  else if String.eqb (Path u) "*" then "*"
  else escape (Path u) encodePath.

Definition EscapedFragment (u : URL) : string :=
  if negb (String.eqb (RawFragment u) "") && validEncoded (RawFragment u) encodeFragment
     && match unescape (RawFragment u) with
        | (f, None) => String.eqb f (Fragment u)
        | (_, Some _) => false
        end
  then RawFragment u
  else escape (Fragment u) encodeFragment.

(** [u.String()] for a URL without scheme, opaque part, user and host. *)
Definition String_ (u : URL) : string :=
  let path := EscapedPath u in
  let '(segment, _, _) := strings.CutByte path "/" in
  (if Nat.eqb (strings.CountByte segment ":") 0 then "" else "./")
  ++ path
  ++ (if ForceQuery u || negb (String.eqb (RawQuery u) "") then "?" ++ RawQuery u else "")
  ++ (if negb (String.eqb (Fragment u) "") then "#" ++ EscapedFragment u else "").

(** The URL whose path was given as [text] and decodes to [decoded], with
    the query [query] and no fragment. *)
Definition ofPath (text decoded : string) (force : bool) (query : string) : URL :=
  {| Path := decoded; RawPath := rawHint text decoded encodePath;
     ForceQuery := force; RawQuery := query;
     Fragment := EmptyString; RawFragment := EmptyString |}.

(** [parse(rawURL, false)] on a target in origin form, one that starts with
    a single slash (or with three): no scheme and no authority are split
    off.  Every URL of this client starts with "/mattermost-ai/".  Other
    forms are outside the model and are answered with an error that is not
    one of Go's. *)
Definition parse (rawURL : string) : option URL * option error :=
  if stringContainsCTLByte rawURL
  then (None, Some (errorString "net/url: invalid control character in URL"))
  else if negb (strings.HasPrefix rawURL "/")
          || (strings.HasPrefix rawURL "//" && negb (strings.HasPrefix rawURL "///"))
  then (None, Some (errorString "(target not in origin form: not modelled)"))
  else
    let '(rest, force, query) :=
      if match strings.last rawURL with Some c => Ascii.eqb c "?" | None => false end
         && Nat.eqb (strings.CountByte rawURL "?") 1
      then (strings.dropLast rawURL, true, EmptyString)
      else let '(before, after, _) := strings.CutByte rawURL "?" in
           (before, false, after) in
    match unescape rest with
    | (_, Some e) => (None, Some e)
    | (p, None) => (Some (ofPath rest p force query), None)
    end.

Definition Parse (rawURL : string) : option URL * option error :=
  let '(u, frag, _) := strings.CutByte rawURL "#" in
  match parse u with
  | (Some url, None) =>
      if String.eqb frag EmptyString then (Some url, None)
      else
        match unescape frag with
        | (_, Some e) => (None, Some (urlError "parse" rawURL e))
        | (f, None) =>
            (Some {| Path := Path url; RawPath := RawPath url;
                     ForceQuery := ForceQuery url; RawQuery := RawQuery url;
                     Fragment := f; RawFragment := rawHint frag f encodeFragment |}, None)
        end
  | (_, Some e) => (None, Some (urlError "parse" u e))
  | (None, None) => (None, None)
  end.

End url.

(** ** Computations with effects

    A Go function that talks to the world around it is a computation in
    [M E]: it panics ([None]) or returns a value together with the effects
    of type [E] it performed, in order. *)

Definition M (E A : Type) : Type := option (A * list E).

Definition ret {E A : Type} (a : A) : M E A := Some (a, []).

Definition bind {E A B : Type} (m : M E A) (k : A -> M E B) : M E B :=
  match m with
  | None => None
  | Some (a, t1) =>
      match k a with
      | None => None
      | Some (b, t2) => Some (b, (t1 ++ t2)%list)
      end
  end.

Definition emit {E : Type} (e : E) : M E unit := Some (tt, [e]).

Definition panic {E A : Type} : M E A := None.

(** [defer d] followed by [body]: [d] runs when [body] has returned. *)
Definition defer {E A : Type} (d : M E unit) (body : M E A) : M E A :=
  bind body (fun r => bind d (fun _ => ret r)).

Notation "x <- m ;; k" := (bind m (fun x => k))
  (at level 61, m at next level, right associativity).
Notation "' pat <- m ;; k" := (bind m (fun x => match x with pat => k end))
  (at level 61, pat pattern, m at next level, right associativity).

(** ** Package [net/http] *)

Module http.

Definition StatusOK : Z := 200.

Definition Header : Type := list (string * string).

(** [h.Set(key, value)] for a key already in canonical form. *)
Fixpoint Set_ (h : Header) (key val : string) : Header :=
  match h with
  | [] => [(key, val)]
  | (k, v) :: more =>
      if String.eqb k key then (key, val) :: more else (k, v) :: Set_ more key val
  end.

Record Request : Type :=
  { Method : string; URL : url.URL; ReqHeader : Header; ReqBody : option string }.

(** [h.Get(key)] for a key in canonical form: the first value stored
    under it, or the empty string. *)
Fixpoint Get_ (h : Header) (key : string) : string :=
  match h with
  | [] => EmptyString
  | (k, v) :: more => if String.eqb k key then v else Get_ more key
  end.

Record Response : Type :=
  { StatusCode : Z; RespHeader : Header; Body : io.ReadCloser }.

Definition setHeader (req : Request) (key val : string) : Request :=
  {| Method := Method req; URL := URL req;
     ReqHeader := Set_ (ReqHeader req) key val; ReqBody := ReqBody req |}.

(** [NewRequest] with one of the two methods the client uses, both valid:
    it fails exactly when the URL does not parse. *)
Definition NewRequest (method target : string) (body : option string)
  : option Request * option error :=
  match url.Parse target with
  | (Some u, None) =>
      (Some {| Method := method; URL := u; ReqHeader := []; ReqBody := body |}, None)
  | (_, err) => (None, err)
  end.

(** A [RoundTripper] is kept as its [RoundTrip] method. *)
Record Client (E : Type) : Type :=
  { Transport : Request -> M E (option Response * option error) }.
Arguments Transport {E} _ _.

(** [urlErrorOp]: "Post", "Get". *)
Definition urlErrorOp (method : string) : string :=
  if String.eqb method "POST" then "Post"
  else if String.eqb method "GET" then "Get"
  else method.

(** [redirectBehavior] and the test of the Location header that follows
    it: the client goes on to another request when the status is one of
    301, 302, 303, 307, 308 and the response names a Location.  (A request
    made by [NewRequest] can always be sent again: its body, if any, is a
    [bytes.Reader].) *)
Definition isRedirect (code : Z) : bool :=
  ((code =? 301) || (code =? 302) || (code =? 303) || (code =? 307) || (code =? 308))%Z.

Definition redirects (resp : Response) : bool :=
  isRedirect (StatusCode resp) && negb (String.eqb (Get_ (RespHeader resp) "Location") "").

(** [c.Do(req)] with a custom transport, no [CheckRedirect], no cookie jar
    and no timeout, up to the end of the first round trip.  A transport
    error comes back wrapped in a [*url.Error] that holds [req.URL.String()]
    (the one transport of the package that returns an error leaves the
    request as it is); a response the client does not follow is returned as
    it is.  What the client does when it follows a
    redirect (the requests it builds from the Location header, up to ten of
    them) is outside the model: such a response is answered with an error
    that is not one of Go's, after the one round trip. *)
Definition Do {E : Type} (c : Client E) (req : Request)
  : M E (option Response * option error) :=
  '(resp, err) <- Transport c req ;;
  match resp, err with
  | _, Some e =>
      ret (None, Some (urlError (urlErrorOp (Method req)) (url.String_ (URL req)) e))
  | None, None =>
      ret (None, Some (urlError (urlErrorOp (Method req)) (url.String_ (URL req))
                         (errorString "http: RoundTripper implementation returned a nil *Response with a nil error")))
  | Some r, None =>
      if redirects r
      then ret (None, Some (errorString "(redirect followed: not modelled)"))
      else ret (Some r, None)
  end.

End http.

(** ** Package [net/http/httptest] *)

Module httptest.

(** What a handler has left in a [ResponseRecorder]: the status code it
    wrote and the bytes of the body. *)
Record ResponseRecorder : Type :=
  { Code : Z; RecHeader : http.Header; RecBody : string }.

Definition NewRecorder : ResponseRecorder :=
  {| Code := 200; RecHeader := []; RecBody := EmptyString |}.

Definition Result (rw : ResponseRecorder) : http.Response :=
  {| http.StatusCode := if (Code rw =? 0)%Z then 200%Z else Code rw;
     http.RespHeader := RecHeader rw;
     http.Body := {| io.data := RecBody rw; io.fin := EOF |} |}.

End httptest.

(** ** Package [bufio]: a [Scanner] with the default [ScanLines] split *)

Module bufio.

Definition MaxScanTokenSize : N := 65536.

(** [rest] is the input not yet consumed, [rfin] the error the reader
    returns after it; [tok] the last token and [err] the scanner's sticky
    error.  The buffer holds at most [MaxScanTokenSize] bytes from the start
    of a token, however the reads are cut. *)
Record Scanner : Type :=
  { rest : string; rfin : error; tok : string; err : option error }.

Definition NewScanner (r : io.ReadCloser) : Scanner :=
  {| rest := io.data r; rfin := io.fin r; tok := EmptyString; err := None |}.

Definition dropCR (line : string) : string :=
  match strings.last line with
  | Some c => if Ascii.eqb c CR then strings.dropLast line else line
  | None => line
  end.

Definition fits (s : string) : bool :=
  (N.of_nat (String.length s) <? MaxScanTokenSize)%N.

(** [Scan], up to and including the first call that returns false. *)
Definition Scan (s : Scanner) : bool * Scanner :=
  let '(line, after, found) := strings.CutByte (rest s) LF in
  if found then
    if fits line
    then (true, {| rest := after; rfin := rfin s; tok := dropCR line; err := err s |})
    else (false, {| rest := rest s; rfin := rfin s; tok := EmptyString; err := Some ErrTooLong |})
  else if negb (fits (rest s))
  then (false, {| rest := rest s; rfin := rfin s; tok := EmptyString; err := Some ErrTooLong |})
  else
    match rest s with
    | EmptyString =>
        (false, {| rest := EmptyString; rfin := rfin s; tok := EmptyString; err := Some (rfin s) |})
    | final =>
        (true, {| rest := EmptyString; rfin := rfin s; tok := dropCR final; err := Some (rfin s) |})
    end.

Definition Text (s : Scanner) : string := tok s.

(** [Err]: the first error that is not [io.EOF]. *)
Definition Err (s : Scanner) : option error :=
  match err s with
  | Some EOF => None
  | e => e
  end.

End bufio.

(** ** The world around the client

    The host calls the two transports make, and the closing of a response
    body. *)

Inductive Effect : Type :=
| HostPluginHTTP (req : http.Request)
| HostServeInternalPluginRequest
    (userID : string) (req : http.Request) (sourcePluginID destinationPluginID : string)
| BodyClose (body : io.ReadCloser).

(** [body.Close()]. *)
Definition Close (body : io.ReadCloser) : M Effect unit := emit (BodyClose body).

(** ** Unbuffered channels

    A channel made with [make(chan T)] and handed to one goroutine that
    sends on it is kept as that goroutine: the operations it performs, in
    order.  A send completes only when the consumer receives; everything
    else the goroutine does on its own. *)

Module chan.

Section Chan.

Variable T : Type.

Inductive Op : Type :=
| Send (v : T)              (* ch <- v *)
| CloseChan                 (* close(ch) *)
| Run (e : Effect).         (* an effect outside the channel *)

(** The goroutine behind a channel; [None] is a goroutine that never comes
    to another operation. *)
Definition t : Type := option (list Op).

(** The goroutine at rest: blocked in [Send] at the head of [todo], or
    returned ([todo] empty). *)
Record State : Type :=
  { todo : list Op; closed : bool; effects : list Effect }.

(** The goroutine runs on until it blocks in a send or returns. *)
Fixpoint settle (todo : list Op) (closed : bool) (effects : list Effect) : State :=
  match todo with
  | CloseChan :: more => settle more true effects
  | Run e :: more => settle more closed (effects ++ [e])%list
  | _ => {| todo := todo; closed := closed; effects := effects |}
  end.

Definition start (prog : list Op) : State := settle prog false [].

Inductive Recv : Type :=
| Received (v : T)          (* v, ok := <-ch with ok true *)
| Closed                    (* the zero value, ok false *)
| Blocked.                  (* the receive never returns *)

Definition recv (st : State) : Recv * State :=
  match todo st with
  | Send v :: more => (Received v, settle more (closed st) (effects st))
  | _ => if closed st then (Closed, st) else (Blocked, st)
  end.

(** The consumer receives at most [n] times, stopping early when the
    channel is closed, then walks away: what it received and where that
    leaves the goroutine. *)
Fixpoint receive (n : nat) (st : State) : list T * State :=
  match n with
  | O => ([], st)
  | S n' =>
      match recv st with
      | (Received v, st') => let '(vs, st'') := receive n' st' in (v :: vs, st'')
      | (_, st') => ([], st')
      end
  end.

(** [for v := range ch]: receive until the channel is closed.  [None] when
    [fuel] receives were not enough or the loop blocks for ever. *)
Fixpoint range (fuel : nat) (st : State) : option (list T * State) :=
  match fuel with
  | O => None
  | S fuel' =>
      match recv st with
      | (Received v, st') =>
          match range fuel' st' with
          | Some (vs, st'') => Some (v :: vs, st'')
          | None => None
          end
      | (Closed, st') => Some ([], st')
      | (Blocked, _) => None
      end
  end.

End Chan.

Arguments Send {T} _.
Arguments CloseChan {T}.
Arguments Run {T} _.
Arguments todo {T} _.
Arguments closed {T} _.
Arguments effects {T} _.
Arguments settle {T} _ _ _.
Arguments start {T} _.
Arguments Received {T} _.
Arguments Closed {T}.
Arguments Blocked {T}.
Arguments recv {T} _.
Arguments receive {T} _ _.
Arguments range {T} _ _.

End chan.

(** ** Package [llm]: stream events *)

Module llm.

(** Modelled from the spec: the declarations of [llm.EventType],
    [llm.TextStreamEvent] and [llm.TextStreamResult] are not part of the
    sources.  The client only shows the fields [Type], [Value] and [Stream]
    and the constants [EventTypeEnd] and [EventTypeError].  The event kinds
    are the three of the data model, "a tagged variant: Text(fragment), End,
    Error(cause)". *)
Inductive EventType : Type := EventTypeText | EventTypeEnd | EventTypeError.

Definition EventType_eqb (a b : EventType) : bool :=
  match a, b with
  | EventTypeText, EventTypeText => true
  | EventTypeEnd, EventTypeEnd => true
  | EventTypeError, EventTypeError => true
  | _, _ => false
  end.

(** Modelled from the spec: the dynamic values ([any]) an event carries,
    "a [value] field whose shape depends on [type]": nothing, what
    [json.Unmarshal] stores in an [any], or the Go [error] of a synthetic
    event. *)
Inductive any : Type :=
| nil
| ofJSON (v : json.value)
| ofError (e : error).

(** Modelled from the spec: [llm.TextStreamEvent], with the two fields the
    client sets, [Type] and [Value]. *)
Record TextStreamEvent : Type := { Type' : EventType; Value : any }.

Definition Text (fragment : string) : TextStreamEvent :=
  {| Type' := EventTypeText; Value := ofJSON (json.Str fragment) |}.

Definition End : TextStreamEvent := {| Type' := EventTypeEnd; Value := nil |}.

(** Modelled from the spec: the JSON form of an event, "a discriminated
    object with a [type] field ([text]|[end]|[error]) and a [value] field
    whose shape depends on [type]".  The declaration that fixes how
    [json.Unmarshal] fills a [TextStreamEvent] is not part of the sources. *)
Definition eventType (s : string) : option EventType :=
  if String.eqb s "text" then Some EventTypeText
  else if String.eqb s "end" then Some EventTypeEnd
  else if String.eqb s "error" then Some EventTypeError
  else None.

(** Modelled from the spec: the fields [type] and [value] of the JSON form;
    an event needs a [type] that is one of the three. *)
Definition setEventField (key : string) (v : json.value)
    (ev : option EventType * any) : (option EventType * any) * option error :=
  if json.fieldMatches "type" key then
    match v with
    | json.Str s =>
        match eventType s with
        | Some t => ((Some t, snd ev), None)
        | None => (ev, Some UnmarshalTypeError)
        end
    | _ => (ev, Some UnmarshalTypeError)
    end
  else if json.fieldMatches "value" key then
    match v with
    | json.Null => ((fst ev, nil), None)
    | _ => ((fst ev, ofJSON v), None)
    end
  else (ev, None).

(** Modelled from the spec: [llm.TextStreamResult], the stream handle, with
    the field the client sets: the channel the events arrive on. *)
Record TextStreamResult : Type := { Stream : chan.t TextStreamEvent }.

Definition zeroEvent : TextStreamEvent := {| Type' := EventTypeText; Value := nil |}.

(** Modelled from the spec: [json.Unmarshal(data, &event)] for an event. *)
Definition Unmarshal (data : string) : TextStreamEvent * option error :=
  match json.Unmarshal setEventField data (None, nil) with
  | (_, Some e) => (zeroEvent, Some e)
  | ((Some t, v), None) => ({| Type' := t; Value := v |}, None)
  | ((None, _), None) => (zeroEvent, Some UnmarshalTypeError)
  end.

End llm.

(** ** Package [bridgeclient] *)

Module bridgeclient.

Import llm.

Definition aiPluginID : string := "mattermost-ai".
Definition mattermostServerID : string := "mattermost-server".

(** [PluginAPI]: the plugin API, as a stub that answers each request. *)
Record PluginAPI : Type := { PluginHTTP : http.Request -> option http.Response }.

(** [AppAPI]: the app layer; the handler leaves its answer in the
    [ResponseWriter] it is given. *)
Record AppAPI : Type :=
  { ServeInternalPluginRequest :
      string -> httptest.ResponseRecorder -> http.Request -> string -> string ->
      httptest.ResponseRecorder }.

Record Client : Type := { httpClient : http.Client Effect }.

Record Post : Type :=
  { Role : string; Message : string; FileIDs : list string }.

Record CompletionRequest : Type :=
  { Posts : list Post;
    MaxGeneratedTokens : Z;
    JSONOutputFormat : list (string * any);
    UserID : string;
    ChannelID : string }.

Record CompletionResponse : Type := { Completion : string }.

Record ErrorResponse : Type := { Error : string }.

Record BridgeAgentInfo : Type :=
  { ID : string;
    DisplayName : string;
    Username : string;
    ServiceID : string;
    ServiceType : string }.

(** The fields [ID], [Name] and [Type] of [BridgeServiceInfo]. *)
Record BridgeServiceInfo : Type :=
  { SvcID : string; SvcName : string; SvcType : string }.

(** [AgentsResponse] and [ServicesResponse].  Beside the elements of the
    slice a value keeps what the backing array of the slice holds behind
    them ([AgentsSpare], [ServicesSpare]): [json.Unmarshal] decodes into it
    when the same key comes again. *)
Record AgentsResponse : Type :=
  { Agents : list BridgeAgentInfo; AgentsSpare : list BridgeAgentInfo }.

Record ServicesResponse : Type :=
  { Services : list BridgeServiceInfo; ServicesSpare : list BridgeServiceInfo }.

(** *** The JSON field tags of the response types *)

Definition setErrorResponse (key : string) (v : json.value) (r : ErrorResponse)
  : ErrorResponse * option error :=
  if json.fieldMatches "error" key
  then let '(s, e) := json.intoString v (Error r) in ({| Error := s |}, e)
  else (r, None).

Definition setCompletionResponse (key : string) (v : json.value) (r : CompletionResponse)
  : CompletionResponse * option error :=
  if json.fieldMatches "completion" key
  then let '(s, e) := json.intoString v (Completion r) in ({| Completion := s |}, e)
  else (r, None).

Definition setBridgeAgentInfo (key : string) (v : json.value) (a : BridgeAgentInfo)
  : BridgeAgentInfo * option error :=
  if json.fieldMatches "id" key then
    let '(s, e) := json.intoString v (ID a) in
    ({| ID := s; DisplayName := DisplayName a; Username := Username a;
        ServiceID := ServiceID a; ServiceType := ServiceType a |}, e)
  else if json.fieldMatches "displayName" key then
    let '(s, e) := json.intoString v (DisplayName a) in
    ({| ID := ID a; DisplayName := s; Username := Username a;
        ServiceID := ServiceID a; ServiceType := ServiceType a |}, e)
  else if json.fieldMatches "username" key then
    let '(s, e) := json.intoString v (Username a) in
    ({| ID := ID a; DisplayName := DisplayName a; Username := s;
        ServiceID := ServiceID a; ServiceType := ServiceType a |}, e)
  else if json.fieldMatches "service_id" key then
    let '(s, e) := json.intoString v (ServiceID a) in
    ({| ID := ID a; DisplayName := DisplayName a; Username := Username a;
        ServiceID := s; ServiceType := ServiceType a |}, e)
  else if json.fieldMatches "service_type" key then
    let '(s, e) := json.intoString v (ServiceType a) in
    ({| ID := ID a; DisplayName := DisplayName a; Username := Username a;
        ServiceID := ServiceID a; ServiceType := s |}, e)
  else (a, None).

Definition setBridgeServiceInfo (key : string) (v : json.value) (a : BridgeServiceInfo)
  : BridgeServiceInfo * option error :=
  if json.fieldMatches "id" key then
    let '(s, e) := json.intoString v (SvcID a) in
    ({| SvcID := s; SvcName := SvcName a; SvcType := SvcType a |}, e)
  else if json.fieldMatches "name" key then
    let '(s, e) := json.intoString v (SvcName a) in
    ({| SvcID := SvcID a; SvcName := s; SvcType := SvcType a |}, e)
  else if json.fieldMatches "type" key then
    let '(s, e) := json.intoString v (SvcType a) in
    ({| SvcID := SvcID a; SvcName := SvcName a; SvcType := s |}, e)
  else (a, None).

Definition zeroAgent : BridgeAgentInfo :=
  {| ID := ""; DisplayName := ""; Username := ""; ServiceID := ""; ServiceType := "" |}.

Definition zeroService : BridgeServiceInfo :=
  {| SvcID := ""; SvcName := ""; SvcType := "" |}.

(** [var agentsResp AgentsResponse], [var servicesResp ServicesResponse]:
    nil slices. *)
Definition zeroAgentsResponse : AgentsResponse := {| Agents := []; AgentsSpare := [] |}.

Definition zeroServicesResponse : ServicesResponse :=
  {| Services := []; ServicesSpare := [] |}.

Definition setAgentsResponse (key : string) (v : json.value) (r : AgentsResponse)
  : AgentsResponse * option error :=
  if json.fieldMatches "agents" key
  then let '(l, spare, e) :=
         json.intoSlice setBridgeAgentInfo zeroAgent v (Agents r) (AgentsSpare r) in
       ({| Agents := l; AgentsSpare := spare |}, e)
  else (r, None).

Definition setServicesResponse (key : string) (v : json.value) (r : ServicesResponse)
  : ServicesResponse * option error :=
  if json.fieldMatches "services" key
  then let '(l, spare, e) :=
         json.intoSlice setBridgeServiceInfo zeroService v (Services r) (ServicesSpare r) in
       ({| Services := l; ServicesSpare := spare |}, e)
  else (r, None).

(** *** transport.go *)

Record pluginAPIRoundTripper : Type := { api : PluginAPI }.

Definition pluginAPIRoundTripper_RoundTrip (p : pluginAPIRoundTripper) (req : http.Request)
  : M Effect (option http.Response * option error) :=
  _ <- emit (HostPluginHTTP req) ;;
  let resp := PluginHTTP (api p) req in
  match resp with
  | None => ret (None, Some (errorString "failed to make interplugin request"))
  | Some r => ret (Some r, None)
  end.

(** The fields [api] and [userID] of [appAPIRoundTripper]. *)
Record appAPIRoundTripper : Type := { appApi : AppAPI; userID : string }.

Definition setPath (r : http.Request) (path : string) : http.Request :=
  {| http.Method := http.Method r;
     http.URL := {| url.Path := path;
                    url.RawPath := url.RawPath (http.URL r);
                    url.ForceQuery := url.ForceQuery (http.URL r);
                    url.RawQuery := url.RawQuery (http.URL r);
                    url.Fragment := url.Fragment (http.URL r);
                    url.RawFragment := url.RawFragment (http.URL r) |};
     http.ReqHeader := http.ReqHeader r;
     http.ReqBody := http.ReqBody r |}.

(** [removeFirstPath] rewrites [r.URL.Path] in place; here it returns the
    request as rewritten.  It panics on an empty path ([path[1:]]). *)
Definition removeFirstPath (r : http.Request) : M Effect http.Request :=
  let path := url.Path (http.URL r) in
  match strings.sliceFrom path 1 with
  | None => panic
  | Some tail =>
      let secondSlash := strings.Index tail "/" in
      if (secondSlash =? -1)%Z then ret (setPath r "/")
      else
        match strings.sliceFrom path (1 + secondSlash) with
        | None => panic
        | Some p => ret (setPath r p)
        end
  end.

Definition appAPIRoundTripper_RoundTrip (a : appAPIRoundTripper) (req : http.Request)
  : M Effect (option http.Response * option error) :=
  let recorder := httptest.NewRecorder in
  req <- removeFirstPath req ;;
  _ <- emit (HostServeInternalPluginRequest (userID a) req mattermostServerID aiPluginID) ;;
  let recorder :=
    ServeInternalPluginRequest (appApi a) (userID a) recorder req
      mattermostServerID aiPluginID in
  ret (Some (httptest.Result recorder), None).

(** *** bridgeclient.go *)

Definition NewClient (api : PluginAPI) : Client :=
  {| httpClient :=
       {| http.Transport := pluginAPIRoundTripper_RoundTrip {| api := api |} |} |}.

Definition NewClientFromApp (api : AppAPI) (userID : string) : Client :=
  {| httpClient :=
       {| http.Transport :=
            appAPIRoundTripper_RoundTrip {| appApi := api; userID := userID |} |} |}.

(** *** client.go *)

(** The error made from a response whose status is not 200: the statements
    from [var errResp ErrorResponse] to the second [fmt.Errorf], the same in
    all four functions. *)
Definition statusError (resp : http.Response) (respBody : string) : option error :=
  match json.Unmarshal setErrorResponse respBody {| Error := "" |} with
  | (_, Some _) =>
      Some (errorString ("request failed with status " ++ fmt.d (http.StatusCode resp)
                           ++ ": " ++ respBody))
  | (errResp, None) =>
      Some (errorString ("request failed with status " ++ fmt.d (http.StatusCode resp)
                           ++ ": " ++ Error errResp))
  end.

(** The message for a rejected response in the words of the
    specification: the status, then the server-supplied message if the body
    carries one, else the raw body. *)
Definition rejection (resp : http.Response) (respBody : string) : string :=
  "request failed with status " ++ fmt.d (http.StatusCode resp) ++ ": "
  ++ match json.Unmarshal setErrorResponse respBody {| Error := "" |} with
     | (errResp, None) => Error errResp
     | (_, Some _) => respBody
     end.

(** The same message read off the body, as the specification words it
    ("the server-supplied message if present, else the raw status and
    body"), made exact: [errorField] is the string the [error] keys of a
    JSON object leave, the last one winning and a null changing nothing, or
    nothing at all when one of them holds another kind of value; [detail] is
    what follows the status. *)
Fixpoint errorField (members : list (string * json.value)) (old : string) : option string :=
  match members with
  | [] => Some old
  | (key, v) :: more =>
      if json.fieldMatches "error" key then
        match v with
        | json.Str s => errorField more s
        | json.Null => errorField more old
        | _ => None
        end
      else errorField more old
  end.

Definition detail (respBody : string) : string :=
  match json.parse respBody with
  | Some (json.Object members) =>
      match errorField members "" with
      | Some s => s
      | None => respBody
      end
  | Some json.Null => ""
  | _ => respBody
  end.

(** The synthetic events of the goroutine. *)
Definition parseErrorEvent (err : error) : TextStreamEvent :=
  {| Type' := EventTypeError;
     Value := ofError (wrapError "error parsing stream event: " err) |}.

Definition readErrorEvent (err : error) : TextStreamEvent :=
  {| Type' := EventTypeError;
     Value := ofError (wrapError "error reading stream: " err) |}.

Definition isTerminal (event : TextStreamEvent) : bool :=
  EventType_eqb (Type' event) EventTypeEnd || EventType_eqb (Type' event) EventTypeError.

(** The goroutine's [for scanner.Scan()] loop and the statement after it:
    the events it sends on [stream], in order, up to its return.  [None] if
    [fuel] rounds of the loop were not enough. *)
Fixpoint readLoop (fuel : nat) (scanner : bufio.Scanner) : option (list TextStreamEvent) :=
  match fuel with
  | O => None
  | S fuel' =>
      let '(ok, scanner) := bufio.Scan scanner in
      if ok then
        let line := bufio.Text scanner in
        if negb (strings.HasPrefix line "data: ") then readLoop fuel' scanner
        else
          let data := strings.TrimPrefix line "data: " in
          if String.eqb data "" then readLoop fuel' scanner
          else
            match llm.Unmarshal data with
            | (_, Some err) => Some [parseErrorEvent err]
            | (event, None) =>
                if isTerminal event then Some [event]
                else
                  match readLoop fuel' scanner with
                  | Some events => Some (event :: events)
                  | None => None
                  end
            end
      else
        match bufio.Err scanner with
        | Some err => Some [readErrorEvent err]
        | None => Some []
        end
  end.

(** The deferred calls of the goroutine, in the order they run:
    [close(stream)], then [resp.Body.Close()]. *)
Definition deferred (body : io.ReadCloser) : list (chan.Op TextStreamEvent) :=
  [chan.CloseChan; chan.Run (BodyClose body)].

(** The goroutine that sends [events] and returns. *)
Definition program (body : io.ReadCloser) (events : list TextStreamEvent)
  : list (chan.Op TextStreamEvent) :=
  (List.map chan.Send events ++ deferred body)%list.

(** The goroutine started by [doStreamingRequest].  One round of the loop
    consumes at least one byte of the body, so its length bounds the
    rounds. *)
Definition goroutine (body : io.ReadCloser) : chan.t TextStreamEvent :=
  match readLoop (S (String.length (io.data body))) (bufio.NewScanner body) with
  | Some events => Some (program body events)
  | None => None
  end.

(** The goroutine after its return: channel closed, body closed once. *)
Definition returned (body : io.ReadCloser) : chan.State TextStreamEvent :=
  {| chan.todo := []; chan.closed := true; chan.effects := [BodyClose body] |}.

Section Completion.

(** [json.Marshal] of a request; it fails on a [JSONOutputFormat] holding a
    value JSON cannot express. *)
Variable Marshal : CompletionRequest -> string * option error.

(** The headers a completion call sets on its request. *)
Definition headers (stream : bool) (req : http.Request) : http.Request :=
  let req := http.setHeader req "Content-Type" "application/json" in
  if stream then http.setHeader req "Accept" "text/event-stream" else req.

(** The round trip of a completion call: the request is marshalled and
    created, and [c.httpClient.Do] answers it with [resp], the transport
    performing the effects [t]. *)
Definition roundTrip (c : Client) (url : string) (request : CompletionRequest)
    (stream : bool) (resp : http.Response) (t : list Effect) : Prop :=
  exists body req,
    Marshal request = (body, None) /\
    http.NewRequest "POST" url (Some body) = (Some req, None) /\
    http.Do (httpClient c) (headers stream req) = Some ((Some resp, None), t).

Definition doCompletionRequest (c : Client) (url : string) (request : CompletionRequest)
  : M Effect (string * option error) :=
  let '(body, err) := Marshal request in
  match err with
  | Some err => ret ("", Errorf_w "failed to marshal request: " err)
  | None =>
  match http.NewRequest "POST" url (Some body) with
  | (_, Some err) => ret ("", Errorf_w "failed to create request: " err)
  | (None, None) => panic
  | (Some req, None) =>
  let req := http.setHeader req "Content-Type" "application/json" in
  '(resp, err) <- http.Do (httpClient c) req ;;
  match resp, err with
  | _, Some err => ret ("", Errorf_w "failed to execute request: " err)
  | None, None => panic
  | Some resp, None =>
  defer (Close (http.Body resp))
    (let '(respBody, err) := io.ReadAll (http.Body resp) in
     match err with
     | Some err => ret ("", Errorf_w "failed to read response body: " err)
     | None =>
     if negb (http.StatusCode resp =? http.StatusOK)%Z
     then ret ("", statusError resp respBody)
     else
       match json.Unmarshal setCompletionResponse respBody {| Completion := "" |} with
       | (_, Some err) => ret ("", Errorf_w "failed to unmarshal response: " err)
       | (completionResp, None) => ret (Completion completionResp, None)
       end
     end)
  end end end.

Definition doStreamingRequest (c : Client) (url : string) (request : CompletionRequest)
  : M Effect (option TextStreamResult * option error) :=
  let '(body, err) := Marshal request in
  match err with
  | Some err => ret (None, Errorf_w "failed to marshal request: " err)
  | None =>
  match http.NewRequest "POST" url (Some body) with
  | (_, Some err) => ret (None, Errorf_w "failed to create request: " err)
  | (None, None) => panic
  | (Some req, None) =>
  let req := http.setHeader req "Content-Type" "application/json" in
  let req := http.setHeader req "Accept" "text/event-stream" in
  '(resp, err) <- http.Do (httpClient c) req ;;
  match resp, err with
  | _, Some err => ret (None, Errorf_w "failed to execute request: " err)
  | None, None => panic
  | Some resp, None =>
  (* bodyClosed := false; the deferred closure reads it when the function
     returns: the body computes the results and the final [bodyClosed]. *)
  '(result, bodyClosed) <-
    (if negb (http.StatusCode resp =? http.StatusOK)%Z then
       let '(respBody, err) := io.ReadAll (http.Body resp) in
       match err with
       | Some _ =>
           ret ((None,
                 Some (errorString ("request failed with status "
                                      ++ fmt.d (http.StatusCode resp)))), false)
       | None => ret ((None, statusError resp respBody), false)
       end
     else
       let stream := goroutine (http.Body resp) in
       let bodyClosed := true in
       ret ((Some {| Stream := stream |}, None), bodyClosed)) ;;
  _ <- (if negb bodyClosed then Close (http.Body resp) else ret tt) ;;
  ret result
  end end end.

Definition AgentCompletion (c : Client) (agent : string) (request : CompletionRequest)
  : M Effect (string * option error) :=
  let url := "/" ++ aiPluginID ++ "/bridge/v1/completion/agent/" ++ agent ++ "/nostream" in
  doCompletionRequest c url request.

Definition ServiceCompletion (c : Client) (service : string) (request : CompletionRequest)
  : M Effect (string * option error) :=
  let url := "/" ++ aiPluginID ++ "/bridge/v1/completion/service/" ++ service ++ "/nostream" in
  doCompletionRequest c url request.

Definition AgentCompletionStream (c : Client) (agent : string) (request : CompletionRequest)
  : M Effect (option TextStreamResult * option error) :=
  let url := "/" ++ aiPluginID ++ "/bridge/v1/completion/agent/" ++ agent in
  doStreamingRequest c url request.

Definition ServiceCompletionStream (c : Client) (service : string) (request : CompletionRequest)
  : M Effect (option TextStreamResult * option error) :=
  let url := "/" ++ aiPluginID ++ "/bridge/v1/completion/service/" ++ service in
  doStreamingRequest c url request.

End Completion.

(** *** The discovery calls *)

(** The URL [GetAgents] formats before it creates the request. *)
Definition agentsURL (userID : string) : string :=
  let url := "/" ++ aiPluginID ++ "/bridge/v1/agents" in
  if negb (String.eqb userID "") then url ++ "?user_id=" ++ userID else url.

Definition GetAgents (c : Client) (userID : string)
  : M Effect (list BridgeAgentInfo * option error) :=
  let url := agentsURL userID in
  match http.NewRequest "GET" url None with
  | (_, Some err) => ret ([], Errorf_w "failed to create request: " err)
  | (None, None) => panic
  | (Some req, None) =>
  '(resp, err) <- http.Do (httpClient c) req ;;
  match resp, err with
  | _, Some err => ret ([], Errorf_w "failed to execute request: " err)
  | None, None => panic
  | Some resp, None =>
  defer (Close (http.Body resp))
    (let '(respBody, err) := io.ReadAll (http.Body resp) in
     match err with
     | Some err => ret ([], Errorf_w "failed to read response body: " err)
     | None =>
     if negb (http.StatusCode resp =? http.StatusOK)%Z
     then ret ([], statusError resp respBody)
     else
       match json.Unmarshal setAgentsResponse respBody zeroAgentsResponse with
       | (_, Some err) => ret ([], Errorf_w "failed to unmarshal response: " err)
       | (agentsResp, None) => ret (Agents agentsResp, None)
       end
     end)
  end end.

(** The URL [GetServices] formats before it creates the request. *)
Definition servicesURL (userID : string) : string :=
  let url := "/" ++ aiPluginID ++ "/bridge/v1/services" in
  if negb (String.eqb userID "") then url ++ "?user_id=" ++ userID else url.

Definition GetServices (c : Client) (userID : string)
  : M Effect (list BridgeServiceInfo * option error) :=
  let url := servicesURL userID in
  match http.NewRequest "GET" url None with
  | (_, Some err) => ret ([], Errorf_w "failed to create request: " err)
  | (None, None) => panic
  | (Some req, None) =>
  '(resp, err) <- http.Do (httpClient c) req ;;
  match resp, err with
  | _, Some err => ret ([], Errorf_w "failed to execute request: " err)
  | None, None => panic
  | Some resp, None =>
  defer (Close (http.Body resp))
    (let '(respBody, err) := io.ReadAll (http.Body resp) in
     match err with
     | Some err => ret ([], Errorf_w "failed to read response body: " err)
     | None =>
     if negb (http.StatusCode resp =? http.StatusOK)%Z
     then ret ([], statusError resp respBody)
     else
       match json.Unmarshal setServicesResponse respBody zeroServicesResponse with
       | (_, Some err) => ret ([], Errorf_w "failed to unmarshal response: " err)
       | (servicesResp, None) => ret (Services servicesResp, None)
       end
     end)
  end end.

(** A user ID that survives [url.Parse] as it is: no control byte, which
    the parser rejects, and no "#", where the fragment would start. *)
Definition plainID (userID : string) : bool :=
  negb (url.stringContainsCTLByte userID) && Nat.eqb (strings.CountByte userID "#") 0.

(** The GET request for [path] carrying the query [query]. *)
Definition getRequest (path query : string) : http.Request :=
  {| http.Method := "GET";
     http.URL := url.ofPath path path false query;
     http.ReqHeader := [];
     http.ReqBody := None |}.

(** *** The reader goroutine, line by line

    The same loop seen from the tokens of the scanner: first what the
    scanner yields over the whole body, then what the loop does with each
    line.  [readLoop_lines] below relates the two to [readLoop]. *)

(** The tokens [scanner.Scan()] yields until it returns false, and
    [scanner.Err()] at that point. *)
Fixpoint scanAll (fuel : nat) (scanner : bufio.Scanner)
  : option (list string * option error) :=
  match fuel with
  | O => None
  | S fuel' =>
      let '(ok, scanner) := bufio.Scan scanner in
      if ok then
        match scanAll fuel' scanner with
        | Some (lines, e) => Some (bufio.Text scanner :: lines, e)
        | None => None
        end
      else Some ([], bufio.Err scanner)
  end.

Definition scanBody (body : io.ReadCloser) : option (list string * option error) :=
  scanAll (S (String.length (io.data body))) (bufio.NewScanner body).

(** What one line makes the loop do. *)
Inductive LineAction : Type :=
| Skip                                   (* continue *)
| Publish (event : TextStreamEvent)      (* send, go on *)
| Stop (event : TextStreamEvent).        (* send, return *)

Definition onLine (line : string) : LineAction :=
  if negb (strings.HasPrefix line "data: ") then Skip
  else
    let data := strings.TrimPrefix line "data: " in
    if String.eqb data "" then Skip
    else
      match llm.Unmarshal data with
      | (_, Some err) => Stop (parseErrorEvent err)
      | (event, None) => if isTerminal event then Stop event else Publish event
      end.

Fixpoint decodeLines (lines : list string) (e : option error) : list TextStreamEvent :=
  match lines with
  | [] =>
      match e with
      | Some err => [readErrorEvent err]
      | None => []
      end
  | line :: more =>
      match onLine line with
      | Skip => decodeLines more e
      | Publish event => event :: decodeLines more e
      | Stop event => [event]
      end
  end.

(** Protocol padding: a line without the marker, or the marker alone. *)
Definition isPadding (line : string) : bool :=
  negb (strings.HasPrefix line "data: ") || String.eqb line "data: ".

(** The line lets the loop go on to the next one. *)
Definition goesOn (line : string) : bool :=
  match onLine line with
  | Stop _ => false
  | _ => true
  end.

(** The events of the lines that publish one, for lines that all go on. *)
Fixpoint published (lines : list string) : list TextStreamEvent :=
  match lines with
  | [] => []
  | line :: more =>
      match onLine line with
      | Publish event => event :: published more
      | _ => published more
      end
  end.

(** *** Sample stream bodies *)

Definition nl : string := String LF EmptyString.

Definition frameA : string := (quoted "data: {'type':'text','value':'a'}").
Definition frameB : string := (quoted "data: {'type':'text','value':'b'}").
Definition frameEnd : string := (quoted "data: {'type':'end'}").
Definition frameBad : string := "data: {not-json".

(** The three lines [frameA], [frameB], [frameEnd]. *)
Definition threeFrames : string := frameA ++ nl ++ frameB ++ nl ++ frameEnd ++ nl.

(** One text frame, after which the body ends with [fin]. *)
Definition oneFrame (fin : error) : io.ReadCloser :=
  {| io.data := frameA ++ nl; io.fin := fin |}.

(** Two text frames and the end of the input. *)
Definition twoFrames : io.ReadCloser :=
  {| io.data := frameA ++ nl ++ frameB ++ nl; io.fin := EOF |}.

(** [io.ErrUnexpectedEOF], the fault of a connection cut short. *)
Definition ErrUnexpectedEOF : error := errorString "unexpected EOF".

(** *** Stub hosts and a sample request *)

(** A plugin API that answers every request with [resp]. *)
Definition relay (resp : http.Response) : PluginAPI :=
  {| PluginHTTP := fun _ => Some resp |}.

(** A plugin API that has no response to give. *)
Definition deadRelay : PluginAPI := {| PluginHTTP := fun _ => None |}.

(** An app layer whose handler writes [code] and [body]. *)
Definition router (code : Z) (body : string) : AppAPI :=
  {| ServeInternalPluginRequest :=
       fun _ _ _ _ _ =>
         {| httptest.Code := code; httptest.RecHeader := []; httptest.RecBody := body |} |}.

Definition response (code : Z) (body : string) : http.Response :=
  {| http.StatusCode := code; http.RespHeader := [];
     http.Body := {| io.data := body; io.fin := EOF |} |}.

(** A response whose body is cut off by a read fault after [body]. *)
Definition cutResponse (code : Z) (body : string) : http.Response :=
  {| http.StatusCode := code; http.RespHeader := [];
     http.Body := {| io.data := body; io.fin := ErrUnexpectedEOF |} |}.

Definition sampleRequest : CompletionRequest :=
  {| Posts := [{| Role := "user"; Message := "hi"; FileIDs := [] |}];
     MaxGeneratedTokens := 0;
     JSONOutputFormat := [];
     UserID := "";
     ChannelID := "" |}.

(** [json.Marshal] at the sample request. *)
Definition sampleMarshal (request : CompletionRequest) : string * option error :=
  ((quoted "{'posts':[{'role':'user','message':'hi'}]}"), None).

(** *** Bodies made of lines, names inside URLs *)

(** The body whose lines are [lines], each ended by a line feed. *)
Fixpoint joinLines (lines : list string) : string :=
  match lines with
  | [] => EmptyString
  | line :: more => line ++ nl ++ joinLines more
  end.

(** A line the scanner takes whole: no line feed inside, and short enough
    for its buffer. *)
Definition lineOK (line : string) : bool :=
  Nat.eqb (strings.CountByte line LF) 0 && bufio.fits line.

(** The read fault an input ends with, if any: [io.EOF] is the regular
    end. *)
Definition fault (fin : error) : option error :=
  match fin with
  | EOF => None
  | err => Some err
  end.

(** What is left after the last line feed of a body, as the scanner's last
    token: nothing if it is empty. *)
Definition lastToken (tail : string) : list string :=
  if String.eqb tail "" then [] else [bufio.dropCR tail].

Definition CRbyte : string := String CR EmptyString.

Definition endsCR (line : string) : bool :=
  match strings.last line with
  | Some c => Ascii.eqb c CR
  | None => false
  end.

(** [n] times the byte [c]. *)
Fixpoint repeatByte (c : ascii) (n : nat) : string :=
  match n with
  | O => EmptyString
  | S n' => String c (repeatByte c n')
  end.

(** The GET request of a discovery call whose user ID held a "#". *)
Definition getRequestFragment (path query fragment : string) : http.Request :=
  {| http.Method := "GET";
     http.URL := {| url.Path := path;
                    url.RawPath := url.rawHint path path url.encodePath;
                    url.ForceQuery := false; url.RawQuery := query;
                    url.Fragment := fragment;
                    url.RawFragment := url.rawHint fragment fragment url.encodeFragment |};
     http.ReqHeader := [];
     http.ReqBody := None |}.

(** A name that [url.Parse] leaves alone inside a path: no control byte and
    none of "#", "?", "%". *)
Definition plainName (s : string) : bool :=
  negb (url.stringContainsCTLByte s)
  && Nat.eqb (strings.CountByte s "#") 0
  && Nat.eqb (strings.CountByte s "?") 0
  && Nat.eqb (strings.CountByte s "%") 0.

(** The POST request of a completion call for [path], carrying [body]. *)
Definition postRequest (path body : string) (stream : bool) : http.Request :=
  {| http.Method := "POST";
     http.URL := url.ofPath path path false "";
     http.ReqHeader :=
       if stream
       then [("Content-Type", "application/json"); ("Accept", "text/event-stream")]
       else [("Content-Type", "application/json")];
     http.ReqBody := Some body |}.

(** One element of the [agents] or [services] array decoded into a zero
    struct, and whether every element of an array decodes without an
    error. *)
Definition decodeAgent (v : json.value) : BridgeAgentInfo * option error :=
  json.intoStruct setBridgeAgentInfo v zeroAgent.

Definition decodeService (v : json.value) : BridgeServiceInfo * option error :=
  json.intoStruct setBridgeServiceInfo v zeroService.

Definition allDecode {T : Type} (decode : json.value -> T * option error)
    (elems : list json.value) : bool :=
  forallb (fun v => match snd (decode v) with None => true | Some _ => false end) elems.

(** A [json.Marshal] that fails, and a client whose transport must never be
    reached. *)
Definition failingMarshal (request : CompletionRequest) : string * option error :=
  ("", Some (errorString "json: unsupported value")).

Definition unreachableClient : Client :=
  {| httpClient := {| http.Transport := fun _ => panic |} |}.

End bridgeclient.

(** * Properties *)

Import bridgeclient.
Import llm.

(** ** Strings *)

Lemma CutByte_found_shorter (s : string) (sep : ascii) (before after : string) :
  strings.CutByte s sep = (before, after, true) ->
  String.length after < String.length s.
Proof.
  revert before after.
  induction s as [|c s IH]; intros before after H; simpl in H.
  - discriminate.
  - destruct (Ascii.eqb c sep).
    + inversion H; subst. simpl. lia.
    + destruct (strings.CutByte s sep) as [[b a] f] eqn:E.
      inversion H; subst.
      specialize (IH b after eq_refl). simpl. lia.
Qed.

(** ** The scanner and the read loop terminate *)

Lemma Scan_true_shrinks (s s' : bufio.Scanner) :
  bufio.Scan s = (true, s') ->
  String.length (bufio.rest s') < String.length (bufio.rest s).
Proof.
  unfold bufio.Scan.
  destruct (strings.CutByte (bufio.rest s) LF) as [[line after] found] eqn:E.
  destruct found.
  - destruct (bufio.fits line); intros H; inversion H; subst; simpl.
    eapply CutByte_found_shorter; eauto.
  - destruct (negb (bufio.fits (bufio.rest s))); [discriminate|].
    destruct (bufio.rest s) eqn:R; intros H; inversion H; subst; simpl. lia.
Qed.

Lemma scanAll_total (fuel : nat) (s : bufio.Scanner) :
  String.length (bufio.rest s) < fuel ->
  exists lines e, scanAll fuel s = Some (lines, e).
Proof.
  revert s.
  induction fuel as [|fuel IH]; intros s Hlt; [lia|].
  simpl. destruct (bufio.Scan s) as [ok s'] eqn:E.
  destruct ok.
  - apply Scan_true_shrinks in E.
    destruct (IH s') as (lines & e & H); [lia|].
    rewrite H. eauto.
  - eauto.
Qed.

Lemma readLoop_lines (fuel : nat) (s : bufio.Scanner) (lines : list string) (e : option error) :
  scanAll fuel s = Some (lines, e) ->
  readLoop fuel s = Some (decodeLines lines e).
Proof.
  revert s lines e.
  induction fuel as [|fuel IH]; intros s lines e H; simpl in H; [discriminate|].
  simpl. destruct (bufio.Scan s) as [ok s'] eqn:E.
  destruct ok.
  - destruct (scanAll fuel s') as [[lines' e']|] eqn:A; [|discriminate].
    inversion H; subst. specialize (IH _ _ _ A).
    simpl. unfold onLine.
    destruct (negb (strings.HasPrefix (bufio.Text s') "data: ")); [exact IH|].
    destruct (String.eqb (strings.TrimPrefix (bufio.Text s') "data: ") ""); [exact IH|].
    destruct (llm.Unmarshal (strings.TrimPrefix (bufio.Text s') "data: ")) as [ev [err|]];
      [reflexivity|].
    destruct (isTerminal ev); [reflexivity|].
    rewrite IH. reflexivity.
  - inversion H; subst. simpl.
    destruct (bufio.Err s'); reflexivity.
Qed.

Lemma scanBody_total (body : io.ReadCloser) :
  exists lines e, scanBody body = Some (lines, e).
Proof.
  apply scanAll_total. simpl. lia.
Qed.

Lemma goroutine_lines (body : io.ReadCloser) (lines : list string) (e : option error) :
  scanBody body = Some (lines, e) ->
  goroutine body = Some (program body (decodeLines lines e)).
Proof.
  intros H. unfold goroutine.
  rewrite (readLoop_lines _ _ _ _ H). reflexivity.
Qed.

(** ** The consumer's side of the channel *)

Section Consumer.

Variable body : io.ReadCloser.

Lemma settle_program (events : list TextStreamEvent) :
  chan.settle (program body events) false [] =
  match events with
  | [] => (returned body)
  | _ => {| chan.todo := program body events; chan.closed := false; chan.effects := [] |}
  end.
Proof.
  destruct events; reflexivity.
Qed.

Lemma receive_all (events : list TextStreamEvent) (n : nat) :
  List.length events <= n ->
  chan.receive n (chan.start (program body events)) = (events, (returned body)).
Proof.
  unfold chan.start. revert n.
  induction events as [|ev events IH]; intros n Hn.
  - destruct n; reflexivity.
  - destruct n as [|n]; [simpl in Hn; lia|].
    simpl in Hn. rewrite settle_program.
    cbn [chan.receive chan.recv chan.todo program List.map app chan.closed chan.effects].
    fold (program body events). rewrite IH by lia. reflexivity.
Qed.

Lemma receive_some (events : list TextStreamEvent) (n : nat) :
  n < List.length events ->
  chan.receive n (chan.start (program body events)) =
  (firstn n events,
   {| chan.todo := program body (skipn n events); chan.closed := false; chan.effects := [] |}).
Proof.
  unfold chan.start. revert events.
  induction n as [|n IH]; intros events Hn.
  - destruct events; [simpl in Hn; lia|]. reflexivity.
  - destruct events as [|ev events]; [simpl in Hn; lia|].
    simpl in Hn. rewrite settle_program.
    cbn [chan.receive chan.recv chan.todo program List.map app chan.closed chan.effects].
    fold (program body events). rewrite IH by lia. reflexivity.
Qed.

Lemma range_all (events : list TextStreamEvent) (fuel : nat) :
  List.length events < fuel ->
  chan.range fuel (chan.start (program body events)) = Some (events, (returned body)).
Proof.
  unfold chan.start. revert fuel.
  induction events as [|ev events IH]; intros fuel Hn.
  - destruct fuel; [lia|]. reflexivity.
  - destruct fuel as [|fuel]; [lia|].
    simpl in Hn. rewrite settle_program.
    cbn [chan.range chan.recv chan.todo program List.map app chan.closed chan.effects].
    fold (program body events). rewrite IH by lia. reflexivity.
Qed.

End Consumer.

Lemma goroutine_total (body : io.ReadCloser) :
  exists lines e,
    scanBody body = Some (lines, e) /\
    goroutine body = Some (program body (decodeLines lines e)).
Proof.
  destruct (scanBody_total body) as (lines & e & H).
  exists lines, e. split; [exact H|]. apply goroutine_lines, H.
Qed.

(** C10.  Over every finite body the reader goroutine returns, and on the
    way out it closes the channel and the body: whatever made it leave the
    loop (a terminal event, a malformed frame, the end of the input, a read
    fault), it sends finitely many events, then runs [close(stream)] and
    [resp.Body.Close()].  A consumer ranging over the channel receives
    exactly those events and then sees the channel closed, so its loop
    ends. *)
Theorem C10_reader_returns_and_closes (body : io.ReadCloser) :
  exists (lines : list string) (e : option error) (events : list TextStreamEvent),
    scanBody body = Some (lines, e) /\
    events = decodeLines lines e /\
    goroutine body =
      Some (List.map chan.Send events ++ [chan.CloseChan; chan.Run (BodyClose body)])%list /\
    chan.range (S (List.length events))
      (chan.start (List.map chan.Send events ++ [chan.CloseChan; chan.Run (BodyClose body)])%list)
    = Some (events,
            {| chan.todo := []; chan.closed := true; chan.effects := [BodyClose body] |}).
Proof.
  destruct (goroutine_total body) as (lines & e & Hs & Hg).
  exists lines, e, (decodeLines lines e).
  repeat split; try assumption.
  apply (range_all body). lia.
Qed.

(** ** What the lines make the loop do *)

Lemma HasPrefix_cons (c p : ascii) (s ps : string) :
  strings.HasPrefix (String c s) (String p ps) = Ascii.eqb c p && strings.HasPrefix s ps.
Proof. reflexivity. Qed.

Lemma HasPrefix_nil (p : ascii) (ps : string) :
  strings.HasPrefix "" (String p ps) = false.
Proof. reflexivity. Qed.

Lemma prefix_split (p s : string) :
  strings.HasPrefix s p = true ->
  exists r, s = p ++ r /\ strings.drop (String.length p) s = Some r.
Proof.
  revert s.
  induction p as [|c p IH]; intros s H.
  - exists s. split; reflexivity.
  - destruct s as [|c' s];
      [rewrite HasPrefix_nil in H; discriminate|rewrite HasPrefix_cons in H].
    apply andb_true_iff in H. destruct H as [E H].
    apply Ascii.eqb_eq in E. subst c'.
    destruct (IH s H) as (r & -> & D).
    exists r. split; [reflexivity|exact D].
Qed.

Lemma prefix_app (p r : string) : strings.HasPrefix (p ++ r) p = true.
Proof.
  induction p as [|c p IH]; cbn [append].
  - reflexivity.
  - now rewrite HasPrefix_cons, Ascii.eqb_refl.
Qed.

Lemma drop_app (p r : string) : strings.drop (String.length p) (p ++ r) = Some r.
Proof.
  induction p as [|c p IH]; simpl; [reflexivity|exact IH].
Qed.

Lemma TrimPrefix_app (p r : string) : strings.TrimPrefix (p ++ r) p = r.
Proof.
  unfold strings.TrimPrefix.
  rewrite prefix_app, drop_app. reflexivity.
Qed.

Lemma app_empty_r (s : string) : s ++ "" = s.
Proof.
  induction s as [|c s IH]; simpl; [reflexivity|now rewrite IH].
Qed.

Lemma isPadding_Skip (line : string) :
  isPadding line = true <-> onLine line = Skip.
Proof.
  unfold isPadding, onLine.
  destruct (strings.HasPrefix line "data: ") eqn:P; simpl.
  - destruct (prefix_split _ _ P) as (r & -> & _).
    rewrite TrimPrefix_app.
    destruct r as [|c r].
    + simpl. split; reflexivity.
    + replace (String.eqb ("data: " ++ String c r) "data: ") with false
        by (symmetry; apply String.eqb_neq; simpl; congruence).
      simpl.
      destruct (llm.Unmarshal (String c r)) as [ev [err|]].
      * split; discriminate.
      * destruct (isTerminal ev); split; discriminate.
  - split; reflexivity.
Qed.

Lemma onLine_frame (payload : string) :
  payload <> "" ->
  onLine ("data: " ++ payload) =
  match llm.Unmarshal payload with
  | (_, Some err) => Stop (parseErrorEvent err)
  | (event, None) => if isTerminal event then Stop event else Publish event
  end.
Proof.
  intros Hne. unfold onLine.
  rewrite prefix_app, TrimPrefix_app. simpl.
  destruct payload; [congruence|reflexivity].
Qed.

Lemma decodeLines_padding (lines : list string) (e : option error) :
  decodeLines lines e =
  decodeLines (List.filter (fun line => negb (isPadding line)) lines) e.
Proof.
  induction lines as [|line lines IH]; [reflexivity|].
  simpl. destruct (isPadding line) eqn:P; simpl.
  - apply isPadding_Skip in P. rewrite P. exact IH.
  - destruct (onLine line); [exact IH| |reflexivity].
    now rewrite IH.
Qed.

Lemma published_not_terminal (lines : list string) :
  Forall (fun event => isTerminal event = false) (published lines).
Proof.
  induction lines as [|line lines IH]; simpl; [constructor|].
  destruct (onLine line) as [|event|event] eqn:L; try exact IH.
  constructor; [|exact IH].
  unfold onLine in L.
  destruct (negb (strings.HasPrefix line "data: ")); [discriminate|].
  destruct (String.eqb (strings.TrimPrefix line "data: ") ""); [discriminate|].
  destruct (llm.Unmarshal (strings.TrimPrefix line "data: ")) as [ev [err|]];
    [discriminate|].
  destruct (isTerminal ev) eqn:T; inversion L; subst. exact T.
Qed.

Lemma decodeLines_goesOn (lines : list string) (e : option error) :
  forallb goesOn lines = true ->
  decodeLines lines e =
  (published lines ++ match e with Some err => [readErrorEvent err] | None => [] end)%list.
Proof.
  induction lines as [|line lines IH]; simpl; intros H.
  - destruct e; reflexivity.
  - apply andb_true_iff in H. destruct H as [G H].
    unfold goesOn in G.
    destruct (onLine line); [auto| |discriminate].
    simpl. now rewrite IH.
Qed.

Lemma decodeLines_stop (before after : list string) (line : string)
    (event : TextStreamEvent) (e : option error) :
  forallb goesOn before = true ->
  onLine line = Stop event ->
  decodeLines (before ++ line :: after) e = (published before ++ [event])%list.
Proof.
  intros H L.
  induction before as [|l before IH]; simpl in *.
  - now rewrite L.
  - apply andb_true_iff in H. destruct H as [G H].
    unfold goesOn in G.
    destruct (onLine l); [auto| |discriminate].
    simpl. now rewrite IH.
Qed.

(** How the scanner can end: at the end of the input, on a read fault, or
    on a line that does not fit its buffer. *)
Lemma scanAll_err (fuel : nat) (s : bufio.Scanner) (lines : list string) (e : option error) :
  scanAll fuel s = Some (lines, e) ->
  match e with
  | None => bufio.rfin s = EOF
  | Some err => err = ErrTooLong \/ (err = bufio.rfin s /\ bufio.rfin s <> EOF)
  end.
Proof.
  revert s lines e.
  induction fuel as [|fuel IH]; intros s lines e H; simpl in H; [discriminate|].
  destruct (bufio.Scan s) as [ok s'] eqn:E.
  assert (R : bufio.rfin s' = bufio.rfin s).
  { unfold bufio.Scan in E.
    destruct (strings.CutByte (bufio.rest s) LF) as [[line after] found].
    destruct found.
    - destruct (bufio.fits line); inversion E; reflexivity.
    - destruct (negb (bufio.fits (bufio.rest s))); [inversion E; reflexivity|].
      destruct (bufio.rest s); inversion E; reflexivity. }
  destruct ok.
  - destruct (scanAll fuel s') as [[lines' e']|] eqn:A; [|discriminate].
    inversion H; subst. rewrite <- R. eapply IH; eauto.
  - inversion H; subst. clear H.
    unfold bufio.Scan in E.
    destruct (strings.CutByte (bufio.rest s) LF) as [[line after] found].
    destruct found.
    + destruct (bufio.fits line); inversion E; subst. simpl. left; reflexivity.
    + destruct (negb (bufio.fits (bufio.rest s))).
      * inversion E; subst. simpl. left; reflexivity.
      * destruct (bufio.rest s); inversion E; subst.
        unfold bufio.Err; simpl.
        destruct (bufio.rfin s); try (right; split; [reflexivity|discriminate]).
        reflexivity.
Qed.

(** ** One round of the loop *)

Lemma readLoop_step (fuel : nat) (s : bufio.Scanner) :
  readLoop (S fuel) s =
  match bufio.Scan s with
  | (true, s') =>
      match onLine (bufio.Text s') with
      | Skip => readLoop fuel s'
      | Publish event =>
          match readLoop fuel s' with
          | Some events => Some (event :: events)
          | None => None
          end
      | Stop event => Some [event]
      end
  | (false, s') =>
      match bufio.Err s' with
      | Some err => Some [readErrorEvent err]
      | None => Some []
      end
  end.
Proof.
  simpl. destruct (bufio.Scan s) as [ok s']. destruct ok; [|reflexivity].
  unfold onLine.
  destruct (negb (strings.HasPrefix (bufio.Text s') "data: ")); [reflexivity|].
  destruct (String.eqb (strings.TrimPrefix (bufio.Text s') "data: ") ""); [reflexivity|].
  destruct (llm.Unmarshal (strings.TrimPrefix (bufio.Text s') "data: ")) as [ev [err|]];
    [reflexivity|].
  destruct (isTerminal ev); reflexivity.
Qed.

Lemma CutByte_line (line more : string) (sep : ascii) :
  strings.CountByte line sep = 0 ->
  strings.CutByte (line ++ String sep more) sep = (line, more, true).
Proof.
  induction line as [|c line IH]; simpl; intros H.
  - now rewrite Ascii.eqb_refl.
  - destruct (Ascii.eqb c sep); [discriminate|].
    now rewrite IH.
Qed.

Lemma Scan_line (s : bufio.Scanner) (line more : string) :
  bufio.rest s = line ++ String LF more ->
  strings.CountByte line LF = 0 ->
  bufio.fits line = true ->
  bufio.Scan s =
  (true, {| bufio.rest := more; bufio.rfin := bufio.rfin s;
            bufio.tok := bufio.dropCR line; bufio.err := bufio.err s |}).
Proof.
  intros R C F. unfold bufio.Scan.
  rewrite R, (CutByte_line _ _ _ C), F. reflexivity.
Qed.

Lemma onLine_frameA : onLine frameA = Publish (Text "a").
Proof. reflexivity. Qed.

Lemma onLine_frameB : onLine frameB = Publish (Text "b").
Proof. reflexivity. Qed.

Lemma onLine_frameEnd : onLine frameEnd = Stop End.
Proof. reflexivity. Qed.

(** Once the three frames are read, nothing of what follows matters. *)
Lemma goroutine_threeFrames (more : string) (fin : error) :
  goroutine {| io.data := threeFrames ++ more; io.fin := fin |} =
  Some (program {| io.data := threeFrames ++ more; io.fin := fin |}
          [Text "a"; Text "b"; End]).
Proof.
  unfold goroutine.
  set (body := {| io.data := threeFrames ++ more; io.fin := fin |}).
  assert (F : exists fuel, S (String.length (io.data body)) = S (S (S fuel))).
  { simpl. eauto. }
  destruct F as [fuel ->].
  rewrite readLoop_step.
  erewrite Scan_line with (line := frameA); [|reflexivity|reflexivity|reflexivity].
  change (bufio.Text _) with frameA at 1. rewrite onLine_frameA.
  rewrite readLoop_step.
  erewrite Scan_line with (line := frameB); [|reflexivity|reflexivity|reflexivity].
  change (bufio.Text _) with frameB at 1. rewrite onLine_frameB.
  rewrite readLoop_step.
  erewrite Scan_line with (line := frameEnd); [|reflexivity|reflexivity|reflexivity].
  change (bufio.Text _) with frameEnd at 1. rewrite onLine_frameEnd.
  reflexivity.
Qed.

(** ** The streaming call *)

Section Streaming.

Variable Marshal : CompletionRequest -> string * option error.

Lemma doStreamingRequest_200 (c : Client) (url : string) (request : CompletionRequest)
    (resp : http.Response) (t : list Effect) :
  roundTrip Marshal c url request true resp t ->
  http.StatusCode resp = 200%Z ->
  doStreamingRequest Marshal c url request =
  Some ((Some {| Stream := goroutine (http.Body resp) |}, None), t).
Proof.
  intros (body & req & HM & HN & HD) HS.
  unfold doStreamingRequest. rewrite HM, HN.
  unfold headers in HD. cbv zeta in HD |- *. rewrite HD.
  cbn [bind]. rewrite HS. cbn. rewrite !app_nil_r. reflexivity.
Qed.

Lemma doStreamingRequest_rejected (c : Client) (url : string) (request : CompletionRequest)
    (resp : http.Response) (t : list Effect) :
  roundTrip Marshal c url request true resp t ->
  http.StatusCode resp <> 200%Z ->
  doStreamingRequest Marshal c url request =
  Some ((None,
         match io.ReadAll (http.Body resp) with
         | (_, Some _) =>
             Some (errorString ("request failed with status "
                                  ++ fmt.d (http.StatusCode resp)))
         | (respBody, None) => statusError resp respBody
         end),
        t ++ [BodyClose (http.Body resp)])%list.
Proof.
  intros (body & req & HM & HN & HD) HS.
  unfold doStreamingRequest. rewrite HM, HN.
  unfold headers in HD. cbv zeta in HD |- *. rewrite HD.
  cbn [bind].
  apply Z.eqb_neq in HS. unfold http.StatusOK. rewrite HS. cbn [negb].
  destruct (io.ReadAll (http.Body resp)) as [respBody [err|]]; reflexivity.
Qed.

End Streaming.

Lemma Do_relay (api : PluginAPI) (req : http.Request) :
  http.Do (httpClient (NewClient api)) req =
    Some (match PluginHTTP api req with
          | None =>
              (None,
               Some (urlError (http.urlErrorOp (http.Method req))
                       (url.String_ (http.URL req))
                       (errorString "failed to make interplugin request")))
          | Some resp =>
              if http.redirects resp
              then (None, Some (errorString "(redirect followed: not modelled)"))
              else (Some resp, None)
          end, [HostPluginHTTP req]).
Proof.
  unfold http.Do. cbn.
  destruct (PluginHTTP api req) as [resp|]; [|reflexivity].
  cbn. destruct (http.redirects resp); reflexivity.
Qed.

(** Whatever the plugin API answers, [Do] through the Sandboxed Relay makes
    its first round trip with the request it was given. *)
Lemma Do_relay_first (api : PluginAPI) (req : http.Request) :
  exists r, http.Do (httpClient (NewClient api)) req = Some (r, [HostPluginHTTP req]).
Proof. rewrite Do_relay. eauto. Qed.

(** ** The non-streaming call *)

Section Sync.

Variable Marshal : CompletionRequest -> string * option error.

Lemma doCompletionRequest_answered (c : Client) (url : string) (request : CompletionRequest)
    (resp : http.Response) (t : list Effect) :
  roundTrip Marshal c url request false resp t ->
  doCompletionRequest Marshal c url request =
  Some (match io.ReadAll (http.Body resp) with
        | (_, Some err) => ("", Some (wrapError "failed to read response body: " err))
        | (respBody, None) =>
            if negb (http.StatusCode resp =? http.StatusOK)%Z
            then ("", statusError resp respBody)
            else
              match json.Unmarshal setCompletionResponse respBody {| Completion := "" |} with
              | (_, Some err) => ("", Some (wrapError "failed to unmarshal response: " err))
              | (completionResp, None) => (Completion completionResp, None)
              end
        end,
        t ++ [BodyClose (http.Body resp)])%list.
Proof.
  intros (body & req & HM & HN & HD).
  unfold doCompletionRequest. rewrite HM, HN.
  unfold headers in HD. cbv zeta in HD |- *. rewrite HD.
  cbn [bind]. unfold defer.
  destruct (io.ReadAll (http.Body resp)) as [respBody [err|]]; [reflexivity|].
  destruct (negb (http.StatusCode resp =? http.StatusOK)%Z); [reflexivity|].
  destruct (json.Unmarshal setCompletionResponse respBody {| Completion := "" |})
    as [r [err|]]; reflexivity.
Qed.

End Sync.

Lemma statusError_rejection (resp : http.Response) (respBody : string) :
  statusError resp respBody = Some (errorString (rejection resp respBody)).
Proof.
  unfold statusError, rejection.
  destruct (json.Unmarshal setErrorResponse respBody {| Error := "" |}) as [r [err|]];
    reflexivity.
Qed.

Lemma not_2xx_not_200 (code : Z) : (code < 200 \/ 299 < code)%Z -> code <> 200%Z.
Proof. lia. Qed.

(** C6.  A 200 response whose body unmarshals into a [CompletionResponse]
    holding [s] makes [AgentCompletion] and [ServiceCompletion] return [s]
    and no error; the body "{"completion":"hi"}" gives "hi". *)
Theorem C6_completion_is_returned
    (Marshal : CompletionRequest -> string * option error)
    (c : Client) (request : CompletionRequest)
    (resp : http.Response) (t : list Effect) :
  http.StatusCode resp = 200%Z ->
  (forall respBody s,
     io.ReadAll (http.Body resp) = (respBody, None) ->
     json.Unmarshal setCompletionResponse respBody {| Completion := "" |}
       = ({| Completion := s |}, None) ->
     (forall agent,
        roundTrip Marshal c
          ("/mattermost-ai/bridge/v1/completion/agent/" ++ agent ++ "/nostream")
          request false resp t ->
        AgentCompletion Marshal c agent request =
        Some ((s, None), t ++ [BodyClose (http.Body resp)])%list) /\
     (forall service,
        roundTrip Marshal c
          ("/mattermost-ai/bridge/v1/completion/service/" ++ service ++ "/nostream")
          request false resp t ->
        ServiceCompletion Marshal c service request =
        Some ((s, None), t ++ [BodyClose (http.Body resp)])%list)) /\
  (http.Body resp = {| io.data := (quoted "{'completion':'hi'}"); io.fin := EOF |} ->
   (forall agent,
      roundTrip Marshal c
        ("/mattermost-ai/bridge/v1/completion/agent/" ++ agent ++ "/nostream")
        request false resp t ->
      AgentCompletion Marshal c agent request =
      Some (("hi", None), t ++ [BodyClose (http.Body resp)])%list) /\
   (forall service,
      roundTrip Marshal c
        ("/mattermost-ai/bridge/v1/completion/service/" ++ service ++ "/nostream")
        request false resp t ->
      ServiceCompletion Marshal c service request =
      Some (("hi", None), t ++ [BodyClose (http.Body resp)])%list)).
Proof.
  intros Hcode.
  assert (G : forall url respBody s,
             io.ReadAll (http.Body resp) = (respBody, None) ->
             json.Unmarshal setCompletionResponse respBody {| Completion := "" |}
               = ({| Completion := s |}, None) ->
             roundTrip Marshal c url request false resp t ->
             doCompletionRequest Marshal c url request =
             Some ((s, None), t ++ [BodyClose (http.Body resp)])%list).
  { intros url respBody s HR HU RT.
    rewrite (doCompletionRequest_answered _ _ _ _ _ _ RT), HR, Hcode, HU.
    reflexivity. }
  split.
  - intros respBody s HR HU. split; intros x RT; apply (G _ respBody s HR HU RT).
  - intros HB.
    assert (HR : io.ReadAll (http.Body resp) = ((quoted "{'completion':'hi'}"), None))
      by (rewrite HB; reflexivity).
    split; intros x RT; apply (G _ _ "hi" HR eq_refl RT).
Qed.


(** ** The rejection of a response, by its body *)

Lemma intoFields_errorField_some (members : list (string * json.value)) (old s : string) :
  errorField members old = Some s ->
  json.intoFields setErrorResponse members {| Error := old |} = ({| Error := s |}, None).
Proof.
  revert old.
  induction members as [|[key v] more IH]; intros old H; cbn [errorField] in H.
  - inversion H. reflexivity.
  - cbn [json.intoFields]. unfold setErrorResponse at 1.
    destruct (json.fieldMatches "error" key).
    + destruct v; try discriminate; cbn [json.intoString Error];
        rewrite (IH _ H); reflexivity.
    + rewrite (IH _ H). reflexivity.
Qed.

Lemma intoFields_errorField_none (members : list (string * json.value)) (old : string) :
  errorField members old = None ->
  exists r err, json.intoFields setErrorResponse members {| Error := old |} = (r, Some err).
Proof.
  revert old.
  induction members as [|[key v] more IH]; intros old H; cbn [errorField] in H.
  - discriminate.
  - cbn [json.intoFields]. unfold setErrorResponse at 1.
    destruct (json.fieldMatches "error" key).
    + destruct v; cbn [json.intoString Error];
        try (destruct (json.intoFields setErrorResponse more {| Error := old |})
               as [t2 e2]; do 2 eexists; reflexivity);
        destruct (IH _ H) as (r & err & E); rewrite E; do 2 eexists; reflexivity.
    + destruct (IH _ H) as (r & err & E). rewrite E. do 2 eexists. reflexivity.
Qed.

(** The error the code builds from a rejected response is the status
    followed by [detail]. *)
Lemma statusError_detail (resp : http.Response) (respBody : string) :
  statusError resp respBody =
  Some (errorString ("request failed with status " ++ fmt.d (http.StatusCode resp)
                       ++ ": " ++ detail respBody)).
Proof.
  unfold statusError, detail, json.Unmarshal.
  destruct (json.parse respBody) as [v|]; [|reflexivity].
  destruct v; try reflexivity.
  cbn [json.intoStruct].
  destruct (errorField members "") as [s|] eqn:E.
  - rewrite (intoFields_errorField_some _ _ _ E). reflexivity.
  - destruct (intoFields_errorField_none _ _ E) as (r & err & F). rewrite F. reflexivity.
Qed.

Lemma errorField_no_key (members : list (string * json.value)) (old : string) :
  forallb (fun kv => negb (json.fieldMatches "error" (fst kv))) members = true ->
  errorField members old = Some old.
Proof.
  induction members as [|[key v] more IH]; cbn [forallb errorField fst]; intros H.
  - reflexivity.
  - apply andb_true_iff in H. destruct H as [K H].
    apply negb_true_iff in K. rewrite K. exact (IH H).
Qed.

Lemma ReadAll_EOF (body : io.ReadCloser) :
  io.fin body = EOF -> io.ReadAll body = (io.data body, None).
Proof. unfold io.ReadAll. intros ->. reflexivity. Qed.


(** ** Direct Dispatch: the first path segment *)

Lemma IndexFrom_no_slash (i : Z) (seg : string) :
  strings.CountByte seg "/" = 0 ->
  strings.IndexFrom i seg "/" = (-1)%Z.
Proof.
  revert i.
  induction seg as [|c seg IH]; intros i H.
  - reflexivity.
  - cbn [strings.IndexFrom]. rewrite HasPrefix_cons. cbn [strings.CountByte] in H.
    destruct (Ascii.eqb c "/"); [discriminate|].
    exact (IH _ H).
Qed.

Lemma IndexFrom_slash (i : Z) (seg more : string) :
  strings.CountByte seg "/" = 0 ->
  strings.IndexFrom i (seg ++ String "/" more) "/" = (i + Z.of_nat (String.length seg))%Z.
Proof.
  revert i.
  induction seg as [|c seg IH]; intros i H.
  - cbn [append strings.IndexFrom]. rewrite HasPrefix_cons, Ascii.eqb_refl.
    simpl. lia.
  - cbn [append strings.IndexFrom]. rewrite HasPrefix_cons. cbn [strings.CountByte] in H.
    destruct (Ascii.eqb c "/"); [discriminate|].
    cbn [andb]. rewrite (IH _ H). cbn [String.length]. lia.
Qed.

Lemma drop_seg (seg rest : string) :
  strings.drop (String.length seg) (seg ++ rest) = Some rest.
Proof. apply drop_app. Qed.

Lemma sliceFrom_1 (c : ascii) (s : string) :
  strings.sliceFrom (String c s) 1 = Some s.
Proof. reflexivity. Qed.

Lemma sliceFrom_succ (c : ascii) (s : string) (n : nat) :
  strings.sliceFrom (String c s) (1 + (0 + Z.of_nat n)) = strings.drop n s.
Proof.
  unfold strings.sliceFrom.
  replace (1 + (0 + Z.of_nat n) <? 0)%Z with false by (symmetry; apply Z.ltb_ge; lia).
  replace (Z.to_nat (1 + (0 + Z.of_nat n))) with (S n) by lia.
  reflexivity.
Qed.

Lemma removeFirstPath_segment (r : http.Request) (seg more : string) :
  strings.CountByte seg "/" = 0 ->
  url.Path (http.URL r) = "/" ++ seg ++ "/" ++ more ->
  removeFirstPath r = ret (setPath r ("/" ++ more)).
Proof.
  intros C P. unfold removeFirstPath. rewrite P.
  cbn [append]. rewrite sliceFrom_1.
  unfold strings.Index.
  rewrite (IndexFrom_slash 0 seg more C).
  replace (0 + Z.of_nat (String.length seg) =? -1)%Z with false
    by (symmetry; apply Z.eqb_neq; lia).
  rewrite sliceFrom_succ, drop_seg. reflexivity.
Qed.

Lemma removeFirstPath_single (r : http.Request) (seg : string) :
  strings.CountByte seg "/" = 0 ->
  url.Path (http.URL r) = "/" ++ seg ->
  removeFirstPath r = ret (setPath r "/").
Proof.
  intros C P. unfold removeFirstPath. rewrite P.
  cbn [append]. rewrite sliceFrom_1.
  unfold strings.Index. rewrite (IndexFrom_no_slash 0 seg C). reflexivity.
Qed.

(** ** The URLs of the client, parsed *)

Lemma CutByte_prefix (p s : string) (sep : ascii) :
  strings.CountByte p sep = 0 ->
  strings.CutByte (p ++ s) sep =
  let '(before, after, found) := strings.CutByte s sep in (p ++ before, after, found).
Proof.
  induction p as [|c p IH]; cbn [append strings.CutByte strings.CountByte]; intros H.
  - destruct (strings.CutByte s sep) as [[b a] f]. reflexivity.
  - destruct (Ascii.eqb c sep); [discriminate|].
    rewrite (IH H). destruct (strings.CutByte s sep) as [[b a] f]. reflexivity.
Qed.

Lemma unescapeFrom_prefix (p s : string) :
  strings.CountByte p "%" = 0 ->
  url.unescapeFrom (p ++ s) =
  let '(r, e) := url.unescapeFrom s in (p ++ r, e).
Proof.
  induction p as [|c p IH]; cbn [append url.unescapeFrom strings.CountByte]; intros H.
  - destruct (url.unescapeFrom s). reflexivity.
  - destruct (Ascii.eqb c "%"); [discriminate|].
    rewrite (IH H). destruct (url.unescapeFrom s). reflexivity.
Qed.

Lemma dropLast_app (p s : string) :
  s <> "" -> strings.dropLast (p ++ s) = p ++ strings.dropLast s.
Proof.
  intros H. induction p as [|a p IH]; [reflexivity|].
  cbn [append strings.dropLast]. rewrite IH.
  destruct (p ++ s) eqn:E; [|reflexivity].
  destruct p; [simpl in E; congruence|discriminate].
Qed.

Lemma parse_client_path (t : string) (u : url.URL) :
  url.parse ("/mattermost-ai/bridge/v1/" ++ t) = (Some u, None) ->
  exists p, url.Path u = "/mattermost-ai/bridge/v1/" ++ p.
Proof.
  unfold url.parse.
  destruct (url.stringContainsCTLByte ("/mattermost-ai/bridge/v1/" ++ t)); [discriminate|].
  change (negb (strings.HasPrefix ("/mattermost-ai/bridge/v1/" ++ t) "/")
          || strings.HasPrefix ("/mattermost-ai/bridge/v1/" ++ t) "//"
             && negb (strings.HasPrefix ("/mattermost-ai/bridge/v1/" ++ t) "///")) with false.
  cbv iota.
  assert (U : forall rest, url.unescape ("/mattermost-ai/bridge/v1/" ++ rest) = (url.Path u, None) ->
                           exists p, url.Path u = "/mattermost-ai/bridge/v1/" ++ p).
  { intros rest. unfold url.unescape.
    rewrite unescapeFrom_prefix by reflexivity.
    destruct (url.unescapeFrom rest) as [r [e|]]; [discriminate|].
    intros H. injection H as H1. exists r. symmetry. exact H1. }
  destruct (match strings.last ("/mattermost-ai/bridge/v1/" ++ t) with
            | Some c => Ascii.eqb c "?"
            | None => false
            end && Nat.eqb (strings.CountByte ("/mattermost-ai/bridge/v1/" ++ t) "?") 1) eqn:F.
  - apply andb_true_iff in F. destruct F as [F _].
    assert (T : t <> "") by (intros ->; discriminate).
    rewrite dropLast_app by exact T.
    destruct (url.unescape ("/mattermost-ai/bridge/v1/" ++ strings.dropLast t)) as [p [e|]] eqn:E;
      [discriminate|].
    intros H. inversion H; subst. apply (U (strings.dropLast t)). exact E.
  - rewrite CutByte_prefix by reflexivity.
    destruct (strings.CutByte t "?") as [[before after] found].
    destruct (url.unescape ("/mattermost-ai/bridge/v1/" ++ before)) as [p [e|]] eqn:E;
      [discriminate|].
    intros H. inversion H; subst. apply (U before). exact E.
Qed.

Lemma NewRequest_client_path (method t : string) (body : option string) (req : http.Request) :
  http.NewRequest method ("/mattermost-ai/bridge/v1/" ++ t) body = (Some req, None) ->
  http.Method req = method /\
  exists p, url.Path (http.URL req) = "/mattermost-ai/bridge/v1/" ++ p.
Proof.
  unfold http.NewRequest, url.Parse.
  rewrite CutByte_prefix by reflexivity.
  destruct (strings.CutByte t "#") as [[u' frag] found].
  destruct (url.parse ("/mattermost-ai/bridge/v1/" ++ u')) as [[u|] [e|]] eqn:P;
    try discriminate.
  apply parse_client_path in P. destruct P as [p P].
  destruct (String.eqb frag "").
  - intros H. inversion H; subst. split; [reflexivity|]. exists p. exact P.
  - destruct (url.unescape frag) as [f [e|]]; [discriminate|].
    intros H. inversion H; subst. split; [reflexivity|]. exists p. exact P.
Qed.

(** C7.  The Direct Dispatch transport hands the router the request with
    the first segment of its path removed, together with the user ID the
    client was built with, the source "mattermost-server" and the
    destination "mattermost-ai": a path "/seg/more" becomes "/more", a path
    "/seg" with no second slash becomes "/".  Every URL the client formats
    starts with "/mattermost-ai/bridge/v1/", so the router sees
    "/bridge/v1/...". *)
Theorem C7_direct_dispatch_strips_first_segment
    (api : AppAPI) (uid : string) (req : http.Request) :
  (forall seg more,
     strings.CountByte seg "/" = 0 ->
     url.Path (http.URL req) = "/" ++ seg ++ "/" ++ more ->
     http.Transport (httpClient (NewClientFromApp api uid)) req =
     Some ((Some (httptest.Result
                    (ServeInternalPluginRequest api uid httptest.NewRecorder
                       (setPath req ("/" ++ more)) "mattermost-server" "mattermost-ai")),
            None),
           [HostServeInternalPluginRequest uid (setPath req ("/" ++ more))
              "mattermost-server" "mattermost-ai"])) /\
  (forall seg,
     strings.CountByte seg "/" = 0 ->
     url.Path (http.URL req) = "/" ++ seg ->
     http.Transport (httpClient (NewClientFromApp api uid)) req =
     Some ((Some (httptest.Result
                    (ServeInternalPluginRequest api uid httptest.NewRecorder
                       (setPath req "/") "mattermost-server" "mattermost-ai")),
            None),
           [HostServeInternalPluginRequest uid (setPath req "/")
              "mattermost-server" "mattermost-ai"])) /\
  (forall method t body created,
     http.NewRequest method ("/mattermost-ai/bridge/v1/" ++ t) body = (Some created, None) ->
     http.URL req = http.URL created ->
     exists p,
       url.Path (http.URL req) = "/mattermost-ai/bridge/v1/" ++ p /\
       http.Transport (httpClient (NewClientFromApp api uid)) req =
       Some ((Some (httptest.Result
                      (ServeInternalPluginRequest api uid httptest.NewRecorder
                         (setPath req ("/bridge/v1/" ++ p))
                         "mattermost-server" "mattermost-ai")),
              None),
             [HostServeInternalPluginRequest uid (setPath req ("/bridge/v1/" ++ p))
                "mattermost-server" "mattermost-ai"])).
Proof.
  assert (G : forall seg more,
             strings.CountByte seg "/" = 0 ->
             url.Path (http.URL req) = "/" ++ seg ++ "/" ++ more ->
             http.Transport (httpClient (NewClientFromApp api uid)) req =
             Some ((Some (httptest.Result
                            (ServeInternalPluginRequest api uid httptest.NewRecorder
                               (setPath req ("/" ++ more))
                               "mattermost-server" "mattermost-ai")),
                    None),
                   [HostServeInternalPluginRequest uid (setPath req ("/" ++ more))
                      "mattermost-server" "mattermost-ai"])).
  { intros seg more C P.
    cbn [NewClientFromApp httpClient http.Transport].
    unfold appAPIRoundTripper_RoundTrip.
    rewrite (removeFirstPath_segment req seg more C P). reflexivity. }
  split; [exact G|]. split.
  - intros seg C P.
    cbn [NewClientFromApp httpClient http.Transport].
    unfold appAPIRoundTripper_RoundTrip.
    rewrite (removeFirstPath_single req seg C P). reflexivity.
  - intros method t body created HN HU.
    destruct (NewRequest_client_path _ _ _ _ HN) as (_ & p & P).
    rewrite <- HU in P.
    exists p. split; [exact P|].
    apply (G "mattermost-ai" ("bridge/v1/" ++ p)); [reflexivity|exact P].
Qed.

(** ** The discovery calls *)

Lemma CutByte_absent (s : string) (sep : ascii) :
  strings.CountByte s sep = 0 ->
  strings.CutByte s sep = (s, "", false).
Proof.
  induction s as [|c s IH]; cbn [strings.CutByte strings.CountByte]; intros H.
  - reflexivity.
  - destruct (Ascii.eqb c sep); [discriminate|].
    now rewrite (IH H).
Qed.

Lemma CountByte_app (p s : string) (sep : ascii) :
  strings.CountByte (p ++ s) sep = strings.CountByte p sep + strings.CountByte s sep.
Proof.
  induction p as [|c p IH]; cbn [append strings.CountByte]; [reflexivity|].
  rewrite IH. lia.
Qed.

Lemma CTL_app (p s : string) :
  url.stringContainsCTLByte (p ++ s) =
  url.stringContainsCTLByte p || url.stringContainsCTLByte s.
Proof.
  unfold url.stringContainsCTLByte.
  induction p as [|c p IH]; cbn [append list_ascii_of_string existsb]; [reflexivity|].
  rewrite IH. now rewrite orb_assoc.
Qed.

Lemma last_counts (s : string) (c : ascii) :
  strings.last s = Some c -> 1 <= strings.CountByte s c.
Proof.
  induction s as [|a s IH]; cbn [strings.last strings.CountByte]; [discriminate|].
  destruct s as [|b s].
  - intros H. inversion H; subst. rewrite Ascii.eqb_refl. simpl. lia.
  - intros H. specialize (IH H). lia.
Qed.

Lemma last_app_nonempty (p s : string) :
  s <> "" -> strings.last (p ++ s) = strings.last s.
Proof.
  intros H. induction p as [|a p IH]; [reflexivity|].
  cbn [append strings.last]. rewrite IH.
  destruct (p ++ s) eqn:E; [|reflexivity].
  destruct p; [simpl in E; congruence|discriminate].
Qed.

(** A URL made of a plain path, "?" and a query with a plain user ID. *)
Lemma Parse_query (path userID : string) :
  url.stringContainsCTLByte path = false ->
  strings.HasPrefix path "/" = true ->
  strings.HasPrefix path "//" = false ->
  strings.CountByte path "#" = 0 ->
  strings.CountByte path "?" = 0 ->
  strings.CountByte path "%" = 0 ->
  userID <> "" ->
  plainID userID = true ->
  url.Parse (path ++ "?user_id=" ++ userID) =
  (Some (url.ofPath path path false ("user_id=" ++ userID)), None).
Proof.
  intros Hctl Hp1 Hp2 Hh Hq Hpc Hne Hplain.
  apply andb_true_iff in Hplain. destruct Hplain as [Hc Hn].
  apply negb_true_iff in Hc. apply Nat.eqb_eq in Hn.
  unfold url.Parse.
  rewrite CutByte_absent
    by (rewrite !CountByte_app, Hh, Hn; reflexivity).
  unfold url.parse.
  rewrite !CTL_app, Hctl, Hc. cbn [orb].
  destruct path as [|c0 path]; [rewrite HasPrefix_nil in Hp1; discriminate|].
  assert (P1 : forall x, strings.HasPrefix (String c0 path ++ x) "/" = true).
  { intros x. cbn [append]. rewrite HasPrefix_cons in *.
    apply andb_true_iff in Hp1. destruct Hp1 as [-> _]. reflexivity. }
  assert (P2 : strings.HasPrefix (String c0 path ++ "?user_id=" ++ userID) "//" = false).
  { cbn [append]. rewrite HasPrefix_cons in *.
    apply andb_false_iff in Hp2. destruct Hp2 as [->|Hp2]; [reflexivity|].
    destruct path as [|c1 path].
    - cbn [append]. rewrite HasPrefix_cons.
      change (Ascii.eqb "?" "/") with false. cbn [andb]. apply andb_false_r.
    - cbn [append]. rewrite HasPrefix_cons in *.
      apply andb_false_iff in Hp2. destruct Hp2 as [->|Hp2]; [apply andb_false_r|].
      discriminate. }
  rewrite P1, P2. cbn [negb orb andb].
  set (full := String c0 path ++ "?user_id=" ++ userID).
  assert (F : match strings.last full with
              | Some c => Ascii.eqb c "?"
              | None => false
              end && Nat.eqb (strings.CountByte full "?") 1 = false).
  { destruct (strings.last full) as [c|] eqn:L; [|reflexivity].
    destruct (Ascii.eqb c "?") eqn:E; [|reflexivity].
    apply Ascii.eqb_eq in E. subst c.
    unfold full in L.
    rewrite last_app_nonempty in L by discriminate.
    rewrite (last_app_nonempty "?user_id=" userID Hne) in L.
    apply last_counts in L.
    unfold full. rewrite !CountByte_app, Hq.
    cbn [andb]. apply Nat.eqb_neq.
    change (strings.CountByte "?user_id=" "?") with 1. lia. }
  rewrite F. unfold full.
  change (String c0 path ++ "?user_id=" ++ userID)
    with (String c0 path ++ String "?" ("user_id=" ++ userID)).
  rewrite (CutByte_line _ _ _ Hq).
  unfold url.unescape.
  replace (String c0 path) with (String c0 path ++ "") at 1 by apply app_empty_r.
  rewrite unescapeFrom_prefix by exact Hpc.
  cbn [url.unescapeFrom]. rewrite app_empty_r.
  reflexivity.
Qed.

Lemma NewRequest_get (path userID : string) :
  url.stringContainsCTLByte path = false ->
  strings.HasPrefix path "/" = true ->
  strings.HasPrefix path "//" = false ->
  strings.CountByte path "#" = 0 ->
  strings.CountByte path "?" = 0 ->
  strings.CountByte path "%" = 0 ->
  userID <> "" ->
  plainID userID = true ->
  http.NewRequest "GET" (path ++ "?user_id=" ++ userID) None =
  (Some (getRequest path ("user_id=" ++ userID)), None).
Proof.
  intros. unfold http.NewRequest. rewrite Parse_query by assumption. reflexivity.
Qed.

Lemma GetAgents_answered (c : Client) (userID : string) (req : http.Request)
    (resp : http.Response) (t : list Effect) :
  http.NewRequest "GET" (agentsURL userID) None = (Some req, None) ->
  http.Do (httpClient c) req = Some ((Some resp, None), t) ->
  GetAgents c userID =
  Some (match io.ReadAll (http.Body resp) with
        | (_, Some err) => ([], Some (wrapError "failed to read response body: " err))
        | (respBody, None) =>
            if negb (http.StatusCode resp =? http.StatusOK)%Z
            then ([], statusError resp respBody)
            else
              match json.Unmarshal setAgentsResponse respBody zeroAgentsResponse with
              | (_, Some err) => ([], Some (wrapError "failed to unmarshal response: " err))
              | (agentsResp, None) => (Agents agentsResp, None)
              end
        end,
        t ++ [BodyClose (http.Body resp)])%list.
Proof.
  intros HN HD. unfold GetAgents. cbv zeta. rewrite HN, HD.
  cbn [bind]. unfold defer.
  destruct (io.ReadAll (http.Body resp)) as [respBody [err|]]; [reflexivity|].
  destruct (negb (http.StatusCode resp =? http.StatusOK)%Z); [reflexivity|].
  destruct (json.Unmarshal setAgentsResponse respBody zeroAgentsResponse)
    as [r [err|]]; reflexivity.
Qed.

Lemma GetServices_answered (c : Client) (userID : string) (req : http.Request)
    (resp : http.Response) (t : list Effect) :
  http.NewRequest "GET" (servicesURL userID) None = (Some req, None) ->
  http.Do (httpClient c) req = Some ((Some resp, None), t) ->
  GetServices c userID =
  Some (match io.ReadAll (http.Body resp) with
        | (_, Some err) => ([], Some (wrapError "failed to read response body: " err))
        | (respBody, None) =>
            if negb (http.StatusCode resp =? http.StatusOK)%Z
            then ([], statusError resp respBody)
            else
              match json.Unmarshal setServicesResponse respBody zeroServicesResponse with
              | (_, Some err) => ([], Some (wrapError "failed to unmarshal response: " err))
              | (servicesResp, None) => (Services servicesResp, None)
              end
        end,
        t ++ [BodyClose (http.Body resp)])%list.
Proof.
  intros HN HD. unfold GetServices. cbv zeta. rewrite HN, HD.
  cbn [bind]. unfold defer.
  destruct (io.ReadAll (http.Body resp)) as [respBody [err|]]; [reflexivity|].
  destruct (negb (http.StatusCode resp =? http.StatusOK)%Z); [reflexivity|].
  destruct (json.Unmarshal setServicesResponse respBody zeroServicesResponse)
    as [r [err|]]; reflexivity.
Qed.

(** The relay is asked once, with the request that was created. *)
Lemma GetAgents_issues (api : PluginAPI) (userID : string) (req : http.Request) :
  http.NewRequest "GET" (agentsURL userID) None = (Some req, None) ->
  exists r t, GetAgents (NewClient api) userID = Some (r, HostPluginHTTP req :: t).
Proof.
  intros HN.
  pose proof (Do_relay api req) as HD.
  destruct (PluginHTTP api req) as [resp|] eqn:P.
  - destruct (http.redirects resp).
    + unfold GetAgents. cbv zeta. rewrite HN, HD. cbn. eauto.
    + rewrite (GetAgents_answered _ _ _ _ _ HN HD). cbn [app]. eauto.
  - unfold GetAgents. cbv zeta. rewrite HN, HD. cbn. eauto.
Qed.

Lemma GetServices_issues (api : PluginAPI) (userID : string) (req : http.Request) :
  http.NewRequest "GET" (servicesURL userID) None = (Some req, None) ->
  exists r t, GetServices (NewClient api) userID = Some (r, HostPluginHTTP req :: t).
Proof.
  intros HN.
  pose proof (Do_relay api req) as HD.
  destruct (PluginHTTP api req) as [resp|] eqn:P.
  - destruct (http.redirects resp).
    + unfold GetServices. cbv zeta. rewrite HN, HD. cbn. eauto.
    + rewrite (GetServices_answered _ _ _ _ _ HN HD). cbn [app]. eauto.
  - unfold GetServices. cbv zeta. rewrite HN, HD. cbn. eauto.
Qed.



(** C8.  The Sandboxed Relay transport hands the request to [PluginHTTP]
    once.  A nil response becomes the error "failed to make interplugin
    request" and no response; any other response is returned as it is, with
    no error.  [c.httpClient.Do] wraps the error in a [*url.Error] holding
    the request's URL, and returns unchanged a response it does not follow
    as a redirect.  So when the plugin API has no response, each of the six
    calls of a client built with [NewClient] fails: it returns its zero
    result and "failed to execute request: ..." wrapping that error, after
    the one call of [PluginHTTP], instead of succeeding with an empty
    result. *)
Theorem C8_sandboxed_relay
    (Marshal : CompletionRequest -> string * option error)
    (api : PluginAPI) (req : http.Request) :
  http.Transport (httpClient (NewClient api)) req =
    Some (match PluginHTTP api req with
          | None => (None, Some (errorString "failed to make interplugin request"))
          | Some resp => (Some resp, None)
          end, [HostPluginHTTP req]) /\
  (forall resp,
     PluginHTTP api req = Some resp ->
     http.redirects resp = false ->
     http.Do (httpClient (NewClient api)) req = Some ((Some resp, None), [HostPluginHTTP req])) /\
  (PluginHTTP api req = None ->
   let failure :=
     urlError (http.urlErrorOp (http.Method req)) (url.String_ (http.URL req))
       (errorString "failed to make interplugin request") in
   http.Do (httpClient (NewClient api)) req = Some ((None, Some failure), [HostPluginHTTP req]) /\
   (forall userID,
      http.NewRequest "GET" (agentsURL userID) None = (Some req, None) ->
      GetAgents (NewClient api) userID =
      Some (([], Some (wrapError "failed to execute request: " failure)),
            [HostPluginHTTP req])) /\
   (forall userID,
      http.NewRequest "GET" (servicesURL userID) None = (Some req, None) ->
      GetServices (NewClient api) userID =
      Some (([], Some (wrapError "failed to execute request: " failure)),
            [HostPluginHTTP req])) /\
   (forall name request body created,
      Marshal request = (body, None) ->
      http.NewRequest "POST"
        ("/mattermost-ai/bridge/v1/completion/agent/" ++ name ++ "/nostream") (Some body)
        = (Some created, None) ->
      req = headers false created ->
      AgentCompletion Marshal (NewClient api) name request =
      Some (("", Some (wrapError "failed to execute request: " failure)),
            [HostPluginHTTP req])) /\
   (forall name request body created,
      Marshal request = (body, None) ->
      http.NewRequest "POST"
        ("/mattermost-ai/bridge/v1/completion/service/" ++ name ++ "/nostream") (Some body)
        = (Some created, None) ->
      req = headers false created ->
      ServiceCompletion Marshal (NewClient api) name request =
      Some (("", Some (wrapError "failed to execute request: " failure)),
            [HostPluginHTTP req])) /\
   (forall name request body created,
      Marshal request = (body, None) ->
      http.NewRequest "POST"
        ("/mattermost-ai/bridge/v1/completion/agent/" ++ name) (Some body)
        = (Some created, None) ->
      req = headers true created ->
      AgentCompletionStream Marshal (NewClient api) name request =
      Some ((None, Some (wrapError "failed to execute request: " failure)),
            [HostPluginHTTP req])) /\
   (forall name request body created,
      Marshal request = (body, None) ->
      http.NewRequest "POST"
        ("/mattermost-ai/bridge/v1/completion/service/" ++ name) (Some body)
        = (Some created, None) ->
      req = headers true created ->
      ServiceCompletionStream Marshal (NewClient api) name request =
      Some ((None, Some (wrapError "failed to execute request: " failure)),
            [HostPluginHTTP req]))).
Proof.
  split; [|split].
  - cbn. destruct (PluginHTTP api req); reflexivity.
  - intros resp HP HR. rewrite Do_relay, HP, HR. reflexivity.
  - intros HP failure.
    assert (HD : http.Do (httpClient (NewClient api)) req =
                 Some ((None, Some failure), [HostPluginHTTP req]))
      by (rewrite Do_relay, HP; reflexivity).
    split; [exact HD|].
    assert (S : forall url request body created,
               Marshal request = (body, None) ->
               http.NewRequest "POST" url (Some body) = (Some created, None) ->
               req = headers false created ->
               doCompletionRequest Marshal (NewClient api) url request =
               Some (("", Some (wrapError "failed to execute request: " failure)),
                     [HostPluginHTTP req])).
    { intros url request body created HM HN E.
      unfold doCompletionRequest. rewrite HM, HN.
      unfold headers in E. cbv zeta in E |- *. rewrite <- E, HD. reflexivity. }
    assert (T : forall url request body created,
               Marshal request = (body, None) ->
               http.NewRequest "POST" url (Some body) = (Some created, None) ->
               req = headers true created ->
               doStreamingRequest Marshal (NewClient api) url request =
               Some ((None, Some (wrapError "failed to execute request: " failure)),
                     [HostPluginHTTP req])).
    { intros url request body created HM HN E.
      unfold doStreamingRequest. rewrite HM, HN.
      unfold headers in E. cbv zeta in E |- *. rewrite <- E, HD. reflexivity. }
    repeat split.
    + intros userID HN. unfold GetAgents. cbv zeta. rewrite HN, HD. reflexivity.
    + intros userID HN. unfold GetServices. cbv zeta. rewrite HN, HD. reflexivity.
    + intros name request body created HM HN E. exact (S _ _ _ _ HM HN E).
    + intros name request body created HM HN E. exact (S _ _ _ _ HM HN E).
    + intros name request body created HM HN E. exact (T _ _ _ _ HM HN E).
    + intros name request body created HM HN E. exact (T _ _ _ _ HM HN E).
Qed.

(** ** The events of a stream *)

(** C1 (as amended).  When the reader goroutine comes to the end of the
    lines without having met an End or Error frame or a malformed one, what
    follows depends on how the input ended.  After a read fault (the body's
    reader returned an error other than [io.EOF], or a line did not fit the
    scanner's buffer) it sends one more event, an Error that wraps the
    fault, as the last event before it returns.  After a regular end of the
    input it sends nothing more: the events are those of the frames, none of
    them an Error, and the channel is closed after the last one.  So a body
    that ends after one text frame yields that Text event alone, and one
    that is cut off by a fault after it yields Text, then Error. *)
Theorem C1_read_fault_is_reported_end_of_input_is_not :
  (forall body : io.ReadCloser,
   exists lines e,
     scanBody body = Some (lines, e) /\
     (forallb goesOn lines = true ->
      Forall (fun event => isTerminal event = false) (published lines) /\
      match e with
      | Some err =>
          (err = ErrTooLong \/ (err = io.fin body /\ io.fin body <> EOF)) /\
          goroutine body =
            Some (program body (published lines
                            ++ [{| Type' := EventTypeError;
                                   Value := ofError (wrapError "error reading stream: " err) |}]))
      | None =>
          io.fin body = EOF /\
          goroutine body = Some (program body (published lines))
      end)) /\
  goroutine (oneFrame EOF) = Some (program (oneFrame EOF) [Text "a"]) /\
  goroutine (oneFrame ErrUnexpectedEOF) =
    Some (program (oneFrame ErrUnexpectedEOF)
            [Text "a";
              {| Type' := EventTypeError;
                 Value := ofError (wrapError "error reading stream: " ErrUnexpectedEOF) |}]).
Proof.
  split; [|split; reflexivity].
  intros body.
  destruct (scanBody_total body) as (lines & e & H).
  exists lines, e. split; [exact H|].
  intros G. split; [apply published_not_terminal|].
  pose proof (goroutine_lines _ _ _ H) as HG.
  rewrite (decodeLines_goesOn _ _ G) in HG.
  pose proof (scanAll_err _ _ _ _ H) as HE.
  destruct e as [err|].
  - split; [exact HE|exact HG].
  - split; [exact HE|]. now rewrite app_nil_r in HG.
Qed.

(** The body that ends after one text frame: the consumer receives the
    Text event and then finds the channel closed; no Error was sent. *)
Lemma C1_counterexample_clean_end :
  io.fin (oneFrame EOF) = EOF /\
  goroutine (oneFrame EOF) =
    Some [chan.Send (Text "a"); chan.CloseChan; chan.Run (BodyClose (oneFrame EOF))] /\
  chan.range 2
    (chan.start [chan.Send (Text "a"); chan.CloseChan; chan.Run (BodyClose (oneFrame EOF))])
  = Some ([Text "a"], returned (oneFrame EOF)) /\
  ~ (exists err,
       goroutine (oneFrame EOF) =
       Some (program (oneFrame EOF) [Text "a";
             {| Type' := EventTypeError;
                Value := ofError (wrapError "error reading stream: " err) |}])).
Proof.
  repeat split.
  intros [err H]. discriminate H.
Qed.

(** C2 (as amended).  The response body of a streaming call is closed by
    the reader goroutine when it returns, and by nothing else: the call
    itself returns the handle without closing it.  A consumer that receives
    every event the reader sends lets it return, and the body is closed,
    once.  A consumer that stops earlier leaves the reader blocked in the
    send of the next event: the channel stays open and the body is not
    closed. *)
Theorem C2_body_is_closed_when_the_reader_returns
    (Marshal : CompletionRequest -> string * option error)
    (c : Client) (url : string) (request : CompletionRequest)
    (resp : http.Response) (t : list Effect) (n : nat) :
  roundTrip Marshal c url request true resp t ->
  http.StatusCode resp = 200%Z ->
  exists events,
    doStreamingRequest Marshal c url request =
      Some ((Some {| Stream := Some (program (http.Body resp) events) |}, None), t) /\
    (List.length events <= n ->
     chan.receive n (chan.start (program (http.Body resp) events)) =
     (events,
      {| chan.todo := []; chan.closed := true;
         chan.effects := [BodyClose (http.Body resp)] |})) /\
    (n < List.length events ->
     chan.receive n (chan.start (program (http.Body resp) events)) =
     (firstn n events,
      {| chan.todo := program (http.Body resp) (skipn n events);
         chan.closed := false; chan.effects := [] |})).
Proof.
  intros RT HS.
  destruct (goroutine_total (http.Body resp)) as (lines & e & _ & HG).
  exists (decodeLines lines e).
  rewrite (doStreamingRequest_200 _ _ _ _ _ _ RT HS), HG.
  split; [reflexivity|]. split.
  - apply receive_all.
  - apply receive_some.
Qed.

(** Two text frames, and a consumer that receives one event and walks
    away: the reader is blocked sending the second, the channel is open and
    the body has not been closed. *)
Lemma C2_counterexample_abandoned_stream :
  goroutine twoFrames = Some (program twoFrames [Text "a"; Text "b"]) /\
  chan.receive 1 (chan.start (program twoFrames [Text "a"; Text "b"])) =
  ([Text "a"],
   {| chan.todo := chan.Send (Text "b") :: deferred twoFrames;
      chan.closed := false; chan.effects := [] |}) /\
  ~ In (BodyClose twoFrames)
      (chan.effects (snd (chan.receive 1 (chan.start (program twoFrames [Text "a"; Text "b"]))))).
Proof.
  repeat split. intros H. exact H.
Qed.

(** C3.  A 200 response whose body is the three frames text "a", text "b",
    end (whatever follows them) makes [AgentCompletionStream] and
    [ServiceCompletionStream] return a handle on which the consumer receives
    Text("a"), Text("b"), End, in that order, and then finds the channel
    closed: nothing is delivered after End. *)
Theorem C3_three_frames_in_order
    (Marshal : CompletionRequest -> string * option error)
    (c : Client) (request : CompletionRequest)
    (resp : http.Response) (t : list Effect) (more : string) (fin : error) :
  http.StatusCode resp = 200%Z ->
  http.Body resp = {| io.data := threeFrames ++ more; io.fin := fin |} ->
  (forall agent,
     roundTrip Marshal c ("/mattermost-ai/bridge/v1/completion/agent/" ++ agent)
       request true resp t ->
     AgentCompletionStream Marshal c agent request =
     Some ((Some {| Stream := Some (program (http.Body resp) [Text "a"; Text "b"; End]) |},
            None), t)) /\
  (forall service,
     roundTrip Marshal c ("/mattermost-ai/bridge/v1/completion/service/" ++ service)
       request true resp t ->
     ServiceCompletionStream Marshal c service request =
     Some ((Some {| Stream := Some (program (http.Body resp) [Text "a"; Text "b"; End]) |},
            None), t)) /\
  chan.range 4 (chan.start (program (http.Body resp) [Text "a"; Text "b"; End])) =
  Some ([Text "a"; Text "b"; End],
        {| chan.todo := []; chan.closed := true;
           chan.effects := [BodyClose (http.Body resp)] |}).
Proof.
  intros HS HB.
  assert (G : forall url,
             roundTrip Marshal c url request true resp t ->
             doStreamingRequest Marshal c url request =
             Some ((Some {| Stream := Some (program (http.Body resp)
                                              [Text "a"; Text "b"; End]) |},
                    None), t)).
  { intros url RT.
    rewrite (doStreamingRequest_200 _ _ _ _ _ _ RT HS), HB.
    now rewrite goroutine_threeFrames. }
  split; [|split].
  - intros agent RT. apply (G _ RT).
  - intros service RT. apply (G _ RT).
  - apply (range_all (http.Body resp) [Text "a"; Text "b"; End]). simpl. lia.
Qed.

(** C4.  Lines without the "data: " marker and lines that are the marker
    alone produce no event: the reader behaves as if they were not there.
    At the first frame whose payload does not unmarshal into an event
    (reached without a terminal frame before it) the reader sends one Error
    event that wraps the parse error and returns; what follows the frame is
    never read.  "data: {not-json" is such a frame. *)
Theorem C4_malformed_frame_ends_the_stream :
  (forall body lines e,
     scanBody body = Some (lines, e) ->
     goroutine body =
       Some (program body
               (decodeLines (List.filter (fun line => negb (isPadding line)) lines) e)) /\
     (forall line, isPadding line = true -> onLine line = Skip) /\
     (forall before line after payload err event,
        lines = (before ++ line :: after)%list ->
        forallb goesOn before = true ->
        line = "data: " ++ payload ->
        payload <> "" ->
        llm.Unmarshal payload = (event, Some err) ->
        Forall (fun event => isTerminal event = false) (published before) /\
        goroutine body =
          Some (program body (published before
                         ++ [{| Type' := EventTypeError;
                                Value := ofError
                                           (wrapError "error parsing stream event: " err) |}])))) /\
  llm.Unmarshal "{not-json" = (zeroEvent, Some SyntaxError) /\
  (forall fin,
     goroutine {| io.data := ": ping" ++ nl ++ nl ++ "data: " ++ nl ++ frameBad ++ nl
                               ++ frameA ++ nl;
                  io.fin := fin |} =
     Some [chan.Send
             {| Type' := EventTypeError;
                Value := ofError (wrapError "error parsing stream event: " SyntaxError) |};
           chan.CloseChan;
           chan.Run (BodyClose
                       {| io.data := ": ping" ++ nl ++ nl ++ "data: " ++ nl ++ frameBad
                                       ++ nl ++ frameA ++ nl;
                          io.fin := fin |})]).
Proof.
  split; [|split; [reflexivity|intros fin; reflexivity]].
  intros body lines e H.
  pose proof (goroutine_lines _ _ _ H) as HG.
  split; [|split].
  - now rewrite <- decodeLines_padding.
  - intros line P. apply isPadding_Skip. exact P.
  - intros before line after payload err event -> G -> Hne HU.
    split; [apply published_not_terminal|].
    rewrite HG. f_equal. f_equal.
    apply decodeLines_stop; [exact G|].
    rewrite (onLine_frame _ Hne), HU. reflexivity.
Qed.

(** ** The theorems at sample inputs *)

Lemma C1_witness_fault :
  exists lines e,
    scanBody (oneFrame ErrUnexpectedEOF) = Some (lines, e) /\
    forallb goesOn lines = true /\
    e = Some ErrUnexpectedEOF /\
    goroutine (oneFrame ErrUnexpectedEOF) =
      Some (program (oneFrame ErrUnexpectedEOF)
              (published lines
               ++ [{| Type' := EventTypeError;
                      Value := ofError
                                 (wrapError "error reading stream: " ErrUnexpectedEOF) |}])).
Proof.
  destruct (proj1 C1_read_fault_is_reported_end_of_input_is_not
              (oneFrame ErrUnexpectedEOF)) as (lines & e & H & K).
  exists lines, e.
  assert (E : (lines, e) = ([frameA], Some ErrUnexpectedEOF)).
  { assert (S : scanBody (oneFrame ErrUnexpectedEOF)
                = Some ([frameA], Some ErrUnexpectedEOF)) by reflexivity.
    rewrite S in H. injection H as H1 H2. subst. reflexivity. }
  injection E as E1 E2. subst lines e.
  split; [reflexivity|]. split; [reflexivity|]. split; [reflexivity|].
  exact (proj2 (proj2 (K eq_refl))).
Defined.

Lemma C2_witness :
  exists t,
    roundTrip sampleMarshal (NewClient (relay (response 200 (io.data twoFrames))))
      "/mattermost-ai/bridge/v1/completion/agent/bot" sampleRequest true
      (response 200 (io.data twoFrames)) t /\
    exists events,
      doStreamingRequest sampleMarshal (NewClient (relay (response 200 (io.data twoFrames))))
        "/mattermost-ai/bridge/v1/completion/agent/bot" sampleRequest =
      Some ((Some {| Stream := Some (program twoFrames events) |}, None), t) /\
      (List.length events <= 1 ->
       chan.receive 1 (chan.start (program twoFrames events)) =
       (events,
        {| chan.todo := []; chan.closed := true; chan.effects := [BodyClose twoFrames] |})) /\
      (1 < List.length events ->
       chan.receive 1 (chan.start (program twoFrames events)) =
       (firstn 1 events,
        {| chan.todo := program twoFrames (skipn 1 events);
           chan.closed := false; chan.effects := [] |})).
Proof.
  assert (RT : exists t,
             roundTrip sampleMarshal
               (NewClient (relay (response 200 (io.data twoFrames))))
               "/mattermost-ai/bridge/v1/completion/agent/bot" sampleRequest true
               (response 200 (io.data twoFrames)) t).
  { eexists. unfold roundTrip. eexists. eexists. repeat split; reflexivity. }
  destruct RT as [t RT]. exists t.
  split; [exact RT|].
  exact (C2_body_is_closed_when_the_reader_returns _ _ _ _ _ _ 1 RT eq_refl).
Defined.

Lemma C3_witness :
  exists t,
    roundTrip sampleMarshal (NewClient (relay (response 200 threeFrames)))
      "/mattermost-ai/bridge/v1/completion/agent/bot" sampleRequest true
      (response 200 threeFrames) t /\
    AgentCompletionStream sampleMarshal (NewClient (relay (response 200 threeFrames)))
      "bot" sampleRequest =
    Some ((Some {| Stream := Some (program (http.Body (response 200 threeFrames))
                                     [Text "a"; Text "b"; End]) |}, None), t).
Proof.
  assert (RT : exists t,
             roundTrip sampleMarshal (NewClient (relay (response 200 threeFrames)))
               "/mattermost-ai/bridge/v1/completion/agent/bot" sampleRequest true
               (response 200 threeFrames) t).
  { eexists. unfold roundTrip. eexists. eexists. repeat split; reflexivity. }
  destruct RT as [t RT]. exists t.
  split; [exact RT|].
  exact (proj1 (C3_three_frames_in_order sampleMarshal _ sampleRequest
                  (response 200 threeFrames) t "" EOF eq_refl eq_refl) "bot" RT).
Defined.

Lemma C4_witness :
  scanBody {| io.data := frameBad ++ nl ++ frameA ++ nl; io.fin := EOF |}
    = Some ([] ++ frameBad :: [frameA], None)%list /\
  llm.Unmarshal "{not-json" = (zeroEvent, Some SyntaxError) /\
  goroutine {| io.data := frameBad ++ nl ++ frameA ++ nl; io.fin := EOF |} =
  Some (program {| io.data := frameBad ++ nl ++ frameA ++ nl; io.fin := EOF |}
          [
            {| Type' := EventTypeError;
               Value := ofError (wrapError "error parsing stream event: " SyntaxError) |}]).
Proof.
  split; [reflexivity|]. split; [reflexivity|].
  exact (proj2 (proj2 (proj2 (proj1 C4_malformed_frame_ends_the_stream
                                {| io.data := frameBad ++ nl ++ frameA ++ nl; io.fin := EOF |}
                                _ _ eq_refl))
                  [] frameBad [frameA] "{not-json" SyntaxError zeroEvent
                  eq_refl eq_refl eq_refl
                  (fun H : "{not-json" = "" => eq_ind "{not-json"
                     (fun s => match s with EmptyString => False | _ => True end)
                     I "" H)
                  eq_refl)).
Defined.

Lemma C6_witness :
  http.StatusCode (response 200 (quoted "{'completion':'hi'}")) = 200%Z /\
  exists t,
    roundTrip sampleMarshal
      (NewClient (relay (response 200 (quoted "{'completion':'hi'}"))))
      "/mattermost-ai/bridge/v1/completion/agent/bot/nostream" sampleRequest false
      (response 200 (quoted "{'completion':'hi'}")) t /\
    AgentCompletion sampleMarshal
      (NewClient (relay (response 200 (quoted "{'completion':'hi'}")))) "bot" sampleRequest =
    Some (("hi", None),
          t ++ [BodyClose (http.Body (response 200 (quoted "{'completion':'hi'}")))])%list.
Proof.
  split; [reflexivity|].
  assert (RT : exists t,
             roundTrip sampleMarshal
               (NewClient (relay (response 200 (quoted "{'completion':'hi'}"))))
               "/mattermost-ai/bridge/v1/completion/agent/bot/nostream" sampleRequest false
               (response 200 (quoted "{'completion':'hi'}")) t).
  { eexists. unfold roundTrip. eexists. eexists. repeat split; reflexivity. }
  destruct RT as [t RT]. exists t.
  split; [exact RT|].
  exact (proj1 (proj1 (C6_completion_is_returned sampleMarshal _ sampleRequest
                         (response 200 (quoted "{'completion':'hi'}")) t eq_refl)
                  (quoted "{'completion':'hi'}") "hi" eq_refl eq_refl) "bot" RT).
Defined.

Lemma C7_witness :
  strings.CountByte "mattermost-ai" "/" = 0 /\
  http.Transport (httpClient (NewClientFromApp (router 200 (quoted "{'agents':[]}")) "user-1"))
    (getRequest "/mattermost-ai/bridge/v1/agents" "") =
  Some ((Some (response 200 (quoted "{'agents':[]}")), None),
        [HostServeInternalPluginRequest "user-1" (getRequest "/bridge/v1/agents" "")
           "mattermost-server" "mattermost-ai"]) /\
  http.Transport (httpClient (NewClientFromApp (router 200 "") "user-1"))
    (getRequest "/mattermost-ai" "") =
  Some ((Some (response 200 ""), None),
        [HostServeInternalPluginRequest "user-1" (getRequest "/" "")
           "mattermost-server" "mattermost-ai"]).
Proof.
  split; [reflexivity|]. split.
  - exact (proj1 (C7_direct_dispatch_strips_first_segment
                    (router 200 (quoted "{'agents':[]}")) "user-1"
                    (getRequest "/mattermost-ai/bridge/v1/agents" ""))
             "mattermost-ai" "bridge/v1/agents" eq_refl eq_refl).
  - exact (proj1 (proj2 (C7_direct_dispatch_strips_first_segment
                           (router 200 "") "user-1" (getRequest "/mattermost-ai" "")))
             "mattermost-ai" eq_refl eq_refl).
Defined.


(** * More of the package *)

(** ** [removeFirstPath] on any path *)

Lemma HasPrefix_slash (s : string) :
  strings.HasPrefix s "/" = true -> exists rest, s = String "/" rest.
Proof.
  destruct s as [|c s]; [rewrite HasPrefix_nil; discriminate|].
  rewrite HasPrefix_cons. intros H.
  apply andb_true_iff in H. destruct H as [E _].
  apply Ascii.eqb_eq in E. subst. eauto.
Qed.

(** [Index(s, "/")] is -1 or the offset of a slash in [s]. *)
Lemma IndexFrom_spec (i : Z) (s : string) :
  strings.IndexFrom i s "/" = (-1)%Z \/
  exists k rest,
    strings.IndexFrom i s "/" = (i + Z.of_nat k)%Z /\
    strings.drop k s = Some (String "/" rest).
Proof.
  revert i.
  induction s as [|c s IH]; intros i.
  - left. reflexivity.
  - cbn [strings.IndexFrom].
    destruct (strings.HasPrefix (String c s) "/") eqn:P.
    + right. destruct (HasPrefix_slash _ P) as [rest E].
      exists 0, rest. split; [simpl; lia|]. simpl. now rewrite E.
    + destruct (IH (i + 1)%Z) as [H|(k & rest & H & D)].
      * left. exact H.
      * right. exists (S k), rest. split; [rewrite H; lia|exact D].
Qed.

Lemma drop_length (k : nat) (s r : string) :
  strings.drop k s = Some r -> String.length r <= String.length s.
Proof.
  revert s.
  induction k as [|k IH]; intros s H.
  - inversion H. lia.
  - destruct s as [|c s]; [discriminate|].
    simpl in H. apply IH in H. simpl. lia.
Qed.

Lemma removeFirstPath_rooted (r : http.Request) (c : ascii) (tail : string) :
  url.Path (http.URL r) = String c tail ->
  exists p,
    removeFirstPath r = ret (setPath r (String "/" p)) /\
    String.length (String "/" p) <= String.length (url.Path (http.URL r)).
Proof.
  intros P. unfold removeFirstPath. rewrite P, sliceFrom_1.
  unfold strings.Index.
  destruct (IndexFrom_spec 0 tail) as [H|(k & rest & H & D)].
  - rewrite H. exists "". split; [reflexivity|simpl; lia].
  - rewrite H.
    replace (0 + Z.of_nat k =? -1)%Z with false by (symmetry; apply Z.eqb_neq; lia).
    rewrite sliceFrom_succ, D.
    exists rest. split; [reflexivity|].
    apply drop_length in D. simpl in *. lia.
Qed.

(** X1.  [removeFirstPath] never fails on a path that is not empty: the
    path it leaves starts with "/" and is no longer than the one it got, and
    the method, query, fragment, headers and body of the request are
    untouched.  On the empty path it panics ([path[1:]]), and so does the
    Direct Dispatch round trip. *)
Theorem X1_removeFirstPath_total_and_rooted (r : http.Request) :
  (url.Path (http.URL r) <> "" ->
   exists r' p,
     removeFirstPath r = Some (r', []) /\
     url.Path (http.URL r') = String "/" p /\
     String.length (url.Path (http.URL r')) <= String.length (url.Path (http.URL r)) /\
     http.Method r' = http.Method r /\
     url.RawQuery (http.URL r') = url.RawQuery (http.URL r) /\
     url.Fragment (http.URL r') = url.Fragment (http.URL r) /\
     http.ReqHeader r' = http.ReqHeader r /\
     http.ReqBody r' = http.ReqBody r) /\
  (url.Path (http.URL r) = "" ->
   removeFirstPath r = None /\
   forall a, appAPIRoundTripper_RoundTrip a r = None).
Proof.
  split.
  - intros Hne.
    destruct (url.Path (http.URL r)) as [|c tail] eqn:P; [congruence|].
    destruct (removeFirstPath_rooted r c tail P) as (p & H & L).
    exists (setPath r (String "/" p)), p.
    rewrite P in L. repeat split; try reflexivity; assumption.
  - intros P.
    assert (H : removeFirstPath r = None)
      by (unfold removeFirstPath; rewrite P; reflexivity).
    split; [exact H|].
    intros a. unfold appAPIRoundTripper_RoundTrip. rewrite H. reflexivity.
Qed.

Lemma X1_witness :
  url.Path (http.URL (getRequest "/plugins/x/y" "a=b")) <> "" /\
  removeFirstPath (getRequest "/plugins/x/y" "a=b") = Some (getRequest "/x/y" "a=b", []) /\
  removeFirstPath (getRequest "" "") = None.
Proof.
  assert (N : url.Path (http.URL (getRequest "/plugins/x/y" "a=b")) <> "")
    by discriminate.
  split; [exact N|]. split.
  - destruct (proj1 (X1_removeFirstPath_total_and_rooted (getRequest "/plugins/x/y" "a=b")) N)
      as (r' & p & H & _).
    reflexivity.
  - exact (proj1 (proj2 (X1_removeFirstPath_total_and_rooted (getRequest "" "")) eq_refl)).
Defined.

(** ** Direct Dispatch always has a response *)

(** X2.  The round trip of the Direct Dispatch transport, for a request
    with a path, always gives a response and never an error: the router is
    called once, the status is the one the handler recorded (200 if it
    recorded none), and the body is the recorded buffer, which reads to the
    end without a fault.  [c.httpClient.Do] returns that response after the
    one round trip whenever it is not a redirect the client follows. *)
Theorem X2_direct_dispatch_always_answers
    (api : AppAPI) (uid : string) (req : http.Request) :
  url.Path (http.URL req) <> "" ->
  exists req' resp,
    http.Transport (httpClient (NewClientFromApp api uid)) req =
      Some ((Some resp, None),
            [HostServeInternalPluginRequest uid req' "mattermost-server" "mattermost-ai"]) /\
    resp = httptest.Result
             (ServeInternalPluginRequest api uid httptest.NewRecorder req'
                "mattermost-server" "mattermost-ai") /\
    http.StatusCode resp <> 0%Z /\
    io.ReadAll (http.Body resp) = (io.data (http.Body resp), None) /\
    (http.redirects resp = false ->
     http.Do (httpClient (NewClientFromApp api uid)) req =
       Some ((Some resp, None),
             [HostServeInternalPluginRequest uid req' "mattermost-server" "mattermost-ai"])).
Proof.
  intros Hne.
  destruct (url.Path (http.URL req)) as [|c tail] eqn:P; [congruence|].
  destruct (removeFirstPath_rooted req c tail P) as (p & H & _).
  exists (setPath req (String "/" p)).
  eexists.
  assert (T : http.Transport (httpClient (NewClientFromApp api uid)) req =
              Some ((Some (httptest.Result
                             (ServeInternalPluginRequest api uid httptest.NewRecorder
                                (setPath req (String "/" p))
                                "mattermost-server" "mattermost-ai")), None),
                    [HostServeInternalPluginRequest uid (setPath req (String "/" p))
                       "mattermost-server" "mattermost-ai"])).
  { cbn [NewClientFromApp httpClient http.Transport].
    unfold appAPIRoundTripper_RoundTrip. rewrite H. reflexivity. }
  split; [exact T|]. split; [reflexivity|]. split; [|split].
  - cbn [httptest.Result http.StatusCode].
    destruct (httptest.Code _ =? 0)%Z eqn:E; [discriminate|].
    apply Z.eqb_neq. exact E.
  - reflexivity.
  - intros R. unfold http.Do. rewrite T. cbn [bind]. rewrite R. reflexivity.
Qed.

Lemma X2_witness :
  url.Path (http.URL (getRequest "/mattermost-ai/bridge/v1/agents" "")) <> "" /\
  http.Transport (httpClient (NewClientFromApp (router 0 "") "user-1"))
    (getRequest "/mattermost-ai/bridge/v1/agents" "") =
  Some ((Some (response 200 ""), None),
        [HostServeInternalPluginRequest "user-1" (getRequest "/bridge/v1/agents" "")
           "mattermost-server" "mattermost-ai"]).
Proof.
  assert (N : url.Path (http.URL (getRequest "/mattermost-ai/bridge/v1/agents" "")) <> "")
    by discriminate.
  split; [exact N|].
  destruct (X2_direct_dispatch_always_answers (router 0 "") "user-1"
              (getRequest "/mattermost-ai/bridge/v1/agents" "") N)
    as (req' & resp & H & _).
  reflexivity.
Defined.

(** ** Discovery through Direct Dispatch *)

Lemma Do_direct_segment (api : AppAPI) (uid : string) (req : http.Request)
    (seg more : string) :
  strings.CountByte seg "/" = 0 ->
  url.Path (http.URL req) = "/" ++ seg ++ "/" ++ more ->
  let resp :=
    httptest.Result
      (ServeInternalPluginRequest api uid httptest.NewRecorder
         (setPath req ("/" ++ more)) "mattermost-server" "mattermost-ai") in
  http.Do (httpClient (NewClientFromApp api uid)) req =
  Some (if http.redirects resp
        then (None, Some (errorString "(redirect followed: not modelled)"))
        else (Some resp, None),
        [HostServeInternalPluginRequest uid (setPath req ("/" ++ more))
           "mattermost-server" "mattermost-ai"]).
Proof.
  intros C P resp. unfold http.Do.
  cbn [NewClientFromApp httpClient http.Transport].
  unfold appAPIRoundTripper_RoundTrip.
  rewrite (removeFirstPath_segment req seg more C P).
  cbn [bind ret emit app appApi userID].
  change (httptest.Result
            (ServeInternalPluginRequest api uid httptest.NewRecorder
               (setPath req ("/" ++ more)) mattermostServerID aiPluginID))
    with resp.
  destruct (http.redirects resp); reflexivity.
Qed.

Lemma NewRequest_discovery (endpoint userID : string) :
  url.stringContainsCTLByte endpoint = false ->
  strings.HasPrefix endpoint "/" = true ->
  strings.HasPrefix endpoint "//" = false ->
  strings.CountByte endpoint "#" = 0 ->
  strings.CountByte endpoint "?" = 0 ->
  strings.CountByte endpoint "%" = 0 ->
  http.NewRequest "GET" endpoint None = (Some (getRequest endpoint ""), None) ->
  plainID userID = true ->
  http.NewRequest "GET"
    (if negb (String.eqb userID "") then endpoint ++ "?user_id=" ++ userID else endpoint)
    None =
  (Some (getRequest endpoint
           (if String.eqb userID "" then "" else "user_id=" ++ userID)), None).
Proof.
  intros H1 H2 H3 H4 H5 H6 H0 Hp.
  destruct (String.eqb userID "") eqn:Q; cbn [negb]; [exact H0|].
  apply NewRequest_get; try assumption.
  apply String.eqb_neq. exact Q.
Qed.

(** X3.  Discovery through Direct Dispatch, for a user ID without control
    bytes and without "#": the router is called, as the user the client was
    built for, with a GET request whose path is "/bridge/v1/agents" (or
    "/bridge/v1/services") and whose query is "user_id=<ID>" (none for the
    empty ID).  Unless the handler recorded a redirect the client follows,
    that is the only call, the recorded body is closed once, and the outcome
    is decided by what the handler recorded alone: a status other than 200
    is an error, a 200 is decoded. *)
Theorem X3_discovery_through_direct_dispatch
    (api : AppAPI) (uid userID : string) :
  plainID userID = true ->
  let query := if String.eqb userID "" then "" else "user_id=" ++ userID in
  let seen path :=
    httptest.Result
      (ServeInternalPluginRequest api uid httptest.NewRecorder
         (getRequest path query) "mattermost-server" "mattermost-ai") in
  (exists r t,
     GetAgents (NewClientFromApp api uid) userID =
     Some (r, HostServeInternalPluginRequest uid (getRequest "/bridge/v1/agents" query)
                "mattermost-server" "mattermost-ai" :: t)) /\
  (exists r t,
     GetServices (NewClientFromApp api uid) userID =
     Some (r, HostServeInternalPluginRequest uid (getRequest "/bridge/v1/services" query)
                "mattermost-server" "mattermost-ai" :: t)) /\
  (http.redirects (seen "/bridge/v1/agents") = false ->
   GetAgents (NewClientFromApp api uid) userID =
     Some (let resp := seen "/bridge/v1/agents" in
           if negb (http.StatusCode resp =? 200)%Z
           then ([], Some (errorString
                             ("request failed with status "
                                ++ fmt.d (http.StatusCode resp) ++ ": "
                                ++ detail (io.data (http.Body resp)))))
           else
             match json.Unmarshal setAgentsResponse (io.data (http.Body resp))
                     zeroAgentsResponse with
             | (_, Some err) => ([], Some (wrapError "failed to unmarshal response: " err))
             | (agentsResp, None) => (Agents agentsResp, None)
             end,
           [HostServeInternalPluginRequest uid (getRequest "/bridge/v1/agents" query)
              "mattermost-server" "mattermost-ai";
            BodyClose (http.Body (seen "/bridge/v1/agents"))])) /\
  (http.redirects (seen "/bridge/v1/services") = false ->
   GetServices (NewClientFromApp api uid) userID =
     Some (let resp := seen "/bridge/v1/services" in
           if negb (http.StatusCode resp =? 200)%Z
           then ([], Some (errorString
                             ("request failed with status "
                                ++ fmt.d (http.StatusCode resp) ++ ": "
                                ++ detail (io.data (http.Body resp)))))
           else
             match json.Unmarshal setServicesResponse (io.data (http.Body resp))
                     zeroServicesResponse with
             | (_, Some err) => ([], Some (wrapError "failed to unmarshal response: " err))
             | (servicesResp, None) => (Services servicesResp, None)
             end,
           [HostServeInternalPluginRequest uid (getRequest "/bridge/v1/services" query)
              "mattermost-server" "mattermost-ai";
            BodyClose (http.Body (seen "/bridge/v1/services"))])).
Proof.
  intros Hp query seen.
  assert (HNA : http.NewRequest "GET" (agentsURL userID) None =
                (Some (getRequest "/mattermost-ai/bridge/v1/agents" query), None))
    by (apply (NewRequest_discovery "/mattermost-ai/bridge/v1/agents");
        try reflexivity; exact Hp).
  assert (HNS : http.NewRequest "GET" (servicesURL userID) None =
                (Some (getRequest "/mattermost-ai/bridge/v1/services" query), None))
    by (apply (NewRequest_discovery "/mattermost-ai/bridge/v1/services");
        try reflexivity; exact Hp).
  assert (HDA : http.Do (httpClient (NewClientFromApp api uid))
                  (getRequest "/mattermost-ai/bridge/v1/agents" query) =
                Some (if http.redirects (seen "/bridge/v1/agents")
                      then (None, Some (errorString "(redirect followed: not modelled)"))
                      else (Some (seen "/bridge/v1/agents"), None),
                      [HostServeInternalPluginRequest uid
                         (getRequest "/bridge/v1/agents" query)
                         "mattermost-server" "mattermost-ai"]))
    by exact (Do_direct_segment api uid
                (getRequest "/mattermost-ai/bridge/v1/agents" query)
                "mattermost-ai" "bridge/v1/agents" eq_refl eq_refl).
  assert (HDS : http.Do (httpClient (NewClientFromApp api uid))
                  (getRequest "/mattermost-ai/bridge/v1/services" query) =
                Some (if http.redirects (seen "/bridge/v1/services")
                      then (None, Some (errorString "(redirect followed: not modelled)"))
                      else (Some (seen "/bridge/v1/services"), None),
                      [HostServeInternalPluginRequest uid
                         (getRequest "/bridge/v1/services" query)
                         "mattermost-server" "mattermost-ai"]))
    by exact (Do_direct_segment api uid
                (getRequest "/mattermost-ai/bridge/v1/services" query)
                "mattermost-ai" "bridge/v1/services" eq_refl eq_refl).
  repeat split.
  - destruct (http.redirects (seen "/bridge/v1/agents")) eqn:R.
    + unfold GetAgents. cbv zeta. rewrite HNA, HDA. do 2 eexists. reflexivity.
    + rewrite (GetAgents_answered _ _ _ _ _ HNA HDA). cbn [app]. eauto.
  - destruct (http.redirects (seen "/bridge/v1/services")) eqn:R.
    + unfold GetServices. cbv zeta. rewrite HNS, HDS. do 2 eexists. reflexivity.
    + rewrite (GetServices_answered _ _ _ _ _ HNS HDS). cbn [app]. eauto.
  - intros R. rewrite R in HDA.
    rewrite (GetAgents_answered _ _ _ _ _ HNA HDA).
    rewrite ReadAll_EOF by reflexivity. rewrite statusError_detail. reflexivity.
  - intros R. rewrite R in HDS.
    rewrite (GetServices_answered _ _ _ _ _ HNS HDS).
    rewrite ReadAll_EOF by reflexivity. rewrite statusError_detail. reflexivity.
Qed.

Lemma X3_witness :
  plainID "u1" = true /\
  GetAgents (NewClientFromApp (router 403 (quoted "{'error':'no'}")) "caller") "u1" =
  Some (([], Some (errorString "request failed with status 403: no")),
        [HostServeInternalPluginRequest "caller" (getRequest "/bridge/v1/agents" "user_id=u1")
           "mattermost-server" "mattermost-ai";
         BodyClose {| io.data := quoted "{'error':'no'}"; io.fin := EOF |}]).
Proof.
  split; [reflexivity|].
  exact (proj1 (proj2 (proj2 (X3_discovery_through_direct_dispatch
                                (router 403 (quoted "{'error':'no'}")) "caller" "u1" eq_refl)))
           eq_refl).
Defined.

(** ** What a completion call puts on the wire *)

Lemma plainName_parts (s : string) :
  plainName s = true ->
  url.stringContainsCTLByte s = false /\
  strings.CountByte s "#" = 0 /\
  strings.CountByte s "?" = 0 /\
  strings.CountByte s "%" = 0.
Proof.
  unfold plainName. intros H.
  repeat (apply andb_true_iff in H; destruct H as [H ?]).
  apply negb_true_iff in H.
  repeat split; try assumption; now apply Nat.eqb_eq.
Qed.

Lemma plainName_app (a b : string) :
  plainName a = true -> plainName b = true -> plainName (a ++ b) = true.
Proof.
  intros Ha Hb.
  destruct (plainName_parts a Ha) as (A1 & A2 & A3 & A4).
  destruct (plainName_parts b Hb) as (B1 & B2 & B3 & B4).
  unfold plainName.
  rewrite CTL_app, !CountByte_app, A1, A2, A3, A4, B1, B2, B3, B4. reflexivity.
Qed.

(** A target in origin form without "#", "?", "%" and control bytes is its
    own path. *)
Lemma Parse_plain (s : string) :
  strings.HasPrefix s "/" = true ->
  strings.HasPrefix s "//" = false ->
  plainName s = true ->
  url.Parse s =
  (Some (url.ofPath s s false ""), None).
Proof.
  intros P1 P2 Hp.
  destruct (plainName_parts s Hp) as (Hc & Hh & Hq & Hpc).
  unfold url.Parse. rewrite (CutByte_absent s "#" Hh).
  unfold url.parse. rewrite Hc, P1, P2, Hq.
  cbn [negb orb andb Nat.eqb]. rewrite andb_false_r.
  rewrite (CutByte_absent s "?" Hq).
  unfold url.unescape.
  replace s with (s ++ "") at 1 by apply app_empty_r.
  rewrite unescapeFrom_prefix by exact Hpc.
  cbn [url.unescapeFrom]. rewrite app_empty_r. reflexivity.
Qed.

Lemma NewRequest_post (name suffix body : string) (kind : string) :
  kind = "agent/" \/ kind = "service/" ->
  plainName name = true ->
  plainName suffix = true ->
  http.NewRequest "POST"
    ("/" ++ aiPluginID ++ "/bridge/v1/completion/" ++ kind ++ name ++ suffix) (Some body) =
  (Some {| http.Method := "POST";
           http.URL :=
             url.ofPath ("/mattermost-ai/bridge/v1/completion/" ++ kind ++ name ++ suffix)
               ("/mattermost-ai/bridge/v1/completion/" ++ kind ++ name ++ suffix) false "";
           http.ReqHeader := [];
           http.ReqBody := Some body |}, None).
Proof.
  intros K Hn Hs. unfold http.NewRequest.
  assert (Hk : plainName ("/mattermost-ai/bridge/v1/completion/" ++ kind) = true)
    by (destruct K; subst; reflexivity).
  rewrite Parse_plain; [reflexivity| | |].
  - destruct K; subst; reflexivity.
  - destruct K; subst; reflexivity.
  - change ("/" ++ aiPluginID ++ "/bridge/v1/completion/" ++ kind ++ name ++ suffix)
      with ("/mattermost-ai/bridge/v1/completion/" ++ (kind ++ name ++ suffix)).
    destruct K; subst kind.
    + apply (plainName_app "/mattermost-ai/bridge/v1/completion/agent/" (name ++ suffix));
        [reflexivity|now apply plainName_app].
    + apply (plainName_app "/mattermost-ai/bridge/v1/completion/service/" (name ++ suffix));
        [reflexivity|now apply plainName_app].
Qed.

Section Wire.

Variable Marshal : CompletionRequest -> string * option error.

Lemma doCompletionRequest_sends (api : PluginAPI) (url body : string)
    (request : CompletionRequest) (req : http.Request) :
  Marshal request = (body, None) ->
  http.NewRequest "POST" url (Some body) = (Some req, None) ->
  exists r t,
    doCompletionRequest Marshal (NewClient api) url request =
    Some (r, HostPluginHTTP (headers false req) :: t).
Proof.
  intros HM HN.
  pose proof (Do_relay api (headers false req)) as HD.
  assert (F : forall r0,
             http.Do (httpClient (NewClient api)) (headers false req) =
               Some ((None, Some r0), [HostPluginHTTP (headers false req)]) ->
             exists r t,
               doCompletionRequest Marshal (NewClient api) url request =
               Some (r, HostPluginHTTP (headers false req) :: t)).
  { intros r0 H. unfold doCompletionRequest. rewrite HM, HN.
    unfold headers in H. cbv zeta in H |- *. rewrite H.
    do 2 eexists. reflexivity. }
  destruct (PluginHTTP api (headers false req)) as [resp|] eqn:P;
    [destruct (http.redirects resp) eqn:R|]; try (eapply F; exact HD).
  assert (RT : roundTrip Marshal (NewClient api) url request false resp
                 [HostPluginHTTP (headers false req)])
    by (exists body, req; repeat split; assumption).
  rewrite (doCompletionRequest_answered Marshal _ _ _ _ _ RT). cbn [app]. eauto.
Qed.

Lemma doStreamingRequest_sends (api : PluginAPI) (url body : string)
    (request : CompletionRequest) (req : http.Request) :
  Marshal request = (body, None) ->
  http.NewRequest "POST" url (Some body) = (Some req, None) ->
  exists r t,
    doStreamingRequest Marshal (NewClient api) url request =
    Some (r, HostPluginHTTP (headers true req) :: t).
Proof.
  intros HM HN.
  pose proof (Do_relay api (headers true req)) as HD.
  assert (F : forall r0,
             http.Do (httpClient (NewClient api)) (headers true req) =
               Some ((None, Some r0), [HostPluginHTTP (headers true req)]) ->
             exists r t,
               doStreamingRequest Marshal (NewClient api) url request =
               Some (r, HostPluginHTTP (headers true req) :: t)).
  { intros r0 H. unfold doStreamingRequest. rewrite HM, HN.
    unfold headers in H. cbv zeta in H |- *. rewrite H.
    do 2 eexists. reflexivity. }
  destruct (PluginHTTP api (headers true req)) as [resp|] eqn:P;
    [destruct (http.redirects resp) eqn:R|]; try (eapply F; exact HD).
  assert (RT : roundTrip Marshal (NewClient api) url request true resp
                 [HostPluginHTTP (headers true req)])
    by (exists body, req; repeat split; assumption).
  destruct (Z.eq_dec (http.StatusCode resp) 200) as [S|S].
  - rewrite (doStreamingRequest_200 Marshal _ _ _ _ _ RT S). eauto.
  - rewrite (doStreamingRequest_rejected Marshal _ _ _ _ _ RT S). cbn [app]. eauto.
Qed.

(** X4.  For an agent or service name without control bytes and without
    "#", "?" and "%", and a request that marshals to [body], each of the four
    completion calls hands the transport exactly one request first: a POST
    whose path is the formatted URL, taken literally
    ("/mattermost-ai/bridge/v1/completion/agent/<name>/nostream" and so on),
    with no query, carrying [body] and the header Content-Type:
    application/json; the two streaming calls use the path without
    "/nostream" and add Accept: text/event-stream. *)
Theorem X4_completion_request_on_the_wire
    (api : PluginAPI) (name body : string) (request : CompletionRequest) :
  plainName name = true ->
  Marshal request = (body, None) ->
  (exists r t,
     AgentCompletion Marshal (NewClient api) name request =
     Some (r, HostPluginHTTP
                (postRequest ("/mattermost-ai/bridge/v1/completion/agent/" ++ name ++ "/nostream")
                   body false) :: t)) /\
  (exists r t,
     ServiceCompletion Marshal (NewClient api) name request =
     Some (r, HostPluginHTTP
                (postRequest ("/mattermost-ai/bridge/v1/completion/service/" ++ name ++ "/nostream")
                   body false) :: t)) /\
  (exists r t,
     AgentCompletionStream Marshal (NewClient api) name request =
     Some (r, HostPluginHTTP
                (postRequest ("/mattermost-ai/bridge/v1/completion/agent/" ++ name)
                   body true) :: t)) /\
  (exists r t,
     ServiceCompletionStream Marshal (NewClient api) name request =
     Some (r, HostPluginHTTP
                (postRequest ("/mattermost-ai/bridge/v1/completion/service/" ++ name)
                   body true) :: t)).
Proof.
  intros Hn HM.
  pose proof (NewRequest_post name "/nostream" body "agent/" (or_introl eq_refl) Hn eq_refl) as A.
  pose proof (NewRequest_post name "/nostream" body "service/" (or_intror eq_refl) Hn eq_refl) as S.
  pose proof (NewRequest_post name "" body "agent/" (or_introl eq_refl) Hn eq_refl) as A'.
  pose proof (NewRequest_post name "" body "service/" (or_intror eq_refl) Hn eq_refl) as S'.
  rewrite app_empty_r in A', S'.
  repeat split.
  - exact (doCompletionRequest_sends api _ body request _ HM A).
  - exact (doCompletionRequest_sends api _ body request _ HM S).
  - exact (doStreamingRequest_sends api _ body request _ HM A').
  - exact (doStreamingRequest_sends api _ body request _ HM S').
Qed.

(** X5.  A completion call that cannot build its request sends nothing.  If
    [json.Marshal] fails, the non-streaming call returns the empty string
    and the streaming call no stream, both with "failed to marshal request:
    ..." wrapping the error; if the URL does not parse, both return "failed
    to create request: ...".  In neither case is the transport reached, and
    a name with a control byte (and no "#" before it) makes the URL
    unparsable. *)
Theorem X5_no_request_nothing_sent
    (c : Client) (url : string) (request : CompletionRequest) :
  (forall body err,
     Marshal request = (body, Some err) ->
     doCompletionRequest Marshal c url request =
       Some (("", Some (wrapError "failed to marshal request: " err)), []) /\
     doStreamingRequest Marshal c url request =
       Some ((None, Some (wrapError "failed to marshal request: " err)), [])) /\
  (forall body err,
     Marshal request = (body, None) ->
     http.NewRequest "POST" url (Some body) = (None, Some err) ->
     doCompletionRequest Marshal c url request =
       Some (("", Some (wrapError "failed to create request: " err)), []) /\
     doStreamingRequest Marshal c url request =
       Some ((None, Some (wrapError "failed to create request: " err)), [])) /\
  (forall body,
     url.stringContainsCTLByte url = true ->
     strings.CountByte url "#" = 0 ->
     http.NewRequest "POST" url (Some body) =
       (None, Some (urlError "parse" url
                      (errorString "net/url: invalid control character in URL")))).
Proof.
  repeat split.
  - unfold doCompletionRequest. rewrite H. reflexivity.
  - unfold doStreamingRequest. rewrite H. reflexivity.
  - unfold doCompletionRequest. rewrite H, H0. reflexivity.
  - unfold doStreamingRequest. rewrite H, H0. reflexivity.
  - intros body Hc Hh. unfold http.NewRequest, url.Parse.
    rewrite (CutByte_absent url "#" Hh). unfold url.parse. rewrite Hc. reflexivity.
Qed.

End Wire.

Lemma X4_witness :
  plainName "bot-1" = true /\
  sampleMarshal sampleRequest = (quoted "{'posts':[{'role':'user','message':'hi'}]}", None) /\
  exists r t,
    AgentCompletionStream sampleMarshal (NewClient deadRelay) "bot-1" sampleRequest =
    Some (r, HostPluginHTTP
               (postRequest "/mattermost-ai/bridge/v1/completion/agent/bot-1"
                  (quoted "{'posts':[{'role':'user','message':'hi'}]}") true) :: t).
Proof.
  split; [reflexivity|]. split; [reflexivity|].
  exact (proj1 (proj2 (proj2 (X4_completion_request_on_the_wire sampleMarshal deadRelay
                                "bot-1" _ sampleRequest eq_refl eq_refl)))).
Defined.

Lemma X5_witness :
  failingMarshal sampleRequest = ("", Some (errorString "json: unsupported value")) /\
  doStreamingRequest failingMarshal unreachableClient
    "/mattermost-ai/bridge/v1/completion/agent/bot" sampleRequest =
  Some ((None, Some (wrapError "failed to marshal request: "
                       (errorString "json: unsupported value"))), []) /\
  AgentCompletion sampleMarshal unreachableClient (String LF "bot") sampleRequest =
  Some (("", Some (wrapError "failed to create request: "
                     (urlError "parse"
                        ("/mattermost-ai/bridge/v1/completion/agent/" ++ String LF "bot/nostream")
                        (errorString "net/url: invalid control character in URL")))), []).
Proof.
  split; [reflexivity|]. split.
  - exact (proj2 (proj1 (X5_no_request_nothing_sent failingMarshal unreachableClient
                           "/mattermost-ai/bridge/v1/completion/agent/bot" sampleRequest)
                    "" _ eq_refl)).
  - exact (proj1 (proj1 (proj2 (X5_no_request_nothing_sent sampleMarshal unreachableClient
                                  ("/mattermost-ai/bridge/v1/completion/agent/"
                                     ++ String LF "bot/nostream") sampleRequest))
                    _ _ eq_refl
                    (proj2 (proj2 (X5_no_request_nothing_sent sampleMarshal unreachableClient
                                     ("/mattermost-ai/bridge/v1/completion/agent/"
                                        ++ String LF "bot/nostream") sampleRequest))
                       _ eq_refl eq_refl))).
Defined.

(** ** The outcomes of the non-streaming calls *)

Lemma ReadAll_ok (body : io.ReadCloser) (respBody : string) :
  io.ReadAll body = (respBody, None) ->
  io.fin body = EOF /\ respBody = io.data body.
Proof.
  unfold io.ReadAll. destruct (io.fin body); intros H; inversion H; auto.
Qed.

Lemma statusError_some (resp : http.Response) (respBody : string) :
  statusError resp respBody <> None.
Proof. rewrite statusError_rejection. discriminate. Qed.

Section Outcomes.

Variable Marshal : CompletionRequest -> string * option error.

(** X6.  A call that got a response closes its body exactly once, after
    everything else, on every path out of the function: success, a failed
    read, a status other than 200, a body that does not decode.  This holds
    for [doCompletionRequest], [GetAgents] and [GetServices]; when the round
    trip gave no response, nothing is closed. *)
Theorem X6_body_closed_once_on_every_path (c : Client) :
  (forall url request resp t,
     roundTrip Marshal c url request false resp t ->
     exists r,
       doCompletionRequest Marshal c url request =
       Some (r, t ++ [BodyClose (http.Body resp)])%list) /\
  (forall userID req resp t,
     http.NewRequest "GET" (agentsURL userID) None = (Some req, None) ->
     http.Do (httpClient c) req = Some ((Some resp, None), t) ->
     exists r, GetAgents c userID = Some (r, t ++ [BodyClose (http.Body resp)])%list) /\
  (forall userID req resp t,
     http.NewRequest "GET" (servicesURL userID) None = (Some req, None) ->
     http.Do (httpClient c) req = Some ((Some resp, None), t) ->
     exists r, GetServices c userID = Some (r, t ++ [BodyClose (http.Body resp)])%list) /\
  (forall userID req err t,
     http.NewRequest "GET" (agentsURL userID) None = (Some req, None) ->
     http.Do (httpClient c) req = Some ((None, Some err), t) ->
     GetAgents c userID =
     Some (([], Some (wrapError "failed to execute request: " err)), t)) /\
  (forall userID req err t,
     http.NewRequest "GET" (servicesURL userID) None = (Some req, None) ->
     http.Do (httpClient c) req = Some ((None, Some err), t) ->
     GetServices c userID =
     Some (([], Some (wrapError "failed to execute request: " err)), t)).
Proof.
  repeat split.
  - intros url request resp t RT.
    rewrite (doCompletionRequest_answered Marshal _ _ _ _ _ RT). eauto.
  - intros userID req resp t HN HD.
    rewrite (GetAgents_answered _ _ _ _ _ HN HD). eauto.
  - intros userID req resp t HN HD.
    rewrite (GetServices_answered _ _ _ _ _ HN HD). eauto.
  - intros userID req err t HN HD.
    unfold GetAgents. cbv zeta. rewrite HN, HD. cbn. now rewrite app_nil_r.
  - intros userID req err t HN HD.
    unfold GetServices. cbv zeta. rewrite HN, HD. cbn. now rewrite app_nil_r.
Qed.

(** X7.  Success means status 200, nothing else.  If a non-streaming call
    that got a response returns no error, the response had status 200, its
    body was read to the end without a fault, and the string returned is the
    [completion] decoded from that body.  If a streaming call that got a
    response returns a stream, the status was 200, the error is nil and the
    call itself closed nothing.  A 201 or a 204 is an error like a 404. *)
Theorem X7_success_only_on_200
    (c : Client) (url : string) (request : CompletionRequest)
    (resp : http.Response) (t : list Effect) :
  (roundTrip Marshal c url request false resp t ->
   forall s eff,
     doCompletionRequest Marshal c url request = Some ((s, None), eff) ->
     http.StatusCode resp = 200%Z /\
     io.fin (http.Body resp) = EOF /\
     exists completionResp,
       json.Unmarshal setCompletionResponse (io.data (http.Body resp))
         {| Completion := "" |} = (completionResp, None) /\
       s = Completion completionResp) /\
  (roundTrip Marshal c url request true resp t ->
   forall h e eff,
     doStreamingRequest Marshal c url request = Some ((Some h, e), eff) ->
     http.StatusCode resp = 200%Z /\
     e = None /\
     h = {| Stream := goroutine (http.Body resp) |} /\
     eff = t).
Proof.
  split.
  - intros RT s eff.
    rewrite (doCompletionRequest_answered Marshal _ _ _ _ _ RT).
    destruct (io.ReadAll (http.Body resp)) as [respBody [err|]] eqn:R;
      [intros H; inversion H|].
    destruct (ReadAll_ok _ _ R) as [F ->].
    unfold http.StatusOK.
    destruct (Z.eqb_spec (http.StatusCode resp) 200) as [S|S]; cbn [negb].
    + destruct (json.Unmarshal setCompletionResponse (io.data (http.Body resp))
                  {| Completion := "" |}) as [cr [err|]] eqn:U;
        intros H; inversion H; subst.
      repeat split; try assumption. exists cr. split; reflexivity.
    + intros H. inversion H.
      exfalso. now apply (statusError_some resp (io.data (http.Body resp))).
  - intros RT h e eff.
    destruct (Z.eq_dec (http.StatusCode resp) 200) as [S|S].
    + rewrite (doStreamingRequest_200 Marshal _ _ _ _ _ RT S).
      intros H. inversion H; subst. repeat split; assumption.
    + rewrite (doStreamingRequest_rejected Marshal _ _ _ _ _ RT S).
      intros H. inversion H.
Qed.

End Outcomes.

Lemma X6_witness :
  exists t,
    roundTrip sampleMarshal (NewClient (relay (response 500 "boom")))
      "/mattermost-ai/bridge/v1/completion/agent/bot/nostream" sampleRequest false
      (response 500 "boom") t /\
    exists r,
      doCompletionRequest sampleMarshal (NewClient (relay (response 500 "boom")))
        "/mattermost-ai/bridge/v1/completion/agent/bot/nostream" sampleRequest =
      Some (r, t ++ [BodyClose (http.Body (response 500 "boom"))])%list.
Proof.
  assert (RT : exists t,
             roundTrip sampleMarshal (NewClient (relay (response 500 "boom")))
               "/mattermost-ai/bridge/v1/completion/agent/bot/nostream" sampleRequest false
               (response 500 "boom") t).
  { eexists. unfold roundTrip. eexists. eexists. repeat split; reflexivity. }
  destruct RT as [t RT]. exists t. split; [exact RT|].
  exact (proj1 (X6_body_closed_once_on_every_path sampleMarshal _) _ _ _ _ RT).
Defined.

Lemma X7_witness :
  exists t,
    roundTrip sampleMarshal
      (NewClient (relay (response 200 (quoted "{'completion':'hi'}"))))
      "/mattermost-ai/bridge/v1/completion/agent/bot/nostream" sampleRequest false
      (response 200 (quoted "{'completion':'hi'}")) t /\
    doCompletionRequest sampleMarshal
      (NewClient (relay (response 200 (quoted "{'completion':'hi'}"))))
      "/mattermost-ai/bridge/v1/completion/agent/bot/nostream" sampleRequest =
    Some (("hi", None),
          t ++ [BodyClose (http.Body (response 200 (quoted "{'completion':'hi'}")))])%list /\
    http.StatusCode (response 200 (quoted "{'completion':'hi'}")) = 200%Z.
Proof.
  assert (RT : exists t,
             roundTrip sampleMarshal
               (NewClient (relay (response 200 (quoted "{'completion':'hi'}"))))
               "/mattermost-ai/bridge/v1/completion/agent/bot/nostream" sampleRequest false
               (response 200 (quoted "{'completion':'hi'}")) t).
  { eexists. unfold roundTrip. eexists. eexists. repeat split; reflexivity. }
  destruct RT as [t RT]. exists t. split; [exact RT|].
  assert (E : doCompletionRequest sampleMarshal
                (NewClient (relay (response 200 (quoted "{'completion':'hi'}"))))
                "/mattermost-ai/bridge/v1/completion/agent/bot/nostream" sampleRequest =
              Some (("hi", None),
                    t ++ [BodyClose (http.Body (response 200 (quoted "{'completion':'hi'}")))])%list).
  { rewrite (doCompletionRequest_answered sampleMarshal _ _ _ _ _ RT). reflexivity. }
  split; [exact E|].
  exact (proj1 (proj1 (X7_success_only_on_200 sampleMarshal _ _ sampleRequest
                         (response 200 (quoted "{'completion':'hi'}")) t) RT _ _ E)).
Defined.

(** ** Results and errors *)

Section Exclusive.

Variable Marshal : CompletionRequest -> string * option error.

Ltac branch :=
  match goal with
  | |- context [match ?x with _ => _ end] =>
      lazymatch x with
      | context [match _ with _ => _ end] => fail
      | _ => destruct x eqn:?
      end
  end.

(** X8.  Result and error exclude each other, on every path.  Whenever a
    non-streaming call returns an error its string is empty, and whenever
    [GetAgents] or [GetServices] returns an error its list is nil.  A
    streaming call returns either a stream and no error, or no stream and
    an error: never both, never neither. *)
Theorem X8_result_and_error_exclude_each_other (c : Client) :
  (forall url request s err eff,
     doCompletionRequest Marshal c url request = Some ((s, Some err), eff) -> s = "") /\
  (forall url request r e eff,
     doStreamingRequest Marshal c url request = Some ((r, e), eff) ->
     (r = None /\ e <> None) \/ (r <> None /\ e = None)) /\
  (forall userID l err eff,
     GetAgents c userID = Some ((l, Some err), eff) -> l = []) /\
  (forall userID l err eff,
     GetServices c userID = Some ((l, Some err), eff) -> l = []).
Proof.
  repeat split.
  - intros url request s err eff.
    unfold doCompletionRequest, defer, Close, emit, Errorf_w, ret, bind, panic.
    repeat branch; intros H; inversion H; subst; try reflexivity; congruence.
  - intros url request r e eff.
    unfold doStreamingRequest, Close, emit, Errorf_w, ret, bind, panic.
    pose proof statusError_some as SE.
    repeat branch; intros H; inversion H; subst;
      try (left; split; [reflexivity|discriminate]);
      try (right; split; [discriminate|reflexivity]);
      try congruence.
    all: left; split; try reflexivity; try apply SE; congruence.
  - intros userID l err eff.
    unfold GetAgents, defer, Close, emit, Errorf_w, ret, bind, panic.
    repeat branch; intros H; inversion H; subst; try reflexivity; congruence.
  - intros userID l err eff.
    unfold GetServices, defer, Close, emit, Errorf_w, ret, bind, panic.
    repeat branch; intros H; inversion H; subst; try reflexivity; congruence.
Qed.

End Exclusive.

(** ** A 200 response whose body is not the expected JSON *)

Lemma intoFields_no_key (members : list (string * json.value)) (r : CompletionResponse) :
  forallb (fun kv => negb (json.fieldMatches "completion" (fst kv))) members = true ->
  json.intoFields setCompletionResponse members r = (r, None).
Proof.
  induction members as [|[key v] more IH]; cbn [forallb json.intoFields fst]; intros H.
  - reflexivity.
  - apply andb_true_iff in H. destruct H as [K H].
    apply negb_true_iff in K.
    unfold setCompletionResponse at 1. rewrite K, (IH H). reflexivity.
Qed.

Section Decoding.

Variable Marshal : CompletionRequest -> string * option error.

(** X9.  What [doCompletionRequest] makes of a 200 response by the shape of
    its body.  A body that is not JSON, the empty body included, is the
    error "failed to unmarshal response: ..." (a syntax error); so is JSON
    that is neither an object nor null (a type error).  But a JSON object
    with no [completion] key, matched without regard to case, and the
    literal null are accepted: the call returns the empty string and no
    error.  The body is closed in every case. *)
Theorem X9_ok_status_body_shapes
    (c : Client) (url : string) (request : CompletionRequest)
    (resp : http.Response) (t : list Effect) :
  roundTrip Marshal c url request false resp t ->
  http.StatusCode resp = 200%Z ->
  io.fin (http.Body resp) = EOF ->
  (json.parse (io.data (http.Body resp)) = None ->
   doCompletionRequest Marshal c url request =
   Some (("", Some (wrapError "failed to unmarshal response: " SyntaxError)),
         t ++ [BodyClose (http.Body resp)])%list) /\
  (forall v,
     json.parse (io.data (http.Body resp)) = Some v ->
     v <> json.Null -> (forall members, v <> json.Object members) ->
     doCompletionRequest Marshal c url request =
     Some (("", Some (wrapError "failed to unmarshal response: " UnmarshalTypeError)),
           t ++ [BodyClose (http.Body resp)])%list) /\
  (forall members,
     json.parse (io.data (http.Body resp)) = Some (json.Object members) ->
     forallb (fun kv => negb (json.fieldMatches "completion" (fst kv))) members = true ->
     doCompletionRequest Marshal c url request =
     Some (("", None), t ++ [BodyClose (http.Body resp)])%list) /\
  (json.parse (io.data (http.Body resp)) = Some json.Null ->
   doCompletionRequest Marshal c url request =
   Some (("", None), t ++ [BodyClose (http.Body resp)])%list).
Proof.
  intros RT S F.
  rewrite (doCompletionRequest_answered Marshal _ _ _ _ _ RT).
  rewrite (ReadAll_EOF _ F), S. cbn [negb Z.eqb http.StatusOK Pos.eqb].
  unfold json.Unmarshal.
  repeat split.
  - intros ->. reflexivity.
  - intros v -> N O.
    destruct v; try reflexivity; [congruence|].
    exfalso. now apply (O members).
  - intros members -> K. cbn [json.intoStruct].
    rewrite (intoFields_no_key _ _ K). reflexivity.
  - intros ->. reflexivity.
Qed.

End Decoding.

Lemma X9_witness :
  exists t,
    roundTrip sampleMarshal (NewClient (relay (response 200 (quoted "{'text':'hi'}"))))
      "/mattermost-ai/bridge/v1/completion/agent/bot/nostream" sampleRequest false
      (response 200 (quoted "{'text':'hi'}")) t /\
    http.StatusCode (response 200 (quoted "{'text':'hi'}")) = 200%Z /\
    io.fin (http.Body (response 200 (quoted "{'text':'hi'}"))) = EOF /\
    json.parse (quoted "{'text':'hi'}") = Some (json.Object [("text", json.Str "hi")]) /\
    doCompletionRequest sampleMarshal
      (NewClient (relay (response 200 (quoted "{'text':'hi'}"))))
      "/mattermost-ai/bridge/v1/completion/agent/bot/nostream" sampleRequest =
    Some (("", None), t ++ [BodyClose (http.Body (response 200 (quoted "{'text':'hi'}")))])%list.
Proof.
  assert (RT : exists t,
             roundTrip sampleMarshal
               (NewClient (relay (response 200 (quoted "{'text':'hi'}"))))
               "/mattermost-ai/bridge/v1/completion/agent/bot/nostream" sampleRequest false
               (response 200 (quoted "{'text':'hi'}")) t).
  { eexists. unfold roundTrip. eexists. eexists. repeat split; reflexivity. }
  destruct RT as [t RT]. exists t.
  split; [exact RT|]. split; [reflexivity|]. split; [reflexivity|].
  split; [reflexivity|].
  exact (proj1 (proj2 (proj2 (X9_ok_status_body_shapes sampleMarshal _ _ sampleRequest
                                (response 200 (quoted "{'text':'hi'}")) t RT eq_refl eq_refl)))
           [("text", json.Str "hi")] eq_refl eq_refl).
Defined.

(** ** The outcomes of the discovery calls *)

(** X10.  [GetAgents] and [GetServices] succeed on status 200 only.  When
    the round trip fails they return "failed to execute request: ..."; when
    the body cannot be read to its end, "failed to read response body: ...";
    when the status is not 200 (a 204 or a 302 as much as a 404), "request
    failed with status N: " followed by the server's [error] string or the
    raw body; and when they return no error, the status was 200 and the body
    was read to its end.  The list is nil whenever there is an error. *)
Theorem X10_discovery_outcomes (c : Client) (userID : string) :
  (forall req,
     http.NewRequest "GET" (agentsURL userID) None = (Some req, None) ->
     (forall err t,
        http.Do (httpClient c) req = Some ((None, Some err), t) ->
        GetAgents c userID =
        Some (([], Some (wrapError "failed to execute request: " err)), t)) /\
     (forall resp t,
        http.Do (httpClient c) req = Some ((Some resp, None), t) ->
        io.fin (http.Body resp) <> EOF ->
        GetAgents c userID =
        Some (([], Some (wrapError "failed to read response body: "
                           (io.fin (http.Body resp)))),
              t ++ [BodyClose (http.Body resp)])%list) /\
     (forall resp t,
        http.Do (httpClient c) req = Some ((Some resp, None), t) ->
        io.fin (http.Body resp) = EOF ->
        http.StatusCode resp <> 200%Z ->
        GetAgents c userID =
        Some (([], Some (errorString (rejection resp (io.data (http.Body resp))))),
              t ++ [BodyClose (http.Body resp)])%list) /\
     (forall resp t l eff,
        http.Do (httpClient c) req = Some ((Some resp, None), t) ->
        GetAgents c userID = Some ((l, None), eff) ->
        http.StatusCode resp = 200%Z /\ io.fin (http.Body resp) = EOF)) /\
  (forall req,
     http.NewRequest "GET" (servicesURL userID) None = (Some req, None) ->
     (forall err t,
        http.Do (httpClient c) req = Some ((None, Some err), t) ->
        GetServices c userID =
        Some (([], Some (wrapError "failed to execute request: " err)), t)) /\
     (forall resp t,
        http.Do (httpClient c) req = Some ((Some resp, None), t) ->
        io.fin (http.Body resp) <> EOF ->
        GetServices c userID =
        Some (([], Some (wrapError "failed to read response body: "
                           (io.fin (http.Body resp)))),
              t ++ [BodyClose (http.Body resp)])%list) /\
     (forall resp t,
        http.Do (httpClient c) req = Some ((Some resp, None), t) ->
        io.fin (http.Body resp) = EOF ->
        http.StatusCode resp <> 200%Z ->
        GetServices c userID =
        Some (([], Some (errorString (rejection resp (io.data (http.Body resp))))),
              t ++ [BodyClose (http.Body resp)])%list) /\
     (forall resp t l eff,
        http.Do (httpClient c) req = Some ((Some resp, None), t) ->
        GetServices c userID = Some ((l, None), eff) ->
        http.StatusCode resp = 200%Z /\ io.fin (http.Body resp) = EOF)).
Proof.
  split.
  - intros req HN. repeat split.
    + intros err t HD.
      unfold GetAgents. cbv zeta. rewrite HN, HD. cbn. now rewrite app_nil_r.
    + intros resp t HD F.
      rewrite (GetAgents_answered _ _ _ _ _ HN HD).
      unfold io.ReadAll. destruct (io.fin (http.Body resp)); try reflexivity. congruence.
    + intros resp t HD F S.
      rewrite (GetAgents_answered _ _ _ _ _ HN HD).
      rewrite (ReadAll_EOF _ F), statusError_rejection.
      replace (http.StatusCode resp =? http.StatusOK)%Z with false
        by (symmetry; apply Z.eqb_neq; exact S).
      reflexivity.
    + revert H0. rewrite (GetAgents_answered _ _ _ _ _ HN H).
      destruct (io.ReadAll (http.Body resp)) as [respBody [err|]] eqn:R;
        [intros E; inversion E|].
      unfold http.StatusOK.
      destruct (Z.eqb_spec (http.StatusCode resp) 200) as [S|S]; [intros _; exact S|].
      cbn [negb]. intros E. inversion E.
      exfalso. now apply (statusError_some resp respBody).
    + revert H0. rewrite (GetAgents_answered _ _ _ _ _ HN H).
      destruct (io.ReadAll (http.Body resp)) as [respBody [err|]] eqn:R;
        [intros E; inversion E|].
      intros _. exact (proj1 (ReadAll_ok _ _ R)).
  - intros req HN. repeat split.
    + intros err t HD.
      unfold GetServices. cbv zeta. rewrite HN, HD. cbn. now rewrite app_nil_r.
    + intros resp t HD F.
      rewrite (GetServices_answered _ _ _ _ _ HN HD).
      unfold io.ReadAll. destruct (io.fin (http.Body resp)); try reflexivity. congruence.
    + intros resp t HD F S.
      rewrite (GetServices_answered _ _ _ _ _ HN HD).
      rewrite (ReadAll_EOF _ F), statusError_rejection.
      replace (http.StatusCode resp =? http.StatusOK)%Z with false
        by (symmetry; apply Z.eqb_neq; exact S).
      reflexivity.
    + revert H0. rewrite (GetServices_answered _ _ _ _ _ HN H).
      destruct (io.ReadAll (http.Body resp)) as [respBody [err|]] eqn:R;
        [intros E; inversion E|].
      unfold http.StatusOK.
      destruct (Z.eqb_spec (http.StatusCode resp) 200) as [S|S]; [intros _; exact S|].
      cbn [negb]. intros E. inversion E.
      exfalso. now apply (statusError_some resp respBody).
    + revert H0. rewrite (GetServices_answered _ _ _ _ _ HN H).
      destruct (io.ReadAll (http.Body resp)) as [respBody [err|]] eqn:R;
        [intros E; inversion E|].
      intros _. exact (proj1 (ReadAll_ok _ _ R)).
Qed.

Lemma X10_witness :
  http.NewRequest "GET" (agentsURL "u1") None =
    (Some (getRequest "/mattermost-ai/bridge/v1/agents" "user_id=u1"), None) /\
  GetAgents (NewClient (relay (response 204 ""))) "u1" =
  Some (([], Some (errorString "request failed with status 204: ")),
        [HostPluginHTTP (getRequest "/mattermost-ai/bridge/v1/agents" "user_id=u1");
         BodyClose (http.Body (response 204 ""))]).
Proof.
  split; [reflexivity|].
  exact (proj1 (proj2 (proj2 (proj1 (X10_discovery_outcomes
                                       (NewClient (relay (response 204 ""))) "u1")
                                _ eq_refl)))
           (response 204 "")
           [HostPluginHTTP (getRequest "/mattermost-ai/bridge/v1/agents" "user_id=u1")]
           eq_refl eq_refl
           (fun H : http.StatusCode (response 204 "") = 200%Z =>
              proj1 (Z.eqb_neq 204 200) eq_refl H)).
Defined.

(** ** Decoding the discovery lists *)

Lemma intoElems_all {T : Type} (set : string -> json.value -> T -> T * option error)
    (zero : T) (elems : list json.value) :
  allDecode (fun v => json.intoStruct set v zero) elems = true ->
  json.intoElems set zero elems [] =
  (map (fun v => fst (json.intoStruct set v zero)) elems, [], None).
Proof.
  unfold allDecode.
  induction elems as [|v more IH]; cbn [forallb json.intoElems map]; intros H.
  - reflexivity.
  - apply andb_true_iff in H. destruct H as [Hv H].
    rewrite (IH H).
    destruct (json.intoStruct set v zero) as [x [e|]]; [discriminate|reflexivity].
Qed.

Lemma intoElems_some {T : Type} (set : string -> json.value -> T -> T * option error)
    (zero : T) (elems : list json.value) :
  allDecode (fun v => json.intoStruct set v zero) elems = false ->
  exists l spare err, json.intoElems set zero elems [] = (l, spare, Some err).
Proof.
  unfold allDecode.
  induction elems as [|v more IH]; cbn [forallb json.intoElems]; intros H.
  - discriminate.
  - destruct (json.intoElems set zero more []) as [[ts spare] e2].
    destruct (json.intoStruct set v zero) as [x [e|]]; cbn [snd] in H.
    + exists (x :: ts), spare, e. reflexivity.
    + cbn [andb] in H. destruct (IH H) as (l & sp & err & E).
      inversion E; subst. exists (x :: l), sp, err. reflexivity.
Qed.

(** A JSON array stored into a nil slice. *)
Lemma intoSlice_nil {T : Type} (set : string -> json.value -> T -> T * option error)
    (zero : T) (elems : list json.value) :
  json.intoSlice set zero (json.Array elems) [] [] =
  match elems with
  | [] => ([], [], None)
  | _ => json.intoElems set zero elems []
  end.
Proof. destruct elems; reflexivity. Qed.

(** X11.  [GetAgents] on a 200 response whose body is a JSON object with
    the one key "agents" (in any case) holding an array returns one entry
    for every element of the array, in the order of the array, each decoded
    on its own into an empty [BridgeAgentInfo]; if a single element does not
    decode (a number where an object is expected, say) the whole call fails
    with "failed to unmarshal response: ..." and returns no list at all.
    [GetServices] does the same with the key "services". *)
Theorem X11_discovery_decodes_every_element (c : Client) (userID : string) :
  (forall req resp t key elems,
     http.NewRequest "GET" (agentsURL userID) None = (Some req, None) ->
     http.Do (httpClient c) req = Some ((Some resp, None), t) ->
     http.StatusCode resp = 200%Z ->
     io.fin (http.Body resp) = EOF ->
     json.parse (io.data (http.Body resp)) = Some (json.Object [(key, json.Array elems)]) ->
     json.fieldMatches "agents" key = true ->
     (allDecode decodeAgent elems = true ->
      GetAgents c userID =
      Some ((map (fun v => fst (decodeAgent v)) elems, None),
            t ++ [BodyClose (http.Body resp)])%list) /\
     (allDecode decodeAgent elems = false ->
      exists err,
        GetAgents c userID =
        Some (([], Some (wrapError "failed to unmarshal response: " err)),
              t ++ [BodyClose (http.Body resp)])%list)) /\
  (forall req resp t key elems,
     http.NewRequest "GET" (servicesURL userID) None = (Some req, None) ->
     http.Do (httpClient c) req = Some ((Some resp, None), t) ->
     http.StatusCode resp = 200%Z ->
     io.fin (http.Body resp) = EOF ->
     json.parse (io.data (http.Body resp)) = Some (json.Object [(key, json.Array elems)]) ->
     json.fieldMatches "services" key = true ->
     (allDecode decodeService elems = true ->
      GetServices c userID =
      Some ((map (fun v => fst (decodeService v)) elems, None),
            t ++ [BodyClose (http.Body resp)])%list) /\
     (allDecode decodeService elems = false ->
      exists err,
        GetServices c userID =
        Some (([], Some (wrapError "failed to unmarshal response: " err)),
              t ++ [BodyClose (http.Body resp)])%list)).
Proof.
  split.
  - intros req resp t key elems HN HD S F P K.
    rewrite (GetAgents_answered _ _ _ _ _ HN HD).
    rewrite (ReadAll_EOF _ F), S. cbn [negb Z.eqb http.StatusOK Pos.eqb].
    unfold json.Unmarshal. rewrite P.
    cbn [json.intoStruct json.intoFields]. unfold setAgentsResponse. rewrite K.
    cbn [Agents AgentsSpare zeroAgentsResponse]. rewrite intoSlice_nil. split.
    + intros A. unfold decodeAgent in A.
      destruct elems as [|v more]; [reflexivity|].
      rewrite (intoElems_all _ _ _ A). reflexivity.
    + intros A. unfold decodeAgent in A.
      destruct elems as [|v more]; [discriminate|].
      destruct (intoElems_some _ _ _ A) as (l & sp & err & E). rewrite E.
      exists err. reflexivity.
  - intros req resp t key elems HN HD S F P K.
    rewrite (GetServices_answered _ _ _ _ _ HN HD).
    rewrite (ReadAll_EOF _ F), S. cbn [negb Z.eqb http.StatusOK Pos.eqb].
    unfold json.Unmarshal. rewrite P.
    cbn [json.intoStruct json.intoFields]. unfold setServicesResponse. rewrite K.
    cbn [Services ServicesSpare zeroServicesResponse]. rewrite intoSlice_nil. split.
    + intros A. unfold decodeService in A.
      destruct elems as [|v more]; [reflexivity|].
      rewrite (intoElems_all _ _ _ A). reflexivity.
    + intros A. unfold decodeService in A.
      destruct elems as [|v more]; [discriminate|].
      destruct (intoElems_some _ _ _ A) as (l & sp & err & E). rewrite E.
      exists err. reflexivity.
Qed.

Lemma X11_witness :
  json.parse (quoted "{'Agents':[{'id':'a1','displayName':'One'},{'id':'a2','username':'two'}]}")
  = Some (json.Object
            [("Agents",
              json.Array
                [json.Object [("id", json.Str "a1"); ("displayName", json.Str "One")];
                 json.Object [("id", json.Str "a2"); ("username", json.Str "two")]])]) /\
  GetAgents
    (NewClient (relay (response 200
       (quoted "{'Agents':[{'id':'a1','displayName':'One'},{'id':'a2','username':'two'}]}"))))
    "" =
  Some (([{| ID := "a1"; DisplayName := "One"; Username := ""; ServiceID := "";
             ServiceType := "" |};
          {| ID := "a2"; DisplayName := ""; Username := "two"; ServiceID := "";
             ServiceType := "" |}], None),
        [HostPluginHTTP (getRequest "/mattermost-ai/bridge/v1/agents" "");
         BodyClose (http.Body (response 200
           (quoted "{'Agents':[{'id':'a1','displayName':'One'},{'id':'a2','username':'two'}]}")))]).
Proof.
  split; [reflexivity|].
  exact (proj1 (proj1 (X11_discovery_decodes_every_element
                         (NewClient (relay (response 200
                            (quoted "{'Agents':[{'id':'a1','displayName':'One'},{'id':'a2','username':'two'}]}"))))
                         "")
                  _ _ [HostPluginHTTP (getRequest "/mattermost-ai/bridge/v1/agents" "")]
                  "Agents" _ eq_refl eq_refl eq_refl eq_refl eq_refl eq_refl)
           eq_refl).
Defined.

(** ** The order of the events *)

Lemma onLine_Publish (line : string) (event : TextStreamEvent) :
  onLine line = Publish event -> isTerminal event = false.
Proof.
  unfold onLine.
  destruct (negb (strings.HasPrefix line "data: ")); [discriminate|].
  destruct (String.eqb (strings.TrimPrefix line "data: ") ""); [discriminate|].
  destruct (llm.Unmarshal (strings.TrimPrefix line "data: ")) as [ev [err|]];
    [discriminate|].
  destruct (isTerminal ev) eqn:T; intros H; inversion H; subst. exact T.
Qed.

Lemma decodeLines_terminal_last (lines : list string) (e : option error)
    (pre post : list TextStreamEvent) (ev : TextStreamEvent) :
  decodeLines lines e = (pre ++ ev :: post)%list ->
  isTerminal ev = true -> post = [].
Proof.
  revert pre.
  induction lines as [|line more IH]; intros pre H T; cbn [decodeLines] in H.
  - destruct e as [err|].
    + destruct pre as [|x pre]; [inversion H; reflexivity|].
      inversion H. destruct pre; discriminate.
    + destruct pre; discriminate.
  - destruct (onLine line) as [|event|event] eqn:L.
    + exact (IH pre H T).
    + destruct pre as [|x pre].
      * inversion H; subst. apply onLine_Publish in L. congruence.
      * inversion H; subst. eapply IH; eauto.
    + destruct pre as [|x pre]; [inversion H; reflexivity|].
      inversion H. destruct pre; discriminate.
Qed.

(** X12.  An End or an Error event is the last thing the reader sends.  In
    the events of any body, whatever follows an event of type End or Error
    is nothing: the consumer meets at most one terminal event, and after it
    only the close of the channel.  This covers the events decoded from
    frames and the two the reader makes up itself (malformed frame, read
    fault). *)
Theorem X12_terminal_event_is_last (body : io.ReadCloser) :
  exists events,
    goroutine body = Some (program body events) /\
    forall pre ev post,
      events = (pre ++ ev :: post)%list -> isTerminal ev = true -> post = [].
Proof.
  destruct (goroutine_total body) as (lines & e & _ & G).
  exists (decodeLines lines e). split; [exact G|].
  intros pre ev post H T. exact (decodeLines_terminal_last _ _ _ _ _ H T).
Qed.

(** ** Bodies made of lines *)

Lemma append_assoc_s (a b c : string) : (a ++ b) ++ c = a ++ (b ++ c).
Proof.
  induction a as [|x a IH]; cbn [append]; [reflexivity|now rewrite IH].
Qed.

Lemma length_append_s (a b : string) :
  String.length (a ++ b) = String.length a + String.length b.
Proof.
  induction a as [|x a IH]; cbn [append String.length]; [reflexivity|now rewrite IH].
Qed.

Lemma scanAll_step (fuel : nat) (s : bufio.Scanner) :
  scanAll (S fuel) s =
  let '(ok, s') := bufio.Scan s in
  if ok then
    match scanAll fuel s' with
    | Some (lines, e) => Some (bufio.Text s' :: lines, e)
    | None => None
    end
  else Some ([], bufio.Err s').
Proof. reflexivity. Qed.

Lemma Err_fault (rest tok : string) (fin : error) :
  bufio.Err {| bufio.rest := rest; bufio.rfin := fin; bufio.tok := tok;
               bufio.err := Some fin |} = fault fin.
Proof. destruct fin; reflexivity. Qed.

Lemma scanAll_empty (fuel : nat) (s : bufio.Scanner) :
  bufio.rest s = "" ->
  scanAll (S fuel) s = Some ([], fault (bufio.rfin s)).
Proof.
  intros R. rewrite scanAll_step. unfold bufio.Scan. rewrite R.
  cbn [strings.CutByte]. cbv iota beta.
  change (negb (bufio.fits "")) with false. cbv iota.
  now rewrite Err_fault.
Qed.

Lemma scanAll_tail (fuel : nat) (s : bufio.Scanner) :
  strings.CountByte (bufio.rest s) LF = 0 ->
  bufio.fits (bufio.rest s) = true ->
  scanAll (S (S fuel)) s = Some (lastToken (bufio.rest s), fault (bufio.rfin s)).
Proof.
  intros C F.
  destruct (bufio.rest s) as [|c r] eqn:R.
  - now apply scanAll_empty.
  - rewrite scanAll_step. unfold bufio.Scan.
    rewrite R, (CutByte_absent _ _ C), F. cbn [negb]. cbv iota beta.
    rewrite scanAll_empty by reflexivity. reflexivity.
Qed.

Lemma lineOK_parts (line : string) :
  lineOK line = true -> strings.CountByte line LF = 0 /\ bufio.fits line = true.
Proof.
  unfold lineOK. intros H. apply andb_true_iff in H. destruct H as [C F].
  apply Nat.eqb_eq in C. auto.
Qed.

Lemma scanAll_joinLines (lines : list string) (tail : string) :
  forallb lineOK lines = true ->
  lineOK tail = true ->
  forall (fuel : nat) (s : bufio.Scanner),
    bufio.rest s = joinLines lines ++ tail ->
    String.length (bufio.rest s) <= fuel ->
    scanAll (S fuel) s =
    Some ((map bufio.dropCR lines ++ lastToken tail)%list, fault (bufio.rfin s)).
Proof.
  intros HL HT. destruct (lineOK_parts _ HT) as [TC TF].
  induction lines as [|line more IH]; intros fuel s R Hle.
  - cbn [joinLines append] in R. cbn [map app].
    destruct tail as [|c tail].
    + now apply scanAll_empty.
    + rewrite R in Hle. cbn [String.length] in Hle.
      destruct fuel as [|fuel]; [lia|].
      rewrite scanAll_tail by (rewrite R; assumption).
      now rewrite R.
  - cbn [forallb] in HL. apply andb_true_iff in HL. destruct HL as [Hl HL].
    destruct (lineOK_parts _ Hl) as [LC LF'].
    assert (R' : bufio.rest s = line ++ String LF (joinLines more ++ tail)).
    { rewrite R. cbn [joinLines]. rewrite append_assoc_s. reflexivity. }
    rewrite R', length_append_s in Hle. cbn [String.length] in Hle.
    destruct fuel as [|fuel]; [lia|].
    rewrite scanAll_step, (Scan_line s line _ R' LC LF').
    rewrite (IH HL fuel); [reflexivity|reflexivity|cbn [bufio.rest]; lia].
Qed.

Lemma scanBody_joinLines (lines : list string) (tail : string) (fin : error) :
  forallb lineOK lines = true ->
  lineOK tail = true ->
  scanBody {| io.data := joinLines lines ++ tail; io.fin := fin |} =
  Some ((map bufio.dropCR lines ++ lastToken tail)%list, fault fin).
Proof.
  intros HL HT. unfold scanBody.
  apply (scanAll_joinLines lines tail HL HT).
  - reflexivity.
  - cbn [bufio.NewScanner bufio.rest io.data]. lia.
Qed.

(** X13.  The reader takes a body apart at its line feeds, and nowhere else.
    For a body made of the lines [lines], each followed by a line feed, and
    of a last piece [tail] that no line feed ends (lines without a line
    feed inside and shorter than the scanner's buffer), the scanner yields
    the lines in their order, each without a trailing carriage return, then
    [tail] if it is not empty; the reader's events are those of these lines
    and of the fault the body ends with, if any.  Empty lines are tokens of
    their own; a last line needs no line feed to be read. *)
Theorem X13_lines_are_read_in_order
    (lines : list string) (tail : string) (fin : error) :
  forallb lineOK lines = true ->
  lineOK tail = true ->
  let body := {| io.data := joinLines lines ++ tail; io.fin := fin |} in
  scanBody body = Some ((map bufio.dropCR lines ++ lastToken tail)%list, fault fin) /\
  goroutine body =
  Some (program body
          (decodeLines (map bufio.dropCR lines ++ lastToken tail)%list (fault fin))).
Proof.
  intros HL HT body.
  pose proof (scanBody_joinLines lines tail fin HL HT) as H.
  split; [exact H|]. apply goroutine_lines, H.
Qed.

Lemma X13_witness :
  forallb lineOK [frameA; ""; frameB ++ CRbyte] = true /\
  lineOK frameEnd = true /\
  goroutine {| io.data := joinLines [frameA; ""; frameB ++ CRbyte] ++ frameEnd;
               io.fin := EOF |} =
  Some (program {| io.data := joinLines [frameA; ""; frameB ++ CRbyte] ++ frameEnd;
                   io.fin := EOF |}
          [Text "a"; Text "b"; End]).
Proof.
  split; [reflexivity|]. split; [reflexivity|].
  exact (proj2 (X13_lines_are_read_in_order [frameA; ""; frameB ++ CRbyte] frameEnd EOF
                  eq_refl eq_refl)).
Defined.

(** ** Carriage returns *)

Lemma dropCR_plain (line : string) :
  endsCR line = false -> bufio.dropCR line = line.
Proof.
  unfold endsCR, bufio.dropCR.
  destruct (strings.last line) as [c|]; [|reflexivity].
  now intros ->.
Qed.

Lemma dropCR_CR (line : string) : bufio.dropCR (line ++ CRbyte) = line.
Proof.
  unfold bufio.dropCR.
  rewrite (last_app_nonempty line CRbyte) by discriminate.
  cbn [CRbyte strings.last]. rewrite Ascii.eqb_refl.
  rewrite dropLast_app by discriminate.
  cbn [strings.dropLast]. apply app_empty_r.
Qed.

Lemma lineOK_shorter (line more : string) :
  lineOK (line ++ more) = true -> lineOK line = true.
Proof.
  intros H. destruct (lineOK_parts _ H) as [C F].
  rewrite CountByte_app in C.
  unfold lineOK. apply andb_true_iff. split.
  - apply Nat.eqb_eq. lia.
  - unfold bufio.fits in *. rewrite length_append_s in F.
    apply N.ltb_lt in F. apply N.ltb_lt. lia.
Qed.

(** X14.  Lines that end in CR LF are read like lines that end in LF: the
    reader sends the same events for a body whose lines each end in a
    carriage return and a line feed as for the body with the same lines
    ended by a line feed alone (the lines themselves not ending in a
    carriage return). *)
Theorem X14_crlf_reads_as_lf (lines : list string) (fin : error) :
  forallb (fun line => lineOK (line ++ CRbyte) && negb (endsCR line)) lines = true ->
  exists events,
    events = decodeLines lines (fault fin) /\
    goroutine {| io.data := joinLines lines; io.fin := fin |} =
      Some (program {| io.data := joinLines lines; io.fin := fin |} events) /\
    goroutine {| io.data := joinLines (map (fun line => line ++ CRbyte) lines);
                 io.fin := fin |} =
      Some (program {| io.data := joinLines (map (fun line => line ++ CRbyte) lines);
                       io.fin := fin |} events).
Proof.
  intros H.
  assert (A : forallb lineOK lines = true /\
              forallb lineOK (map (fun line => line ++ CRbyte) lines) = true /\
              map bufio.dropCR lines = lines /\
              map bufio.dropCR (map (fun line => line ++ CRbyte) lines) = lines).
  { induction lines as [|line more IH]; [repeat split; reflexivity|].
    cbn [forallb] in H. apply andb_true_iff in H. destruct H as [Hl H].
    apply andb_true_iff in Hl. destruct Hl as [Hok Hcr].
    apply negb_true_iff in Hcr.
    destruct (IH H) as (I1 & I2 & I3 & I4).
    cbn [forallb map]. rewrite I1, I2, I3, I4, Hok, (lineOK_shorter _ _ Hok).
    rewrite (dropCR_plain _ Hcr), dropCR_CR. repeat split; reflexivity. }
  destruct A as (A1 & A2 & A3 & A4).
  exists (decodeLines lines (fault fin)). split; [reflexivity|]. split.
  - pose proof (scanBody_joinLines lines "" fin A1 eq_refl) as S.
    rewrite app_empty_r, A3 in S. cbn [lastToken String.eqb] in S.
    rewrite app_nil_r in S. apply goroutine_lines, S.
  - pose proof (scanBody_joinLines _ "" fin A2 eq_refl) as S.
    rewrite app_empty_r, A4 in S. cbn [lastToken String.eqb] in S.
    rewrite app_nil_r in S. apply goroutine_lines, S.
Qed.

Lemma X14_witness :
  goroutine {| io.data := joinLines (map (fun line => line ++ CRbyte) [frameA; frameEnd]);
               io.fin := EOF |} =
  Some (program {| io.data := joinLines (map (fun line => line ++ CRbyte) [frameA; frameEnd]);
                   io.fin := EOF |}
          [Text "a"; End]).
Proof.
  destruct (X14_crlf_reads_as_lf [frameA; frameEnd] EOF eq_refl) as (events & E & _ & G).
  rewrite G, E. reflexivity.
Defined.

(** ** A fault at the end of the input *)

Lemma scanAll_fin (fuel : nat) (s s' : bufio.Scanner) (lines : list string)
    (e : option error) :
  bufio.rest s' = bufio.rest s ->
  bufio.rfin s = EOF ->
  scanAll fuel s = Some (lines, e) ->
  scanAll fuel s' =
  Some (lines, match e with None => fault (bufio.rfin s') | Some x => Some x end).
Proof.
  revert s s' lines e.
  induction fuel as [|fuel IH]; intros s s' lines e R F H; [discriminate|].
  rewrite scanAll_step in H |- *. unfold bufio.Scan in H |- *. rewrite R.
  destruct (strings.CutByte (bufio.rest s) LF) as [[line after] found].
  destruct found.
  - destruct (bufio.fits line).
    + destruct (scanAll fuel _) as [[ls e1]|] eqn:A in H; [|discriminate].
      inversion H; subst.
      match type of A with
      | scanAll _ ?s1 = _ =>
          pose proof (fun s2 (R2 : bufio.rest s2 = bufio.rest s1) =>
                        IH s1 s2 _ _ R2 F A) as IH'
      end.
      rewrite IH' by reflexivity. reflexivity.
    + inversion H; subst. reflexivity.
  - destruct (negb (bufio.fits (bufio.rest s))).
    + inversion H; subst. reflexivity.
    + destruct (bufio.rest s) as [|c r].
      * inversion H; subst. rewrite F, Err_fault. reflexivity.
      * destruct (scanAll fuel _) as [[ls e1]|] eqn:A in H; [|discriminate].
        inversion H; subst.
        match type of A with
      | scanAll _ ?s1 = _ =>
          pose proof (fun s2 (R2 : bufio.rest s2 = bufio.rest s1) =>
                        IH s1 s2 _ _ R2 F A) as IH'
      end.
        rewrite IH' by reflexivity. reflexivity.
Qed.

Lemma decodeLines_fault (lines : list string) (f : error) :
  decodeLines lines (Some f) =
  (decodeLines lines None
   ++ (if forallb goesOn lines then [readErrorEvent f] else []))%list.
Proof.
  induction lines as [|line more IH]; cbn [decodeLines forallb]; [reflexivity|].
  unfold goesOn at 1.
  destruct (onLine line); cbn [andb app]; [exact IH|now rewrite IH|reflexivity].
Qed.

(** X15.  A read fault at the end of the input costs no event.  Take the
    same bytes twice, once ending regularly and once ending in a read fault:
    the reader sends the same events for both, in the same order, and for
    the faulty one a single Error event more after them, if none of the
    lines ended the stream before and the regular run did not itself end in
    a line too long for the scanner. *)
Theorem X15_fault_keeps_the_events (data : string) (f : error) :
  f <> EOF ->
  exists lines e,
    scanBody {| io.data := data; io.fin := EOF |} = Some (lines, e) /\
    goroutine {| io.data := data; io.fin := EOF |} =
      Some (program {| io.data := data; io.fin := EOF |} (decodeLines lines e)) /\
    goroutine {| io.data := data; io.fin := f |} =
      Some (program {| io.data := data; io.fin := f |}
              (decodeLines lines e
               ++ (if forallb goesOn lines
                      && match e with None => true | Some _ => false end
                   then [{| Type' := EventTypeError;
                            Value := ofError (wrapError "error reading stream: " f) |}]
                   else []))%list).
Proof.
  intros Hf.
  destruct (scanBody_total {| io.data := data; io.fin := EOF |}) as (lines & e & H).
  exists lines, e. split; [exact H|]. split; [apply goroutine_lines, H|].
  assert (S : scanBody {| io.data := data; io.fin := f |} =
              Some (lines, match e with None => Some f | Some x => Some x end)).
  { unfold scanBody in *. cbn [io.data] in *.
    rewrite (scanAll_fin _ (bufio.NewScanner {| io.data := data; io.fin := EOF |})
               (bufio.NewScanner {| io.data := data; io.fin := f |})
               lines e eq_refl eq_refl H).
    cbn [bufio.NewScanner bufio.rfin io.fin].
    destruct e; [reflexivity|]. destruct f; try reflexivity. congruence. }
  rewrite (goroutine_lines _ _ _ S).
  destruct e as [x|].
  - rewrite andb_false_r, app_nil_r. reflexivity.
  - rewrite andb_true_r. fold (readErrorEvent f).
    rewrite <- decodeLines_fault. reflexivity.
Qed.

Lemma X15_witness :
  ErrUnexpectedEOF <> EOF /\
  goroutine {| io.data := frameA ++ nl ++ frameB; io.fin := ErrUnexpectedEOF |} =
  Some (program {| io.data := frameA ++ nl ++ frameB; io.fin := ErrUnexpectedEOF |}
          [Text "a"; Text "b";
            {| Type' := EventTypeError;
               Value := ofError (wrapError "error reading stream: " ErrUnexpectedEOF) |}]).
Proof.
  assert (N : ErrUnexpectedEOF <> EOF) by discriminate.
  split; [exact N|].
  destruct (X15_fault_keeps_the_events (frameA ++ nl ++ frameB) ErrUnexpectedEOF N)
    as (lines & e & S & _ & G).
  rewrite G. inversion S. reflexivity.
Defined.

(** ** Completion calls through Direct Dispatch *)

Section Routed.

Variable Marshal : CompletionRequest -> string * option error.

(** The request a completion call creates for a plain name, with its
    headers set. *)
Lemma created_post (kind name suffix body : string) (stream : bool) :
  kind = "agent/" \/ kind = "service/" ->
  plainName name = true ->
  plainName suffix = true ->
  exists created,
    http.NewRequest "POST"
      ("/" ++ aiPluginID ++ "/bridge/v1/completion/" ++ kind ++ name ++ suffix) (Some body)
      = (Some created, None) /\
    headers stream created =
      postRequest ("/mattermost-ai/bridge/v1/completion/" ++ kind ++ name ++ suffix)
        body stream.
Proof.
  intros K Hn Hs.
  eexists. split; [exact (NewRequest_post name suffix body kind K Hn Hs)|].
  destruct stream; reflexivity.
Qed.

(** [Do] through Direct Dispatch for such a request: one call of the
    router, with the path rewritten. *)
Lemma Do_routed (api : AppAPI) (uid kind name suffix body : string) (stream : bool) :
  kind = "agent/" \/ kind = "service/" ->
  let sent :=
    postRequest ("/mattermost-ai/bridge/v1/completion/" ++ kind ++ name ++ suffix)
      body stream in
  let seen := setPath sent ("/bridge/v1/completion/" ++ kind ++ name ++ suffix) in
  let resp :=
    httptest.Result
      (ServeInternalPluginRequest api uid httptest.NewRecorder seen
         "mattermost-server" "mattermost-ai") in
  http.Do (httpClient (NewClientFromApp api uid)) sent =
  Some (if http.redirects resp
        then (None, Some (errorString "(redirect followed: not modelled)"))
        else (Some resp, None),
        [HostServeInternalPluginRequest uid seen "mattermost-server" "mattermost-ai"]).
Proof.
  intros K sent seen resp.
  destruct K; subst kind.
  - exact (Do_direct_segment api uid sent "mattermost-ai"
             ("bridge/v1/completion/agent/" ++ name ++ suffix) eq_refl eq_refl).
  - exact (Do_direct_segment api uid sent "mattermost-ai"
             ("bridge/v1/completion/service/" ++ name ++ suffix) eq_refl eq_refl).
Qed.

Lemma doCompletionRequest_first (c : Client) (url body : string)
    (request : CompletionRequest) (created : http.Request)
    (resp : http.Response) (follows : bool) (err : error) (e : Effect) :
  Marshal request = (body, None) ->
  http.NewRequest "POST" url (Some body) = (Some created, None) ->
  http.Do (httpClient c) (headers false created) =
    Some (if follows then (None, Some err) else (Some resp, None), [e]) ->
  exists r t, doCompletionRequest Marshal c url request = Some (r, e :: t).
Proof.
  intros HM HN HD. destruct follows.
  - unfold doCompletionRequest. rewrite HM, HN.
    unfold headers in HD. cbv zeta in HD |- *. rewrite HD.
    do 2 eexists. reflexivity.
  - assert (RT : roundTrip Marshal c url request false resp [e])
      by (exists body, created; repeat split; assumption).
    rewrite (doCompletionRequest_answered Marshal _ _ _ _ _ RT). cbn [app]. eauto.
Qed.

Lemma doStreamingRequest_first (c : Client) (url body : string)
    (request : CompletionRequest) (created : http.Request)
    (resp : http.Response) (follows : bool) (err : error) (e : Effect) :
  Marshal request = (body, None) ->
  http.NewRequest "POST" url (Some body) = (Some created, None) ->
  http.Do (httpClient c) (headers true created) =
    Some (if follows then (None, Some err) else (Some resp, None), [e]) ->
  exists r t, doStreamingRequest Marshal c url request = Some (r, e :: t).
Proof.
  intros HM HN HD. destruct follows.
  - unfold doStreamingRequest. rewrite HM, HN.
    unfold headers in HD. cbv zeta in HD |- *. rewrite HD.
    do 2 eexists. reflexivity.
  - assert (RT : roundTrip Marshal c url request true resp [e])
      by (exists body, created; repeat split; assumption).
    destruct (Z.eq_dec (http.StatusCode resp) 200) as [S|S].
    + rewrite (doStreamingRequest_200 Marshal _ _ _ _ _ RT S). eauto.
    + rewrite (doStreamingRequest_rejected Marshal _ _ _ _ _ RT S). cbn [app]. eauto.
Qed.

(** X16.  A streaming call through Direct Dispatch is not incremental: the
    router is called, with the request the call built and the path
    "/bridge/v1/completion/agent/<name>", and has returned before the call
    does, and the stream handed out replays what the handler recorded.  For
    a recorded status of 200 (or none written) the call returns the stream
    over the recorded bytes, which end regularly: the only read fault its
    events can report is a line too long for the scanner.  For any other
    recorded status, unless it is a redirect the client follows, the call
    returns the rejection and closes the recorded body. *)
Theorem X16_direct_dispatch_stream_is_recorded
    (api : AppAPI) (uid name body : string) (request : CompletionRequest) :
  plainName name = true ->
  Marshal request = (body, None) ->
  let seen :=
    setPath (postRequest ("/mattermost-ai/bridge/v1/completion/agent/" ++ name) body true)
      ("/bridge/v1/completion/agent/" ++ name) in
  let recorded :=
    ServeInternalPluginRequest api uid httptest.NewRecorder seen
      "mattermost-server" "mattermost-ai" in
  let replay := {| io.data := httptest.RecBody recorded; io.fin := EOF |} in
  (httptest.Code recorded = 200%Z \/ httptest.Code recorded = 0%Z ->
   AgentCompletionStream Marshal (NewClientFromApp api uid) name request =
     Some ((Some {| Stream := goroutine replay |}, None),
           [HostServeInternalPluginRequest uid seen "mattermost-server" "mattermost-ai"]) /\
   exists lines e,
     goroutine replay = Some (program replay (decodeLines lines e)) /\
     (e = None \/ e = Some ErrTooLong)) /\
  (httptest.Code recorded <> 200%Z /\ httptest.Code recorded <> 0%Z ->
   http.redirects (httptest.Result recorded) = false ->
   AgentCompletionStream Marshal (NewClientFromApp api uid) name request =
     Some ((None,
            Some (errorString
                    ("request failed with status "
                       ++ fmt.d (http.StatusCode (httptest.Result recorded)) ++ ": "
                       ++ detail (httptest.RecBody recorded)))),
           [HostServeInternalPluginRequest uid seen "mattermost-server" "mattermost-ai";
            BodyClose replay])).
Proof.
  intros Hn HM seen recorded replay.
  destruct (created_post "agent/" name "" body true (or_introl eq_refl) Hn eq_refl)
    as (created & HN & HH).
  pose proof (Do_routed api uid "agent/" name "" body true (or_introl eq_refl)) as HD.
  cbv zeta in HD. rewrite !app_empty_r in HN, HH, HD.
  change ("/mattermost-ai/bridge/v1/completion/" ++ "agent/" ++ name)
    with ("/mattermost-ai/bridge/v1/completion/agent/" ++ name) in HH, HD.
  change ("/bridge/v1/completion/" ++ "agent/" ++ name)
    with ("/bridge/v1/completion/agent/" ++ name) in HD.
  fold seen in HD. fold recorded in HD.
  assert (RT : http.redirects (httptest.Result recorded) = false ->
               roundTrip Marshal (NewClientFromApp api uid)
                 ("/" ++ aiPluginID ++ "/bridge/v1/completion/agent/" ++ name) request true
                 (httptest.Result recorded)
                 [HostServeInternalPluginRequest uid seen
                    "mattermost-server" "mattermost-ai"]).
  { intros R. rewrite R in HD. exists body, created.
    split; [exact HM|]. split; [exact HN|]. rewrite HH. exact HD. }
  unfold AgentCompletionStream. cbv zeta. split.
  - intros C.
    assert (S : http.StatusCode (httptest.Result recorded) = 200%Z).
    { cbn [httptest.Result http.StatusCode]. destruct C as [C|C]; rewrite C; reflexivity. }
    assert (R : http.redirects (httptest.Result recorded) = false)
      by (unfold http.redirects; rewrite S; reflexivity).
    rewrite (doStreamingRequest_200 Marshal _ _ _ _ _ (RT R) S).
    split; [reflexivity|].
    destruct (goroutine_total replay) as (lines & e & A & G).
    exists lines, e. split; [exact G|].
    pose proof (scanAll_err _ _ _ _ A) as E. cbn in E.
    destruct e as [err|]; [right|left; reflexivity].
    destruct E as [->|[_ E]]; [reflexivity|congruence].
  - intros [C200 C0] R.
    assert (S : http.StatusCode (httptest.Result recorded) <> 200%Z).
    { cbn [httptest.Result http.StatusCode].
      destruct (Z.eqb_spec (httptest.Code recorded) 0); congruence. }
    rewrite (doStreamingRequest_rejected Marshal _ _ _ _ _ (RT R) S).
    rewrite ReadAll_EOF by reflexivity.
    rewrite statusError_detail. reflexivity.
Qed.

(** X18.  Through Direct Dispatch, for a name without control bytes and
    without "#", "?" and "%", each of the four completion calls reaches the
    router before anything else, as the user the client was built for, from
    "mattermost-server" to "mattermost-ai", with the POST request the call
    built, in which only the path has been rewritten: it has lost the
    plugin's segment and is "/bridge/v1/completion/agent/<name>/nostream",
    "/bridge/v1/completion/service/<name>/nostream", or the same two
    without "/nostream" for the streaming calls. *)
Theorem X18_completion_request_at_the_router
    (api : AppAPI) (uid name body : string) (request : CompletionRequest) :
  plainName name = true ->
  Marshal request = (body, None) ->
  (exists r t,
     AgentCompletion Marshal (NewClientFromApp api uid) name request =
     Some (r, HostServeInternalPluginRequest uid
                (setPath
                   (postRequest
                      ("/mattermost-ai/bridge/v1/completion/agent/" ++ name ++ "/nostream")
                      body false)
                   ("/bridge/v1/completion/agent/" ++ name ++ "/nostream"))
                "mattermost-server" "mattermost-ai" :: t)) /\
  (exists r t,
     ServiceCompletion Marshal (NewClientFromApp api uid) name request =
     Some (r, HostServeInternalPluginRequest uid
                (setPath
                   (postRequest
                      ("/mattermost-ai/bridge/v1/completion/service/" ++ name ++ "/nostream")
                      body false)
                   ("/bridge/v1/completion/service/" ++ name ++ "/nostream"))
                "mattermost-server" "mattermost-ai" :: t)) /\
  (exists r t,
     AgentCompletionStream Marshal (NewClientFromApp api uid) name request =
     Some (r, HostServeInternalPluginRequest uid
                (setPath
                   (postRequest ("/mattermost-ai/bridge/v1/completion/agent/" ++ name)
                      body true)
                   ("/bridge/v1/completion/agent/" ++ name))
                "mattermost-server" "mattermost-ai" :: t)) /\
  (exists r t,
     ServiceCompletionStream Marshal (NewClientFromApp api uid) name request =
     Some (r, HostServeInternalPluginRequest uid
                (setPath
                   (postRequest ("/mattermost-ai/bridge/v1/completion/service/" ++ name)
                      body true)
                   ("/bridge/v1/completion/service/" ++ name))
                "mattermost-server" "mattermost-ai" :: t)).
Proof.
  intros Hn HM.
  destruct (created_post "agent/" name "/nostream" body false (or_introl eq_refl) Hn eq_refl)
    as (c1 & N1 & H1).
  destruct (created_post "service/" name "/nostream" body false (or_intror eq_refl) Hn eq_refl)
    as (c2 & N2 & H2).
  destruct (created_post "agent/" name "" body true (or_introl eq_refl) Hn eq_refl)
    as (c3 & N3 & H3).
  destruct (created_post "service/" name "" body true (or_intror eq_refl) Hn eq_refl)
    as (c4 & N4 & H4).
  pose proof (Do_routed api uid "agent/" name "/nostream" body false (or_introl eq_refl)) as D1.
  pose proof (Do_routed api uid "service/" name "/nostream" body false (or_intror eq_refl))
    as D2.
  pose proof (Do_routed api uid "agent/" name "" body true (or_introl eq_refl)) as D3.
  pose proof (Do_routed api uid "service/" name "" body true (or_intror eq_refl)) as D4.
  cbv zeta in D1, D2, D3, D4.
  rewrite <- H1 in D1 at 1. rewrite <- H2 in D2 at 1.
  rewrite <- H3 in D3 at 1. rewrite <- H4 in D4 at 1.
  rewrite !app_empty_r in N3, N4, D3, D4.
  repeat split.
  - exact (doCompletionRequest_first _ _ _ _ _ _ _ _ _ HM N1 D1).
  - exact (doCompletionRequest_first _ _ _ _ _ _ _ _ _ HM N2 D2).
  - exact (doStreamingRequest_first _ _ _ _ _ _ _ _ _ HM N3 D3).
  - exact (doStreamingRequest_first _ _ _ _ _ _ _ _ _ HM N4 D4).
Qed.

End Routed.

Lemma X16_witness :
  plainName "bot" = true /\
  AgentCompletionStream sampleMarshal (NewClientFromApp (router 200 threeFrames) "caller")
    "bot" sampleRequest =
  Some ((Some {| Stream := Some (program {| io.data := threeFrames; io.fin := EOF |}
                                   [Text "a"; Text "b"; End]) |}, None),
        [HostServeInternalPluginRequest "caller"
           (postRequest "/bridge/v1/completion/agent/bot"
              (quoted "{'posts':[{'role':'user','message':'hi'}]}") true)
           "mattermost-server" "mattermost-ai"]).
Proof.
  split; [reflexivity|].
  exact (proj1 (proj1 (X16_direct_dispatch_stream_is_recorded sampleMarshal
                         (router 200 threeFrames) "caller" "bot" _ sampleRequest
                         eq_refl eq_refl)
                  (or_introl eq_refl))).
Defined.

Lemma X18_witness :
  plainName "openai" = true /\
  exists r t,
    ServiceCompletion sampleMarshal (NewClientFromApp (router 200 "") "caller")
      "openai" sampleRequest =
    Some (r, HostServeInternalPluginRequest "caller"
               (postRequest "/bridge/v1/completion/service/openai/nostream"
                  (quoted "{'posts':[{'role':'user','message':'hi'}]}") false)
               "mattermost-server" "mattermost-ai" :: t).
Proof.
  split; [reflexivity|].
  exact (proj1 (proj2 (X18_completion_request_at_the_router sampleMarshal
                         (router 200 "") "caller" "openai" _ sampleRequest
                         eq_refl eq_refl))).
Defined.

(** ** A line too long for the scanner *)

Lemma Scan_too_long (s : bufio.Scanner) (long more : string) :
  bufio.rest s = long ++ more ->
  strings.CountByte long LF = 0 ->
  bufio.fits long = false ->
  more = "" \/ strings.HasPrefix more nl = true ->
  bufio.Scan s =
  (false, {| bufio.rest := bufio.rest s; bufio.rfin := bufio.rfin s;
             bufio.tok := ""; bufio.err := Some ErrTooLong |}).
Proof.
  intros R C F [->|P]; unfold bufio.Scan.
  - rewrite app_empty_r in R. rewrite R, (CutByte_absent _ _ C), F. reflexivity.
  - destruct (prefix_split _ _ P) as (x & -> & _).
    rewrite R. change (nl ++ x) with (String LF x).
    rewrite (CutByte_line _ _ _ C), F. reflexivity.
Qed.

Lemma scanAll_too_long (lines : list string) (long more : string) :
  forallb lineOK lines = true ->
  strings.CountByte long LF = 0 ->
  bufio.fits long = false ->
  more = "" \/ strings.HasPrefix more nl = true ->
  forall (fuel : nat) (s : bufio.Scanner),
    bufio.rest s = joinLines lines ++ long ++ more ->
    String.length (bufio.rest s) <= fuel ->
    scanAll (S fuel) s = Some (map bufio.dropCR lines, Some ErrTooLong).
Proof.
  intros HL C F M.
  induction lines as [|line rest IH]; intros fuel s R Hle.
  - cbn [joinLines append] in R.
    rewrite scanAll_step, (Scan_too_long s long more R C F M). reflexivity.
  - cbn [forallb] in HL. apply andb_true_iff in HL. destruct HL as [Hl HL].
    destruct (lineOK_parts _ Hl) as [LC LF'].
    assert (R' : bufio.rest s = line ++ String LF (joinLines rest ++ long ++ more)).
    { rewrite R. cbn [joinLines]. rewrite append_assoc_s. reflexivity. }
    rewrite R', length_append_s in Hle. cbn [String.length] in Hle.
    destruct fuel as [|fuel]; [lia|].
    rewrite scanAll_step, (Scan_line s line _ R' LC LF').
    rewrite (IH HL fuel); [reflexivity|reflexivity|cbn [bufio.rest]; lia].
Qed.

(** X17.  A line of 65536 bytes or more ends the stream.  When, after some
    lines the scanner can take, the body goes on with a stretch that has no
    line feed in it and does not fit the scanner's buffer, the scanner stops
    there with [bufio.ErrTooLong]: the reader handles the lines before it
    as usual and then, unless one of them ended the stream, sends the Error
    event "error reading stream: ..." for the scanner's error.  Nothing of
    the long line and nothing that follows it is delivered, whether the
    input ends regularly or not. *)
Theorem X17_line_too_long_ends_the_stream
    (lines : list string) (long more : string) (fin : error) :
  forallb lineOK lines = true ->
  strings.CountByte long LF = 0 ->
  bufio.fits long = false ->
  more = "" \/ strings.HasPrefix more nl = true ->
  let body := {| io.data := joinLines lines ++ long ++ more; io.fin := fin |} in
  scanBody body = Some (map bufio.dropCR lines, Some ErrTooLong) /\
  goroutine body =
    Some (program body (decodeLines (map bufio.dropCR lines) (Some ErrTooLong))) /\
  (forallb goesOn (map bufio.dropCR lines) = true ->
   goroutine body =
     Some (program body
             (published (map bufio.dropCR lines)
              ++ [{| Type' := EventTypeError;
                     Value := ofError (wrapError "error reading stream: " ErrTooLong) |}]))%list).
Proof.
  intros HL C F M body.
  assert (H : scanBody body = Some (map bufio.dropCR lines, Some ErrTooLong)).
  { unfold scanBody.
    apply (scanAll_too_long lines long more HL C F M).
    - reflexivity.
    - cbn [bufio.NewScanner bufio.rest io.data]. lia. }
  split; [exact H|]. split; [apply goroutine_lines, H|].
  intros G. rewrite (goroutine_lines _ _ _ H), (decodeLines_goesOn _ _ G). reflexivity.
Qed.

Lemma X17_witness :
  bufio.fits (repeatByte "x" (256 * 256)) = false /\
  bufio.fits (repeatByte "x" (256 * 256 - 1)) = true /\
  goroutine {| io.data := joinLines [frameA] ++ repeatByte "x" (256 * 256)
                            ++ nl ++ frameEnd ++ nl;
               io.fin := EOF |} =
  Some (program {| io.data := joinLines [frameA] ++ repeatByte "x" (256 * 256)
                                ++ nl ++ frameEnd ++ nl;
                   io.fin := EOF |}
          [Text "a";
            {| Type' := EventTypeError;
               Value := ofError (wrapError "error reading stream: " ErrTooLong) |}]).
Proof.
  assert (F : bufio.fits (repeatByte "x" (256 * 256)) = false) by (vm_compute; reflexivity).
  assert (C : strings.CountByte (repeatByte "x" (256 * 256)) LF = 0)
    by (vm_compute; reflexivity).
  split; [exact F|]. split; [vm_compute; reflexivity|].
  exact (proj1 (proj2 (X17_line_too_long_ends_the_stream [frameA]
                         (repeatByte "x" (256 * 256)) (nl ++ frameEnd ++ nl) EOF
                         eq_refl C F (or_intror eq_refl)))).
Defined.

(** ** The detail of a rejection *)

Lemma intoFields_no_error_key (members : list (string * json.value)) (r : ErrorResponse) :
  forallb (fun kv => negb (json.fieldMatches "error" (fst kv))) members = true ->
  json.intoFields setErrorResponse members r = (r, None).
Proof.
  induction members as [|[key v] more IH]; cbn [forallb json.intoFields fst]; intros H.
  - reflexivity.
  - apply andb_true_iff in H. destruct H as [K H].
    apply negb_true_iff in K.
    unfold setErrorResponse at 1. rewrite K, (IH H). reflexivity.
Qed.

(** X19.  What follows "request failed with status N: " in the error of a
    rejected response.  A body that is not JSON, or is JSON but neither an
    object nor null, is quoted as it is.  But a body that is a JSON object
    without an [error] key (matched without regard to case), or the literal
    null, decodes without an error into an empty [ErrorResponse], so the
    message ends after the colon: nothing of such a body is shown.  An
    object made of an [error] key with a string gives that string. *)
Theorem X19_detail_of_a_rejection (resp : http.Response) (respBody : string) :
  (json.parse respBody = None ->
   statusError resp respBody =
   Some (errorString ("request failed with status " ++ fmt.d (http.StatusCode resp)
                        ++ ": " ++ respBody))) /\
  (forall v,
     json.parse respBody = Some v ->
     v <> json.Null -> (forall members, v <> json.Object members) ->
     statusError resp respBody =
     Some (errorString ("request failed with status " ++ fmt.d (http.StatusCode resp)
                          ++ ": " ++ respBody))) /\
  (forall members,
     json.parse respBody = Some (json.Object members) ->
     forallb (fun kv => negb (json.fieldMatches "error" (fst kv))) members = true ->
     statusError resp respBody =
     Some (errorString ("request failed with status " ++ fmt.d (http.StatusCode resp)
                          ++ ": "))) /\
  (json.parse respBody = Some json.Null ->
   statusError resp respBody =
   Some (errorString ("request failed with status " ++ fmt.d (http.StatusCode resp)
                        ++ ": "))) /\
  (forall key message,
     json.parse respBody = Some (json.Object [(key, json.Str message)]) ->
     json.fieldMatches "error" key = true ->
     statusError resp respBody =
     Some (errorString ("request failed with status " ++ fmt.d (http.StatusCode resp)
                          ++ ": " ++ message))).
Proof.
  unfold statusError, json.Unmarshal.
  repeat split.
  - intros ->. reflexivity.
  - intros v -> N O.
    destruct v; try reflexivity; [congruence|].
    exfalso. now apply (O members).
  - intros members -> K. cbn [json.intoStruct].
    rewrite (intoFields_no_error_key _ _ K). reflexivity.
  - intros ->. reflexivity.
  - intros key message -> K. cbn [json.intoStruct json.intoFields].
    unfold setErrorResponse. rewrite K. reflexivity.
Qed.

Lemma X19_witness :
  json.parse (quoted "{'message':'quota exceeded'}") =
    Some (json.Object [("message", json.Str "quota exceeded")]) /\
  statusError (response 429 (quoted "{'message':'quota exceeded'}"))
    (quoted "{'message':'quota exceeded'}") =
  Some (errorString "request failed with status 429: ").
Proof.
  split; [reflexivity|].
  exact (proj1 (proj2 (proj2 (X19_detail_of_a_rejection
                                (response 429 (quoted "{'message':'quota exceeded'}"))
                                (quoted "{'message':'quota exceeded'}"))))
           [("message", json.Str "quota exceeded")] eq_refl eq_refl).
Defined.

(** ** A user ID is not escaped *)

Lemma unescape_plain (s : string) :
  strings.CountByte s "%" = 0 -> url.unescape s = (s, None).
Proof.
  intros H. unfold url.unescape.
  replace s with (s ++ "") at 1 by apply app_empty_r.
  rewrite unescapeFrom_prefix by exact H.
  cbn [url.unescapeFrom]. now rewrite app_empty_r.
Qed.

Lemma parse_of_Parse (s : string) (u : url.URL) :
  strings.CountByte s "#" = 0 ->
  url.Parse s = (Some u, None) -> url.parse s = (Some u, None).
Proof.
  intros H. unfold url.Parse. rewrite (CutByte_absent s "#" H).
  destruct (url.parse s) as [[x|] [e|]]; try discriminate.
  cbn [String.eqb]. intros E. exact E.
Qed.

Lemma NewRequest_fragment (endpoint a b : string) :
  url.stringContainsCTLByte endpoint = false ->
  strings.HasPrefix endpoint "/" = true ->
  strings.HasPrefix endpoint "//" = false ->
  strings.CountByte endpoint "#" = 0 ->
  strings.CountByte endpoint "?" = 0 ->
  strings.CountByte endpoint "%" = 0 ->
  a <> "" ->
  plainID a = true ->
  strings.CountByte b "%" = 0 ->
  http.NewRequest "GET" (endpoint ++ "?user_id=" ++ (a ++ String "#" b)) None =
  (Some (getRequestFragment endpoint ("user_id=" ++ a) b), None).
Proof.
  intros H1 H2 H3 H4 H5 H6 Ha Hp Hb.
  pose proof (Parse_query endpoint a H1 H2 H3 H4 H5 H6 Ha Hp) as P.
  assert (C : strings.CountByte (endpoint ++ "?user_id=" ++ a) "#" = 0).
  { apply andb_true_iff in Hp. destruct Hp as [_ Hn]. apply Nat.eqb_eq in Hn.
    rewrite !CountByte_app, H4, Hn. reflexivity. }
  apply (parse_of_Parse _ _ C) in P.
  unfold http.NewRequest, url.Parse.
  replace (endpoint ++ "?user_id=" ++ (a ++ String "#" b))
    with ((endpoint ++ "?user_id=" ++ a) ++ String "#" b)
    by (rewrite !append_assoc_s; reflexivity).
  rewrite (CutByte_line _ _ _ C), P.
  destruct b as [|c b]; [reflexivity|].
  replace (String.eqb (String c b) "") with false by reflexivity.
  rewrite (unescape_plain _ Hb). reflexivity.
Qed.

(** X20.  The user ID goes into the URL as it is, so a "#" in it cuts it
    short.  For a user ID made of a non-empty part [a] without control bytes
    and without "#", then "#", then any [b] without "%": [GetAgents] and
    [GetServices] build and send a GET request whose query is "user_id="
    followed by [a] only; [b] has become the fragment of the URL. *)
Theorem X20_hash_cuts_the_user_id (api : PluginAPI) (a b : string) :
  a <> "" ->
  plainID a = true ->
  strings.CountByte b "%" = 0 ->
  (exists r t,
     GetAgents (NewClient api) (a ++ String "#" b) =
     Some (r, HostPluginHTTP
                (getRequestFragment "/mattermost-ai/bridge/v1/agents" ("user_id=" ++ a) b)
                :: t)) /\
  (exists r t,
     GetServices (NewClient api) (a ++ String "#" b) =
     Some (r, HostPluginHTTP
                (getRequestFragment "/mattermost-ai/bridge/v1/services" ("user_id=" ++ a) b)
                :: t)).
Proof.
  intros Ha Hp Hb.
  assert (N : String.eqb (a ++ String "#" b) "" = false)
    by (destruct a; [congruence|reflexivity]).
  split.
  - apply GetAgents_issues. unfold agentsURL. rewrite N. cbn [negb].
    apply (NewRequest_fragment "/mattermost-ai/bridge/v1/agents");
      try reflexivity; assumption.
  - apply GetServices_issues. unfold servicesURL. rewrite N. cbn [negb].
    apply (NewRequest_fragment "/mattermost-ai/bridge/v1/services");
      try reflexivity; assumption.
Qed.

Lemma X20_witness :
  plainID "u1" = true /\
  exists r t,
    GetAgents (NewClient deadRelay) "u1#admin" =
    Some (r, HostPluginHTTP
               (getRequestFragment "/mattermost-ai/bridge/v1/agents" "user_id=u1" "admin")
               :: t).
Proof.
  split; [reflexivity|].
  exact (proj1 (X20_hash_cuts_the_user_id deadRelay "u1" "admin"
                  (fun H : "u1" = "" =>
                     eq_ind "u1" (fun s => match s with EmptyString => False | _ => True end)
                       I "" H)
                  eq_refl eq_refl)).
Defined.

(** ** Responses that are not 2xx *)

(** C5 (as amended).  A response whose status is not 2xx makes the
    non-streaming calls return the empty string and an error, and the
    streaming calls return no stream handle and an error; the streaming call
    rejects the response before it makes a channel or starts the reader: it
    closes the body itself.  When the body was read to its end, the error
    is "request failed with status N: " followed by [detail]: the server's
    error string when the body is a JSON object whose [error] key holds a
    string, nothing when the body is null or a JSON object without an
    [error] key, and the raw body when the body is not JSON or does not
    decode.  When reading the body failed, the non-streaming call returns
    the read error wrapped in "failed to read response body: ", which names
    no status, and the streaming call "request failed with status N". *)
Theorem C5_non_2xx_is_an_error
    (Marshal : CompletionRequest -> string * option error)
    (c : Client) (url : string) (request : CompletionRequest)
    (resp : http.Response) (t : list Effect) :
  (http.StatusCode resp < 200 \/ 299 < http.StatusCode resp)%Z ->
  (roundTrip Marshal c url request false resp t ->
   doCompletionRequest Marshal c url request =
   Some (("",
          Some (match io.fin (http.Body resp) with
                | EOF =>
                    errorString ("request failed with status "
                                   ++ fmt.d (http.StatusCode resp) ++ ": "
                                   ++ detail (io.data (http.Body resp)))
                | err => wrapError "failed to read response body: " err
                end)),
         t ++ [BodyClose (http.Body resp)])%list) /\
  (roundTrip Marshal c url request true resp t ->
   doStreamingRequest Marshal c url request =
   Some ((None,
          Some (errorString
                  ("request failed with status " ++ fmt.d (http.StatusCode resp)
                     ++ match io.fin (http.Body resp) with
                        | EOF => ": " ++ detail (io.data (http.Body resp))
                        | _ => ""
                        end))),
         t ++ [BodyClose (http.Body resp)])%list) /\
  (forall respBody key message,
     json.parse respBody = Some (json.Object [(key, json.Str message)]) ->
     json.fieldMatches "error" key = true ->
     detail respBody = message) /\
  (forall respBody, json.parse respBody = None -> detail respBody = respBody) /\
  (forall respBody members,
     json.parse respBody = Some (json.Object members) ->
     forallb (fun kv => negb (json.fieldMatches "error" (fst kv))) members = true ->
     detail respBody = "") /\
  (forall agent,
     AgentCompletion Marshal c agent request =
     doCompletionRequest Marshal c
       ("/mattermost-ai/bridge/v1/completion/agent/" ++ agent ++ "/nostream") request) /\
  (forall service,
     ServiceCompletion Marshal c service request =
     doCompletionRequest Marshal c
       ("/mattermost-ai/bridge/v1/completion/service/" ++ service ++ "/nostream") request) /\
  (forall agent,
     AgentCompletionStream Marshal c agent request =
     doStreamingRequest Marshal c
       ("/mattermost-ai/bridge/v1/completion/agent/" ++ agent) request) /\
  (forall service,
     ServiceCompletionStream Marshal c service request =
     doStreamingRequest Marshal c
       ("/mattermost-ai/bridge/v1/completion/service/" ++ service) request).
Proof.
  intros Hcode. apply not_2xx_not_200 in Hcode.
  split; [|split; [|split; [|split; [|split; [|repeat split; reflexivity]]]]].
  - intros RT. rewrite (doCompletionRequest_answered _ _ _ _ _ _ RT).
    assert (Hneq : negb (http.StatusCode resp =? http.StatusOK)%Z = true).
    { apply negb_true_iff, Z.eqb_neq. exact Hcode. }
    unfold io.ReadAll.
    destruct (io.fin (http.Body resp)); try reflexivity.
    rewrite Hneq, statusError_detail. reflexivity.
  - intros RT. rewrite (doStreamingRequest_rejected _ _ _ _ _ _ RT Hcode).
    unfold io.ReadAll.
    destruct (io.fin (http.Body resp)); try (rewrite app_empty_r; reflexivity).
    rewrite statusError_detail. reflexivity.
  - intros respBody key message P K. unfold detail. rewrite P.
    cbn [errorField]. rewrite K. reflexivity.
  - intros respBody P. unfold detail. rewrite P. reflexivity.
  - intros respBody members P K. unfold detail. rewrite P.
    rewrite (errorField_no_key _ _ K). reflexivity.
Qed.

(** Against the claim as it was: a 429 whose body is a JSON object without
    an [error] key gives a message that holds neither the body nor an error
    string of the server; and a non-streaming call whose body cannot be read
    returns an error that does not hold the status. *)
Lemma C5_counterexample_detail_is_not_the_body :
  AgentCompletion sampleMarshal
    (NewClient (relay (response 429 (quoted "{'message':'quota exceeded'}"))))
    "bot" sampleRequest =
  Some (("", Some (errorString "request failed with status 429: ")),
        [HostPluginHTTP
           (postRequest "/mattermost-ai/bridge/v1/completion/agent/bot/nostream"
              (quoted "{'posts':[{'role':'user','message':'hi'}]}") false);
         BodyClose (http.Body (response 429 (quoted "{'message':'quota exceeded'}")))]) /\
  strings.Index "request failed with status 429: "
    (quoted "{'message':'quota exceeded'}") = (-1)%Z /\
  strings.Index "request failed with status 429: " "quota exceeded" = (-1)%Z /\
  AgentCompletion sampleMarshal (NewClient (relay (cutResponse 500 "boom")))
    "bot" sampleRequest =
  Some (("", Some (wrapError "failed to read response body: " ErrUnexpectedEOF)),
        [HostPluginHTTP
           (postRequest "/mattermost-ai/bridge/v1/completion/agent/bot/nostream"
              (quoted "{'posts':[{'role':'user','message':'hi'}]}") false);
         BodyClose (http.Body (cutResponse 500 "boom"))]).
Proof. repeat split. Qed.

Lemma C5_witness :
  (299 < http.StatusCode (response 403 (quoted "{'error':'forbidden'}")))%Z /\
  exists t,
    roundTrip sampleMarshal
      (NewClient (relay (response 403 (quoted "{'error':'forbidden'}"))))
      "/mattermost-ai/bridge/v1/completion/agent/bot/nostream" sampleRequest false
      (response 403 (quoted "{'error':'forbidden'}")) t /\
    doCompletionRequest sampleMarshal
      (NewClient (relay (response 403 (quoted "{'error':'forbidden'}"))))
      "/mattermost-ai/bridge/v1/completion/agent/bot/nostream" sampleRequest =
    Some (("", Some (errorString "request failed with status 403: forbidden")),
          t ++ [BodyClose (http.Body (response 403 (quoted "{'error':'forbidden'}")))])%list.
Proof.
  assert (Hc : (299 < http.StatusCode (response 403 (quoted "{'error':'forbidden'}")))%Z)
    by reflexivity.
  split; [exact Hc|].
  assert (RT : exists t,
             roundTrip sampleMarshal
               (NewClient (relay (response 403 (quoted "{'error':'forbidden'}"))))
               "/mattermost-ai/bridge/v1/completion/agent/bot/nostream" sampleRequest false
               (response 403 (quoted "{'error':'forbidden'}")) t).
  { eexists. unfold roundTrip. eexists. eexists. repeat split; reflexivity. }
  destruct RT as [t RT]. exists t.
  split; [exact RT|].
  exact (proj1 (C5_non_2xx_is_an_error sampleMarshal _ _ sampleRequest
                  (response 403 (quoted "{'error':'forbidden'}")) t
                  (or_intror Hc)) RT).
Defined.

(** ** The discovery calls and the user ID *)






(** ** The Sandboxed Relay without a response *)

Lemma C8_witness :
  PluginHTTP deadRelay (getRequest "/mattermost-ai/bridge/v1/agents" "user_id=u1") = None /\
  GetAgents (NewClient deadRelay) "u1" =
  Some (([], Some (wrapError "failed to execute request: "
                     (urlError "Get" "/mattermost-ai/bridge/v1/agents?user_id=u1"
                        (errorString "failed to make interplugin request")))),
        [HostPluginHTTP (getRequest "/mattermost-ai/bridge/v1/agents" "user_id=u1")]) /\
  AgentCompletionStream sampleMarshal (NewClient deadRelay) "my bot" sampleRequest =
  Some ((None, Some (wrapError "failed to execute request: "
                       (urlError "Post"
                          "/mattermost-ai/bridge/v1/completion/agent/my%20bot"
                          (errorString "failed to make interplugin request")))),
        [HostPluginHTTP
           (postRequest "/mattermost-ai/bridge/v1/completion/agent/my bot"
              (quoted "{'posts':[{'role':'user','message':'hi'}]}") true)]).
Proof.
  split; [reflexivity|]. split.
  - exact (proj1 (proj2 (proj2 (proj2 (C8_sandboxed_relay sampleMarshal deadRelay
                                         (getRequest "/mattermost-ai/bridge/v1/agents"
                                            "user_id=u1"))) eq_refl))
             "u1" eq_refl).
  - exact (proj1 (proj2 (proj2 (proj2 (proj2 (proj2
             (proj2 (proj2 (C8_sandboxed_relay sampleMarshal deadRelay
                              (postRequest "/mattermost-ai/bridge/v1/completion/agent/my bot"
                                 (quoted "{'posts':[{'role':'user','message':'hi'}]}") true)))
                eq_refl))))))
             "my bot" sampleRequest _ _ eq_refl eq_refl eq_refl).
Defined.
